(** * AgniRakshak: wildfire risk tiers and threat assessment

    A shallow embedding of the decision logic of the repository:

    - [simple_predict.py]: [WildfirePredictor] (weather and lightning
      lookups, the five-tier risk index, [predict] and [predict_dict]);
    - [wildfire_model.py]: [WildfirePredictionAPI._get_risk_level],
      [get_lightning_data] and [predict_wildfire_risk];
    - [wildfire_inference_system.py]: the constructor, [_predict_ros],
      [_calculate_fire_behavior], [_generate_threat_assessment],
      [_display_results] and [predict_wildfire_threat];
    - [app_fixed.py]: the two HTTP routes.

    Python floats are IEEE-754 binary64 numbers; they are modelled by the
    standard library's [spec_float] at precision 53 and maximal exponent
    1024, with round-to-nearest-even arithmetic ([SFmul], [SFdiv]).
    Float literals of the source are the binary64 numbers nearest to their
    decimal text. *)

From Stdlib Require Import ZArith Lia Bool List String Ascii.
From Stdlib Require Import Floats.SpecFloat.
Import ListNotations.

Set Implicit Arguments.

Open Scope Z_scope.

(** ** Python floats and the builtins the source applies to them *)

Module F64.

Definition prec : Z := 53.
Definition emax : Z := 1024.

Definition float : Type := spec_float.

(** Well-formed binary64 values: every float Python can hold. *)
Definition valid (x : float) : bool := valid_binary prec emax x.

(** [float(n)] for an integer literal. *)
Definition of_Z (n : Z) : float := binary_normalize prec emax n 0 false.

(** The value of a decimal literal [a/b] (for instance [0.2] is [2/10]):
    division is correctly rounded, so this is the nearest binary64. *)
Definition of_ratio (a b : Z) : float := SFdiv prec emax (of_Z a) (of_Z b).

Definition mul (x y : float) : float := SFmul prec emax x y.
Definition div (x y : float) : float := SFdiv prec emax x y.

(** [x < y], [x > y], [x <= y] on floats; all [false] when a NaN is
    involved. *)
Definition ltb (x y : float) : bool := SFltb x y.
Definition gtb (x y : float) : bool := SFltb y x.
Definition leb (x y : float) : bool := SFleb x y.

(** The builtin [min(a, b)]: keeps [a] unless [b < a]. *)
Definition py_min (a b : float) : float := if ltb b a then b else a.

(** The builtin [max(a, b)]: keeps [a] unless [b > a]. *)
Definition py_max (a b : float) : float := if gtb b a then b else a.

(** The builtin [int(x)] on a float: truncation toward zero; [None]
    stands for the [ValueError] (NaN) or [OverflowError] (infinity). *)
Definition py_int (x : float) : option Z :=
  match x with
  | S754_zero _ => Some 0
  | S754_finite s m e => Some (cond_Zopp s (Z.shiftl (Zpos m) e))
  | S754_infinity _ | S754_nan => None
  end.

(** The float literals of the source. *)
Definition zero : float := S754_zero false.
Definition one : float := S754_finite false 4503599627370496 (-52).
Definition two : float := S754_finite false 4503599627370496 (-51).
Definition five : float := S754_finite false 5629499534213120 (-50).
Definition sixty : float := S754_finite false 8444249301319680 (-47).
Definition hundred : float := S754_finite false 7036874417766400 (-46).
Definition lit_0_01 : float := S754_finite false 5764607523034235 (-59).
Definition lit_0_2 : float := S754_finite false 7205759403792794 (-55).
Definition lit_0_3 : float := S754_finite false 5404319552844595 (-54).
Definition lit_0_4 : float := S754_finite false 7205759403792794 (-54).
Definition lit_0_5 : float := S754_finite false 4503599627370496 (-53).
Definition lit_0_6 : float := S754_finite false 5404319552844595 (-53).
Definition lit_0_7 : float := S754_finite false 6305039478318694 (-53).
Definition lit_0_8 : float := S754_finite false 7205759403792794 (-53).

(** The correctly rounded quotient [N / D] of two positive integers, with
    sign [s]. *)
Definition of_fraction (s : bool) (N D : positive) : float :=
  let '(q, e, l) := SFdiv_core_binary prec emax (Zpos N) 0 (Zpos D) 0 in
  binary_round_aux prec emax s q e l.

(** [a / b] rounded to the nearest integer, ties to even ([0 <= a],
    [0 < b]). *)
Definition rne_div (a b : Z) : Z :=
  let q := a / b in
  match 2 * (a mod b) ?= b with
  | Lt => q
  | Gt => q + 1
  | Eq => if Z.even q then q else q + 1
  end.

(** The builtin [round(x, 2)] on a Python float: the exact value is
    rounded half-even to two decimals, and that decimal is converted back
    to the nearest float. *)
Definition py_round2 (x : float) : float :=
  match x with
  | S754_finite s m e =>
      if 0 <=? e then x
      else match rne_div (Zpos m * 100) (2 ^ (- e)) with
           | Zpos N => of_fraction s N 100
           | _ => S754_zero s
           end
  | _ => x
  end.

End F64.

(** ** Python values, exceptions and standard output *)

Module Py.

Import F64.

Local Open Scope string_scope.

(** A call either returns or raises; [e] is the text of the exception
    ([str(e)]). *)
Inductive outcome (A : Type) : Type :=
| Returned (a : A)
| Raised (e : string).

Arguments Returned {A} a.
Arguments Raised {A} e.

Definition bind {A B : Type} (c : outcome A) (k : A -> outcome B) : outcome B :=
  match c with
  | Returned a => k a
  | Raised e => Raised e
  end.

(** The values that travel through decoded JSON and through the
    dictionaries the program returns.  A dictionary keeps its items in
    insertion order. *)
#[warnings="-register-all"]
Inductive pyval : Type :=
| PyNone
| PyBool (b : bool)
| PyInt (n : Z)
| PyFloat (x : float)
| PyStr (s : string)
| PyList (l : list pyval)
| PyDict (d : list (string * pyval)).

(** Truth value of an object in an [if] or an [and]. *)
Definition truthy (v : pyval) : bool :=
  match v with
  | PyNone => false
  | PyBool b => b
  | PyInt n => negb (n =? 0)%Z
  | PyFloat x => negb (SFeqb x zero)
  | PyStr s => negb (s =? "")
  | PyList l => match l with [] => false | _ => true end
  | PyDict d => match d with [] => false | _ => true end
  end.

(** [type(v).__name__], as it appears in error messages. *)
Definition type_name (v : pyval) : string :=
  match v with
  | PyNone => "NoneType"
  | PyBool _ => "bool"
  | PyInt _ => "int"
  | PyFloat _ => "float"
  | PyStr _ => "str"
  | PyList _ => "list"
  | PyDict _ => "dict"
  end.

(** A string holds the UTF-8 encoding of a Python text.  A byte starts a
    character unless it is a continuation byte [10xxxxxx]; the length of
    the text is the number of its characters. *)
Definition starts_character (c : ascii) : bool :=
  negb (Nat.eqb (nat_of_ascii c / 64) 2).

Fixpoint str_len (s : string) : nat :=
  match s with
  | EmptyString => 0%nat
  | String c rest => ((if starts_character c then 1 else 0) + str_len rest)%nat
  end.

(** [len(v)]; [None] is the [TypeError] of an object without length. *)
Definition len (v : pyval) : option Z :=
  match v with
  | PyStr s => Some (Z.of_nat (str_len s))
  | PyList l => Some (Z.of_nat (List.length l))
  | PyDict d => Some (Z.of_nat (List.length d))
  | _ => None
  end.

Fixpoint assoc (key : string) (d : list (string * pyval)) : option pyval :=
  match d with
  | [] => None
  | (k, v) :: rest => if (k =? key)%string then Some v else assoc key rest
  end.

(** [v.get(key)]: the item, or Python's [None] when the key is missing;
    the outer [None] is the [AttributeError] of a value that is not a
    dictionary. *)
Definition get (v : pyval) (key : string) : option pyval :=
  match v with
  | PyDict d => Some match assoc key d with Some x => x | None => PyNone end
  | _ => None
  end.

(** [d.get(key, default)] on a dictionary known to be one. *)
Definition get_default (d : pyval) (key : string) (default : pyval) : pyval :=
  match d with
  | PyDict items => match assoc key items with Some x => x | None => default end
  | _ => default
  end.

(** [l[i]] on a list: negative indices count from the end; [None] is the
    [IndexError]. *)
Definition getitem {A : Type} (l : list A) (i : Z) : option A :=
  let n := Z.of_nat (List.length l) in
  if (0 <=? i)%Z then nth_error l (Z.to_nat i)
  else if (- n <=? i)%Z then nth_error l (Z.to_nat (n + i))
  else None.

(** [str.lower()] on ASCII letters. *)
Definition lower_ascii (c : ascii) : ascii :=
  let n := nat_of_ascii c in
  if ((65 <=? n) && (n <=? 90))%nat then ascii_of_nat (n + 32) else c.

Fixpoint lower (s : string) : string :=
  match s with
  | EmptyString => EmptyString
  | String c rest => String (lower_ascii c) (lower rest)
  end.

(** What [print] writes: a line is the sequence of the pieces of its
    f-string, a formatted value being kept with its format
    specification. *)
Inductive piece : Type :=
| Text (s : string)
| Fmt (spec : string) (x : float)
| FmtStr (s : string)
| FmtStrs (l : list string).

Definition line : Type := list piece.
Definition stdout : Type := list line.

(** Computations that print and may raise. *)
Definition IO (A : Type) : Type := stdout -> outcome A * stdout.

Definition ret {A : Type} (a : A) : IO A := fun out => (Returned a, out).

Definition raise {A : Type} (e : string) : IO A := fun out => (Raised e, out).

Definition io_bind {A B : Type} (c : IO A) (k : A -> IO B) : IO B :=
  fun out =>
    match c out with
    | (Returned a, out') => k a out'
    | (Raised e, out') => (Raised e, out')
    end.

Definition print (l : line) : IO unit := fun out => (Returned tt, (out ++ [l])%list).

Definition lift {A : Type} (c : outcome A) : IO A := fun out => (c, out).

Declare Scope py_scope.
Delimit Scope py_scope with py.

Notation "'let*' x ':=' c 'in' k" := (bind c (fun x => k))
  (at level 10, x name, c at level 100, k at level 200) : py_scope.
Notation "'do' x '<-' c ';' k" := (io_bind c (fun x => k))
  (at level 10, x name, c at level 100, k at level 200) : py_scope.
Notation "c ';;' k" := (io_bind c (fun _ => k))
  (at level 100, k at level 200, right associativity) : py_scope.

(** [try: body except Exception as e: handler(e)]. *)
Definition try_except {A : Type} (body : IO A) (handler : string -> IO A) : IO A :=
  fun out =>
    match body out with
    | (Returned a, out') => (Returned a, out')
    | (Raised e, out') => handler e out'
    end.

End Py.

(** ** [simple_predict.py]: class [WildfirePredictor] *)

Module simple_predict.

Import F64 Py.

Local Open Scope string_scope.
Local Open Scope py_scope.

(** The dictionary [get_weather_data] builds.  The temperature and the
    humidity have gone through the arithmetic of the vapour pressure
    deficit, the wind speed and the deficit are rounded floats; the
    precipitation is the entry of the answer as it came, and the record
    stands for an answer in which that entry is a number. *)
Record weather_data : Type := {
  tmax_c : float;
  rh_pct : float;
  ws_mean_mps : float;
  precip_mm_24h : float;
  vpd_kpa : float
}.

(** [self.model], as the two calls the source makes on one feature row:
    [predict_proba(features)[0][1]] and [predict(features)[0]]. *)
Record XGBClassifier : Type := {
  predict_proba : list float -> outcome float;
  predict_class : list float -> outcome Z
}.

Record WildfirePredictor : Type := {
  xweather_client_id : option string;
  xweather_client_secret : option string;
  model : XGBClassifier
}.

(** What the program reaches outside itself:
    - [open_meteo lat lon]: the [try] body of [get_weather_data] (request,
      status check, JSON decoding and the derived fields), which either
      builds the weather dictionary or raises;
    - [aeris_lightning id secret lat lon]: [requests.get],
      [raise_for_status] and [response.json()] of [get_lightning_data];
    - [now]: [datetime.now().isoformat()]. *)
Record World : Type := {
  open_meteo : float -> float -> outcome weather_data;
  aeris_lightning : option string -> option string -> float -> float -> outcome pyval;
  now : string
}.

Section Predictor.

Variable w : World.
Variable self : WildfirePredictor.

Definition get_weather_data (lat lon : float) : option weather_data * option string :=
  match open_meteo w lat lon with
  | Returned data => (Some data, None)
  | Raised e => (None, Some ("Error: " ++ e))
  end.

Definition get_lightning_data (lat lon : float) : Z * Z :=
  match aeris_lightning w (xweather_client_id self) (xweather_client_secret self) lat lon with
  | Returned data =>
      match get data "response" with
      | Some response =>
          if truthy response then
            match len response with
            | Some n => if (0 <? n)%Z then (1, n) else (0, 0)
            | None => (0, 0)
            end
          else (0, 0)
      | None => (0, 0)
      end
  | Raised _ => (0, 0)
  end.

(** [if error:] on the second component of [get_weather_data]. *)
Definition is_error (error : option string) : bool :=
  match error with
  | Some msg => negb (msg =? "")
  | None => false
  end.

Definition error_text (error : option string) : string :=
  match error with
  | Some msg => msg
  | None => ""
  end.

(** The row [np.array([[...]])] given to the model. *)
Definition feature_row (data : weather_data) (lightning : Z) : list float :=
  [tmax_c data; rh_pct data; ws_mean_mps data; precip_mm_24h data; vpd_kpa data;
   of_Z lightning].

Definition risk_levels : list string :=
  ["Low"; "Moderate"; "High"; "Very High"; "Extreme"].

(** [int(x)] with its exceptions. *)
Definition int_of_float (x : float) : outcome Z :=
  match py_int x with
  | Some n => Returned n
  | None =>
      match x with
      | S754_nan => Raised "cannot convert float NaN to integer"
      | _ => Raised "cannot convert float infinity to integer"
      end
  end.

(** [risk_index = min(int(probability * 5), 4)]. *)
Definition risk_index (probability : float) : outcome Z :=
  let* i := int_of_float (mul probability five) in
  Returned (Z.min i 4).

(** [risk_levels[risk_index]]. *)
Definition risk_level (probability : float) : outcome string :=
  let* i := risk_index probability in
  match getitem risk_levels i with
  | Some label => Returned label
  | None => Raised "list index out of range"
  end.

(** The [result] dictionary of [predict] and [predict_dict]. *)
Definition result_dict (lat lon : float) (data : weather_data)
    (lightning strike_count : Z) (probability : float) (prediction : Z)
    (label : string) : pyval :=
  PyDict [
    ("timestamp", PyStr (now w));
    ("location", PyDict [("latitude", PyFloat lat); ("longitude", PyFloat lon)]);
    ("weather_conditions", PyDict [
       ("temperature_celsius", PyFloat (tmax_c data));
       ("relative_humidity_percent", PyFloat (rh_pct data));
       ("wind_speed_mps", PyFloat (ws_mean_mps data));
       ("precipitation_mm_24h", PyFloat (precip_mm_24h data));
       ("vapor_pressure_deficit_kpa", PyFloat (vpd_kpa data))]);
    ("lightning_activity", PyDict [
       ("detected", PyBool (negb (lightning =? 0)%Z));
       ("strike_count_24h", PyInt strike_count)]);
    ("wildfire_prediction", PyDict [
       ("fire_risk_percentage", PyFloat (py_round2 (mul probability hundred)));
       ("risk_level", PyStr label);
       ("fire_expected", PyBool (negb (prediction =? 0)%Z))])
  ].

Definition error_dict (msg : string) : pyval :=
  PyDict [("error", PyStr msg); ("timestamp", PyStr (now w))].

(** The text [json.dumps(value, indent=2)] returns, kept as the value it
    serialises. *)
Inductive json_text : Type :=
| json_dumps (value : pyval) (indent : Z).

Definition predict (lat lon : float) : outcome json_text :=
  let '(weather, error) := get_weather_data lat lon in
  if is_error error then Returned (json_dumps (error_dict (error_text error)) 2)
  else
    let '(lightning, strike_count) := get_lightning_data lat lon in
    match weather with
    | None => Raised "'NoneType' object is not subscriptable"
    | Some data =>
        let features := feature_row data lightning in
        let* probability := predict_proba (model self) features in
        let* prediction := predict_class (model self) features in
        let* label := risk_level probability in
        Returned (json_dumps
          (result_dict lat lon data lightning strike_count probability prediction label) 2)
    end.

Definition predict_dict (lat lon : float) : outcome pyval :=
  let '(weather, error) := get_weather_data lat lon in
  if is_error error then Returned (error_dict (error_text error))
  else
    let '(lightning, strike_count) := get_lightning_data lat lon in
    match weather with
    | None => Raised "'NoneType' object is not subscriptable"
    | Some data =>
        let features := feature_row data lightning in
        match (let* probability := predict_proba (model self) features in
               let* prediction := predict_class (model self) features in
               Returned (probability, prediction)) with
        | Raised e => Returned (error_dict ("Model prediction failed: " ++ e))
        | Returned (probability, prediction) =>
            let* label := risk_level probability in
            Returned
              (result_dict lat lon data lightning strike_count probability prediction label)
        end
    end.

End Predictor.

End simple_predict.

(** ** [wildfire_model.py]: class [WildfirePredictionAPI] *)

Module wildfire_model.

Import F64 Py.

Local Open Scope string_scope.
Local Open Scope py_scope.

Record WildfirePredictionAPI : Type := {
  client_id : string;
  client_secret : string;
  base_url : string
}.

Section API.

(** [requests.get(endpoint, params)], [raise_for_status] and
    [response.json()] for a position and a number of hours. *)
Variable lightning_closest :
  WildfirePredictionAPI -> float -> float -> Z -> outcome pyval.

Variable self : WildfirePredictionAPI.

Definition get_lightning_data (lat lon : float) (hours_back : Z) : IO Z :=
  match lightning_closest self lat lon hours_back with
  | Returned data =>
      match get data "response" with
      | Some response =>
          if truthy response then
            match len response with
            | Some n => if (0 <? n)%Z then ret 1%Z else ret 0%Z
            | None =>
                print [Text "Error fetching lightning data: ";
                       FmtStr ("object of type '" ++ type_name response
                               ++ "' has no len()")] ;;
                ret 0%Z
            end
          else ret 0%Z
      | None =>
          print [Text "Error fetching lightning data: ";
                 FmtStr ("'" ++ type_name data
                         ++ "' object has no attribute 'get'")] ;;
          ret 0%Z
      end
  | Raised e =>
      print [Text "Error fetching lightning data: "; FmtStr e] ;;
      ret 0%Z
  end.

End API.

Definition _get_risk_level (probability : float) : string :=
  if ltb probability lit_0_2 then "Low"
  else if ltb probability lit_0_4 then "Moderate"
  else if ltb probability lit_0_6 then "High"
  else if ltb probability lit_0_8 then "Very High"
  else "Extreme".

(** The [weather_data] dictionary given to [predict_wildfire_risk]: the
    five conditions and, when the key is present, [lightning_strike_24h]. *)
Record conditions : Type := {
  tmax_c : float;
  rh_pct : float;
  ws_mean_mps : float;
  precip_mm_24h : float;
  vpd_kpa : float;
  lightning_strike_24h : option Z
}.

(** Truth value of an optional coordinate ([lat=None] by default): [None]
    and both zeros are false, every other float is true. *)
Definition coordinate_given (x : option float) : bool :=
  match x with
  | Some v => negb (SFeqb v zero)
  | None => false
  end.

Section Risk.

Variable lightning_closest :
  WildfirePredictionAPI -> float -> float -> Z -> outcome pyval.

Variable self : WildfirePredictionAPI.

(** [self.model] and [datetime.now().isoformat()]. *)
Variable model : simple_predict.XGBClassifier.
Variable now : string.

Definition predict_wildfire_risk (weather_data : conditions) (use_api : bool)
    (lat lon : option float) : IO simple_predict.json_text :=
  do lightning <-
    match lat, lon with
    | Some latv, Some lonv =>
        if use_api && coordinate_given lat && coordinate_given lon
        then get_lightning_data lightning_closest self latv lonv 24
        else ret (match lightning_strike_24h weather_data with
                  | Some flag => flag
                  | None => 0%Z
                  end)
    | _, _ =>
        ret (match lightning_strike_24h weather_data with
             | Some flag => flag
             | None => 0%Z
             end)
    end ;
  let features :=
    [tmax_c weather_data; rh_pct weather_data; ws_mean_mps weather_data;
     precip_mm_24h weather_data; vpd_kpa weather_data; of_Z lightning] in
  do probability <- lift (simple_predict.predict_proba model features) ;
  do prediction <- lift (simple_predict.predict_class model features) ;
  let result :=
    PyDict [
      ("timestamp", PyStr now);
      ("location",
       match lat, lon with
       | Some latv, Some lonv =>
           if coordinate_given lat && coordinate_given lon
           then PyDict [("latitude", PyFloat latv); ("longitude", PyFloat lonv)]
           else PyNone
       | _, _ => PyNone
       end);
      ("input_conditions", PyDict [
         ("max_temperature_c", PyFloat (tmax_c weather_data));
         ("relative_humidity_pct", PyFloat (rh_pct weather_data));
         ("wind_speed_mps", PyFloat (ws_mean_mps weather_data));
         ("precipitation_mm_24h", PyFloat (precip_mm_24h weather_data));
         ("vapor_pressure_deficit_kpa", PyFloat (vpd_kpa weather_data));
         ("lightning_strike_24h", PyBool (negb (lightning =? 0)%Z))]);
      ("prediction", PyDict [
         ("wildfire_risk_percentage", PyFloat (py_round2 (mul probability hundred)));
         ("risk_level", PyStr (_get_risk_level probability));
         ("fire_predicted", PyBool (negb (prediction =? 0)%Z))])
    ] in
  ret (simple_predict.json_dumps result 2).

End Risk.

End wildfire_model.

(** ** The physics formulas loaded by [wildfire_inference_system.py]

    The inference system executes the file
    [live_api-Inference-follow_data.py] to obtain its formulas.  That file
    is not among the sources, so each formula is a parameter: a function
    of its arguments alone, as the design describes them. *)

Module physics.

Import F64.

Class Formulas : Type := {
  fuel_load_from_ndvi : float -> float;
  fuel_moisture_from_ndvi_ndmi : float -> float -> float;
  slope_multiplier : float -> float;
  aspect_factor : float -> float;
  byram_intensity_kWm : float -> float -> float;
  flame_length_m : float -> float;
  severity_index : float -> float;
  severity_class : float -> string;
  crown_fire_score : float -> float -> float -> float;
  crown_fire_class : float -> string;
  spotting_distance_km : float -> float -> float;
  time_to_burn_window_hours : float -> float -> float;
  damage_in_window_rs : float -> float -> float -> float;
  containment_difficulty : float -> float -> float -> string;
  expected_threat : float -> float -> float
}.

(** Modelled from the spec: [effective_ros], defined in the absent file
    [live_api-Inference-follow_data.py].  The design gives it as
    [ros_base * slope_multiplier(slope_pct) * aspect_factor(aspect_deg)],
    floored at the same positive minimum as the base rate of spread, which
    [_predict_ros] writes [max(0.01, ...)]. *)
Definition effective_ros `{Formulas} (ros_base slope_pct aspect_deg : float) : float :=
  py_max lit_0_01
    (mul (mul ros_base (slope_multiplier slope_pct)) (aspect_factor aspect_deg)).

End physics.

(** ** [wildfire_inference_system.py]: class [WildfireInferenceSystem] *)

Module wildfire_inference_system.

Import F64 Py.

Local Open Scope string_scope.
Local Open Scope py_scope.

(** The dictionary of live features, with the keys of the fallback
    [get_live_features]. *)
Record features : Type := {
  temp_c : float;
  rel_humidity_pct : float;
  wind_speed_ms : float;
  precip_mm : float;
  vpd_kpa : float;
  fwi : float;
  ndvi : float;
  ndmi : float;
  lfmc_proxy_pct : float;
  elevation_m : float;
  slope_pct : float;
  aspect_deg : float
}.

(** [features[col]]; [None] is the [KeyError]. *)
Definition features_item (f : features) (col : string) : option float :=
  if col =? "temp_c" then Some (temp_c f)
  else if col =? "rel_humidity_pct" then Some (rel_humidity_pct f)
  else if col =? "wind_speed_ms" then Some (wind_speed_ms f)
  else if col =? "precip_mm" then Some (precip_mm f)
  else if col =? "vpd_kpa" then Some (vpd_kpa f)
  else if col =? "fwi" then Some (fwi f)
  else if col =? "ndvi" then Some (ndvi f)
  else if col =? "ndmi" then Some (ndmi f)
  else if col =? "lfmc_proxy_pct" then Some (lfmc_proxy_pct f)
  else if col =? "elevation_m" then Some (elevation_m f)
  else if col =? "slope_pct" then Some (slope_pct f)
  else if col =? "aspect_deg" then Some (aspect_deg f)
  else None.

(** The fallback defined when [live_data_fetcher] cannot be imported. *)
Definition fallback_features : features := {|
  temp_c := of_Z 25;
  rel_humidity_pct := of_Z 50;
  wind_speed_ms := of_Z 5;
  precip_mm := of_Z 0;
  vpd_kpa := of_ratio 15 10;
  fwi := of_Z 10;
  ndvi := of_ratio 5 10;
  ndmi := of_ratio 3 10;
  lfmc_proxy_pct := of_Z 100;
  elevation_m := of_Z 500;
  slope_pct := of_Z 10;
  aspect_deg := of_Z 180
|}.

(** [model.predict(feature_array)[0]] and [scaler.transform(feature_array)]
    on one row. *)
Definition regressor : Type := list float -> outcome float.
Definition transformer : Type := list float -> outcome (list float).

(** What [joblib.load] may return: a dictionary (with or without the keys
    the constructor reads) or a bare model. *)
Inductive model_data : Type :=
| ModelDict (model : option regressor) (scaler : option transformer)
            (feature_columns : option (list string))
| ModelObject (model : regressor).

Record WildfireInferenceSystem : Type := {
  model : regressor;
  scaler : option transformer;
  feature_columns : option (list string)
}.

(** The surroundings of the inference system: the live data fetcher when
    its import succeeded, the file system and [joblib.load]. *)
Record World : Type := {
  CURRENT_DIR : string;
  live_data_fetcher : option (float -> float -> IO features);
  path_exists : string -> bool;
  joblib_load : string -> outcome model_data
}.

Definition get_live_features (w : World) (lat lon : float) : IO features :=
  match live_data_fetcher w with
  | Some fetch => fetch lat lon
  | None => ret fallback_features
  end.

(** [os.path.join] on POSIX paths without trailing separators. *)
Definition path_join (parts : list string) : string := String.concat "/" parts.

Definition newline : string := String (ascii_of_nat 10) EmptyString.

Definition rule : string := String.concat "" (repeat "=" 60).

(** [WildfireInferenceSystem(model_path)]. *)
Definition __init__ (w : World) (model_path : option string)
  : IO WildfireInferenceSystem :=
  print [Text "🤖 Loading XGBoost model..."] ;;
  let model_path :=
    match model_path with
    | Some path => path
    | None =>
        let old := path_join [CURRENT_DIR w; "Ros_Pred"; "wildfire_ros_xgboost_model_old.joblib"] in
        if path_exists w old then old
        else
          let alternatives :=
            [path_join [CURRENT_DIR w; "Ros_Pred"; "wildfire_ros_xgboost_model.joblib"];
             path_join [CURRENT_DIR w; "Ros_Pred"; "wildfire_ros_xgboost_model_real.joblib"]] in
          match find (path_exists w) alternatives with
          | Some alt_path => alt_path
          | None => old
          end
    end in
  print [Text "📁 Loading model from: "; FmtStr model_path] ;;
  do data <- try_except (lift (joblib_load w model_path))
               (fun e =>
                  print [Text "❌ Failed to load model from "; FmtStr model_path;
                         Text ": "; FmtStr e] ;;
                  raise e) ;
  let self :=
    match data with
    | ModelDict m sc cols =>
        {| model := match m with
                    | Some f => f
                    | None => fun _ => Raised "'dict' object has no attribute 'predict'"
                    end;
           scaler := sc;
           feature_columns := cols |}
    | ModelObject m => {| model := m; scaler := None; feature_columns := None |}
    end in
  print [Text "✅ Model loaded successfully"] ;;
  match feature_columns self with
  | Some ((_ :: _) as cols) =>
      print [Text "📊 Expected features: "; FmtStrs cols] ;; ret self
  | _ => ret self
  end.

(** The dictionary [_calculate_fire_behavior] returns. *)
Record fire_metrics : Type := {
  ros_base_m_per_min : float;
  ros_effective_m_per_min : float;
  slope_multiplier : float;
  aspect_factor : float;
  fuel_load_kg_m2 : float;
  fuel_moisture_pct : float;
  intensity_kW_per_m : float;
  flame_length_m : float;
  severity_index : float;
  severity_class : string;
  crown_fire_score : float;
  crown_fire_class : string;
  spotting_distance_km : float;
  time_to_burn_5km2_hours : float;
  damage_estimate_rs : float;
  containment_difficulty : string;
  occurrence_probability : float;
  expected_threat : float
}.

(** The dictionary [_generate_threat_assessment] returns. *)
Record assessment : Type := {
  threat_level : string;
  threat_color : string;
  expected_threat_score : float;
  key_concerns : list string;
  summary : string
}.

(** The dictionary [predict_wildfire_threat] returns. *)
Record results : Type := {
  location : float * float;
  live_features : features;
  ros_prediction_m_per_min : float;
  fire_behavior : fire_metrics;
  threat_assessment : assessment
}.

(** [[features[col] for col in cols]]; the [KeyError] of a missing column
    shows its name between quotes, which is how Python writes a name made
    of letters, digits and underscores. *)
Fixpoint lookup_all (f : features) (cols : list string) : outcome (list float) :=
  match cols with
  | [] => Returned []
  | col :: rest =>
      match features_item f col with
      | Some x => let* xs := lookup_all f rest in Returned (x :: xs)
      | None => Raised ("'" ++ col ++ "'")
      end
  end.

Section Methods.

Context {formulas : physics.Formulas}.

Variable self : WildfireInferenceSystem.

Definition _predict_ros (f : features) : IO float :=
  do feature_array <-
    lift match feature_columns self with
         | Some ((_ :: _) as cols) => lookup_all f cols
         | _ =>
             Returned [temp_c f; rel_humidity_pct f; wind_speed_ms f; precip_mm f;
                       vpd_kpa f; fwi f; ndvi f; ndmi f; lfmc_proxy_pct f;
                       elevation_m f; slope_pct f; aspect_deg f]
         end ;
  do feature_array <-
    lift match scaler self with
         | Some transform => transform feature_array
         | None => Returned feature_array
         end ;
  do ros_prediction <- lift (model self feature_array) ;
  let ros_prediction := py_max lit_0_01 ros_prediction in
  print [Text "🔥 Predicted ROS: "; Fmt ".4f" ros_prediction; Text " m/min"] ;;
  ret ros_prediction.

Definition _calculate_fire_behavior (f : features) (ros_m_min : float)
  : IO fire_metrics :=
  let temp_c := temp_c f in
  let humidity_pct := rel_humidity_pct f in
  let wind_ms := wind_speed_ms f in
  let precip_mm := precip_mm f in
  let ndvi := ndvi f in
  let ndmi := ndmi f in
  let slope_pct := slope_pct f in
  let aspect_deg := aspect_deg f in
  print [Text "   Calculating fuel properties..."] ;;
  let fuel_load := physics.fuel_load_from_ndvi ndvi in
  let fuel_moisture := physics.fuel_moisture_from_ndvi_ndmi ndvi ndmi in
  print [Text "   Calculating terrain effects..."] ;;
  let slope_mult := physics.slope_multiplier slope_pct in
  let aspect_fact := physics.aspect_factor aspect_deg in
  let ros_effective := physics.effective_ros ros_m_min slope_pct aspect_deg in
  print [Text "   Calculating fire intensity..."] ;;
  let intensity := physics.byram_intensity_kWm ros_effective fuel_load in
  let flame_length := physics.flame_length_m intensity in
  let severity_idx := physics.severity_index flame_length in
  let severity_cls := physics.severity_class flame_length in
  print [Text "   Calculating crown fire potential..."] ;;
  let crown_score := physics.crown_fire_score intensity wind_ms ndvi in
  let crown_cls := physics.crown_fire_class crown_score in
  print [Text "   Calculating spotting and spread..."] ;;
  let spotting_dist := physics.spotting_distance_km wind_ms flame_length in
  print [Text "   Calculating time and damage estimates..."] ;;
  let burn_time_5km2 := physics.time_to_burn_window_hours ros_effective five in
  let damage_estimate := physics.damage_in_window_rs ros_effective (of_Z 50000) five in
  print [Text "   Calculating containment difficulty..."] ;;
  let containment := physics.containment_difficulty flame_length slope_pct two in
  let occurrence_prob := py_min one (mul severity_idx (div crown_score hundred)) in
  let expected_threat_score := physics.expected_threat occurrence_prob severity_idx in
  ret {|
    ros_base_m_per_min := ros_m_min;
    ros_effective_m_per_min := ros_effective;
    slope_multiplier := slope_mult;
    aspect_factor := aspect_fact;
    fuel_load_kg_m2 := fuel_load;
    fuel_moisture_pct := fuel_moisture;
    intensity_kW_per_m := intensity;
    flame_length_m := flame_length;
    severity_index := severity_idx;
    severity_class := severity_cls;
    crown_fire_score := crown_score;
    crown_fire_class := crown_cls;
    spotting_distance_km := spotting_dist;
    time_to_burn_5km2_hours := burn_time_5km2;
    damage_estimate_rs := damage_estimate;
    containment_difficulty := containment;
    occurrence_probability := occurrence_prob;
    expected_threat := expected_threat_score
  |}.

Definition _generate_threat_assessment (m : fire_metrics) : assessment :=
  let severity_class := severity_class m in
  let crown_class := crown_fire_class m in
  let containment := containment_difficulty m in
  let expected_threat := expected_threat m in
  let '(threat_level, threat_color) :=
    if gtb expected_threat lit_0_7 || (severity_class =? "Extreme")
    then ("EXTREME", "🔴")
    else if gtb expected_threat lit_0_5 || (severity_class =? "High")
    then ("HIGH", "🟠")
    else if gtb expected_threat lit_0_3 || (severity_class =? "Moderate")
    then ("MODERATE", "🟡")
    else ("LOW", "🟢") in
  let concerns : list string := [] in
  let concerns :=
    if gtb (crown_fire_score m) sixty
    then (concerns ++ ["High crown fire potential"])%list else concerns in
  let concerns :=
    if gtb (spotting_distance_km m) two
    then (concerns ++ ["Long-range spotting risk"])%list else concerns in
  let concerns :=
    if ltb (time_to_burn_5km2_hours m) two
    then (concerns ++ ["Rapid fire spread"])%list else concerns in
  let concerns :=
    if existsb (String.eqb containment) ["Hard"; "Very difficult"]
    then (concerns ++ ["Difficult suppression conditions"])%list else concerns in
  {|
    threat_level := threat_level;
    threat_color := threat_color;
    expected_threat_score := expected_threat;
    key_concerns := concerns;
    summary := threat_color ++ " " ++ threat_level ++ " wildfire threat with "
               ++ lower severity_class ++ " severity and " ++ lower crown_class
               ++ " crown fire potential"
  |}.

Fixpoint print_concerns (concerns : list string) : IO unit :=
  match concerns with
  | [] => ret tt
  | concern :: rest => print [Text "   • "; FmtStr concern] ;; print_concerns rest
  end.

Definition _display_results (r : results) : IO unit :=
  print [Text (newline ++ rule)] ;;
  print [Text "🔥 WILDFIRE THREAT ASSESSMENT RESULTS"] ;;
  print [Text rule] ;;
  let loc := location r in
  let f := live_features r in
  let ros := ros_prediction_m_per_min r in
  let fire := fire_behavior r in
  let threat := threat_assessment r in
  print [Text "📍 Location: "; Fmt ".4f" (fst loc); Text ", "; Fmt ".4f" (snd loc)] ;;
  print [FmtStr (threat_color threat); Text " Overall Threat: ";
         FmtStr (threat_level threat)] ;;
  print [Text "📊 Expected Threat Score: "; Fmt ".3f" (expected_threat_score threat)] ;;
  print [] ;;
  print [Text "🌡️ ENVIRONMENTAL CONDITIONS:"] ;;
  print [Text "   Temperature: "; Fmt ".1f" (temp_c f); Text "°C"] ;;
  print [Text "   Humidity: "; Fmt ".1f" (rel_humidity_pct f); Text "%"] ;;
  print [Text "   Wind Speed: "; Fmt ".1f" (wind_speed_ms f); Text " m/s"] ;;
  print [Text "   VPD: "; Fmt ".3f" (vpd_kpa f); Text " kPa"] ;;
  print [Text "   Fire Weather Index: "; Fmt ".2f" (fwi f)] ;;
  print [] ;;
  print [Text "🌿 VEGETATION & TERRAIN:"] ;;
  print [Text "   NDVI: "; Fmt ".3f" (ndvi f)] ;;
  print [Text "   Elevation: "; Fmt ".0f" (elevation_m f); Text "m"] ;;
  print [Text "   Slope: "; Fmt ".1f" (slope_pct f); Text "%"] ;;
  print [Text "   Aspect: "; Fmt ".1f" (aspect_deg f); Text "°"] ;;
  print [] ;;
  print [Text "🔥 FIRE BEHAVIOR PREDICTION:"] ;;
  print [Text "   Rate of Spread: "; Fmt ".3f" ros; Text " m/min"] ;;
  print [Text "   Effective ROS: "; Fmt ".3f" (ros_effective_m_per_min fire);
         Text " m/min"] ;;
  print [Text "   Flame Length: "; Fmt ".2f" (flame_length_m fire); Text " m"] ;;
  print [Text "   Fire Intensity: "; Fmt ".0f" (intensity_kW_per_m fire);
         Text " kW/m"] ;;
  print [Text "   Severity: "; FmtStr (severity_class fire)] ;;
  print [] ;;
  print [Text "👑 CROWN FIRE ASSESSMENT:"] ;;
  print [Text "   Crown Fire Score: "; Fmt "" (crown_fire_score fire); Text "/100"] ;;
  print [Text "   Crown Fire Class: "; FmtStr (crown_fire_class fire)] ;;
  print [] ;;
  print [Text "⚡ SPREAD CHARACTERISTICS:"] ;;
  print [Text "   Spotting Distance: "; Fmt ".2f" (spotting_distance_km fire);
         Text " km"] ;;
  print [Text "   Time to burn 5km²: "; Fmt ".1f" (time_to_burn_5km2_hours fire);
         Text " hours"] ;;
  print [Text "   Containment: "; FmtStr (containment_difficulty fire)] ;;
  print [] ;;
  print [Text "💰 IMPACT ESTIMATES:"] ;;
  print [Text "   Damage (5km²): ₹"; Fmt ",.0f" (damage_estimate_rs fire)] ;;
  print [] ;;
  match key_concerns threat with
  | [] => ret tt
  | concerns =>
      print [Text "⚠️ KEY CONCERNS:"] ;;
      print_concerns concerns ;;
      print []
  end ;;
  print [Text "📋 SUMMARY: "; FmtStr (summary threat)] ;;
  print [Text rule].

Variable w : World.

Definition predict_wildfire_threat (lat lon : float) : IO results :=
  print [Text "🔥 WILDFIRE THREAT PREDICTION FOR ("; Fmt "" lat; Text ", ";
         Fmt "" lon; Text ")"] ;;
  print [Text rule] ;;
  print [Text "📡 STEP 1: Fetching live data..."] ;;
  do f <- get_live_features w lat lon ;
  print [Text (newline ++ "🤖 STEP 2: Predicting Rate of Spread...")] ;;
  do ros_prediction <- _predict_ros f ;
  print [Text (newline ++ "⚗️ STEP 3: Calculating fire behavior metrics...")] ;;
  do fire_metrics <- _calculate_fire_behavior f ros_prediction ;
  print [Text (newline ++ "🎯 STEP 4: Generating threat assessment...")] ;;
  let threat_assessment := _generate_threat_assessment fire_metrics in
  let results := {|
    location := (lat, lon);
    live_features := f;
    ros_prediction_m_per_min := ros_prediction;
    fire_behavior := fire_metrics;
    threat_assessment := threat_assessment
  |} in
  _display_results results ;;
  ret results.

End Methods.

(** The dictionaries above as the values [jsonify] serialises, keys in
    insertion order. *)
Definition features_dict (f : features) : pyval :=
  PyDict [
    ("temp_c", PyFloat (temp_c f));
    ("rel_humidity_pct", PyFloat (rel_humidity_pct f));
    ("wind_speed_ms", PyFloat (wind_speed_ms f));
    ("precip_mm", PyFloat (precip_mm f));
    ("vpd_kpa", PyFloat (vpd_kpa f));
    ("fwi", PyFloat (fwi f));
    ("ndvi", PyFloat (ndvi f));
    ("ndmi", PyFloat (ndmi f));
    ("lfmc_proxy_pct", PyFloat (lfmc_proxy_pct f));
    ("elevation_m", PyFloat (elevation_m f));
    ("slope_pct", PyFloat (slope_pct f));
    ("aspect_deg", PyFloat (aspect_deg f))
  ].

Definition fire_metrics_dict (m : fire_metrics) : pyval :=
  PyDict [
    ("ros_base_m_per_min", PyFloat (ros_base_m_per_min m));
    ("ros_effective_m_per_min", PyFloat (ros_effective_m_per_min m));
    ("slope_multiplier", PyFloat (slope_multiplier m));
    ("aspect_factor", PyFloat (aspect_factor m));
    ("fuel_load_kg_m2", PyFloat (fuel_load_kg_m2 m));
    ("fuel_moisture_pct", PyFloat (fuel_moisture_pct m));
    ("intensity_kW_per_m", PyFloat (intensity_kW_per_m m));
    ("flame_length_m", PyFloat (flame_length_m m));
    ("severity_index", PyFloat (severity_index m));
    ("severity_class", PyStr (severity_class m));
    ("crown_fire_score", PyFloat (crown_fire_score m));
    ("crown_fire_class", PyStr (crown_fire_class m));
    ("spotting_distance_km", PyFloat (spotting_distance_km m));
    ("time_to_burn_5km2_hours", PyFloat (time_to_burn_5km2_hours m));
    ("damage_estimate_rs", PyFloat (damage_estimate_rs m));
    ("containment_difficulty", PyStr (containment_difficulty m));
    ("occurrence_probability", PyFloat (occurrence_probability m));
    ("expected_threat", PyFloat (expected_threat m))
  ].

Definition assessment_dict (a : assessment) : pyval :=
  PyDict [
    ("threat_level", PyStr (threat_level a));
    ("threat_color", PyStr (threat_color a));
    ("expected_threat_score", PyFloat (expected_threat_score a));
    ("key_concerns", PyList (map PyStr (key_concerns a)));
    ("summary", PyStr (summary a))
  ].

Definition results_dict (r : results) : pyval :=
  PyDict [
    ("location", PyDict [("lat", PyFloat (fst (location r)));
                         ("lon", PyFloat (snd (location r)))]);
    ("live_features", features_dict (live_features r));
    ("ros_prediction_m_per_min", PyFloat (ros_prediction_m_per_min r));
    ("fire_behavior", fire_metrics_dict (fire_behavior r));
    ("threat_assessment", assessment_dict (threat_assessment r))
  ].

End wildfire_inference_system.

(** ** [app_fixed.py]: the HTTP routes *)

Module app_fixed.

Import F64 Py.

Local Open Scope string_scope.
Local Open Scope py_scope.

(** A view's return value: the JSON body and the status code. *)
Definition response : Type := (pyval * Z)%type.

(** [jsonify(body)] and [jsonify(body), status]. *)
Definition jsonify (body : pyval) : response := (body, 200%Z).
Definition jsonify_status (body : pyval) (status : Z) : response := (body, status).

(** The status the client receives: the view's own, or 500 when the view
    raised and the framework answered in its place. *)
Definition status_of (r : outcome response) : Z :=
  match r with
  | Returned (_, status) => status
  | Raised _ => 500%Z
  end.

(** [convert_numpy_types]: NumPy scalars are identified here with the
    Python scalars of the same value, so the conversion is the traversal
    of dictionaries and lists that the source performs. *)
Fixpoint convert_numpy_types (obj : pyval) : pyval :=
  match obj with
  | PyDict d =>
      PyDict (map (fun item => let '(key, value) := item in
                               (key, convert_numpy_types value)) d)
  | PyList l => PyList (map convert_numpy_types l)
  | _ => obj
  end.

Section Routes.

(** The builtin [float] applied to a query-string value; [None] is its
    [ValueError]. *)
Variable float_of_string : string -> option float.

Variable w : simple_predict.World.
Variable predictor : simple_predict.WildfirePredictor.

(** [request.args.get('lat')] and [request.args.get('lon')] are the two
    arguments. *)
Definition predict_route (lat lon : option string) : outcome response :=
  match lat, lon with
  | Some lat, Some lon =>
      match float_of_string lat with
      | None => Returned (jsonify_status (PyDict [("error", PyStr "Invalid lat or lon values")]) 400)
      | Some latf =>
          match float_of_string lon with
          | None => Returned (jsonify_status (PyDict [("error", PyStr "Invalid lat or lon values")]) 400)
          | Some lonf =>
              let* result := simple_predict.predict_dict w predictor latf lonf in
              Returned (jsonify result)
          end
      end
  | _, _ =>
      Returned (jsonify_status (PyDict [("error", PyStr "Missing lat or lon parameters")]) 400)
  end.

(** [from wildfire_inference_system import WildfireInferenceSystem], as
    the route finds it.  The first import, and every import after a failed
    one, runs the top level of the module and of the files it loads, which
    print their own lines and raise when the physics file cannot be
    loaded; an import that finds the module loaded prints nothing. *)
Variable formulas : IO physics.Formulas.
Variable iw : wildfire_inference_system.World.

(** The body of the [try] in [analyze_threat_route]: import of the
    inference module, construction of the system, prediction, conversion
    and serialisation. *)
Definition comprehensive_analysis (latf lonf : float) : IO response :=
  do ph <- formulas ;
  print [Text "🔥 Initializing comprehensive threat analysis for (";
         Fmt "" latf; Text ", "; Fmt "" lonf; Text ")"] ;;
  do threat_system <- wildfire_inference_system.__init__ iw None ;
  do result <- wildfire_inference_system.predict_wildfire_threat
                 (formulas := ph) threat_system iw latf lonf ;
  let result := convert_numpy_types
                  (wildfire_inference_system.results_dict result) in
  print [Text "✅ Threat analysis completed successfully"] ;;
  ret (jsonify result).

Definition analyze_threat_route (lat lon : option string) : IO response :=
  match lat, lon with
  | Some lat, Some lon =>
      match float_of_string lat with
      | None => ret (jsonify_status (PyDict [("error", PyStr "Invalid lat or lon values")]) 400)
      | Some latf =>
          match float_of_string lon with
          | None => ret (jsonify_status (PyDict [("error", PyStr "Invalid lat or lon values")]) 400)
          | Some lonf =>
              try_except
                (comprehensive_analysis latf lonf)
                (fun e =>
                   print [Text "❌ Threat analysis failed: "; FmtStr e] ;;
                   do basic_prediction <-
                     lift (simple_predict.predict_dict w predictor latf lonf) ;
                   ret (jsonify_status
                          (PyDict [
                             ("error", PyStr ("Comprehensive threat analysis failed: " ++ e));
                             ("timestamp",
                              get_default basic_prediction "timestamp"
                                (PyStr (simple_predict.now w)));
                             ("fallback_data", basic_prediction)])
                          500))
          end
      end
  | _, _ =>
      ret (jsonify_status (PyDict [("error", PyStr "Missing lat or lon parameters")]) 400)
  end.

End Routes.

End app_fixed.

(** ** Predicates and sample data used in the statements below *)

Module Scenarios.

Import F64 Py.

Local Open Scope string_scope.

(** ['key' in d]. *)
Definition has_key (v : pyval) (key : string) : bool :=
  match v with
  | PyDict d => match assoc key d with Some _ => true | None => false end
  | _ => false
  end.

(** A request is malformed when a parameter is missing or is not the text
    of a float, [float_of_string] being the builtin [float]. *)
Definition malformed (float_of_string : string -> option float)
    (lat lon : option string) : Prop :=
  match lat, lon with
  | Some lat, Some lon => float_of_string lat = None \/ float_of_string lon = None
  | _, _ => True
  end.

(** A world that differs only in what the lightning request does. *)
Definition with_lightning (w : simple_predict.World) (answer : outcome pyval)
  : simple_predict.World :=
  {| simple_predict.open_meteo := simple_predict.open_meteo w;
     simple_predict.aeris_lightning := fun _ _ _ _ => answer;
     simple_predict.now := simple_predict.now w |}.

(** The decoded answer of the lightning service when it reports no
    strike, and when it reports [n] of them. *)
Definition no_strikes : pyval :=
  PyDict [("success", PyBool true); ("error", PyNone); ("response", PyList [])].

Definition strikes (n : nat) : pyval :=
  PyDict [("success", PyBool true); ("error", PyNone);
          ("response", PyList (repeat (PyDict []) n))].

(** Plain decimal numerals, [-12.5] or [19.05822], read as [float] reads
    them; any other text is refused here. *)
Definition digit_value (c : ascii) : option Z :=
  let n := nat_of_ascii c in
  if ((48 <=? n) && (n <=? 57))%nat then Some (Z.of_nat (n - 48)) else None.

Fixpoint scan_decimal (s : string) (seen_dot seen_digit : bool) (num den : Z)
  : option (Z * Z) :=
  match s with
  | EmptyString => if seen_digit then Some (num, den) else None
  | String c rest =>
      if (c =? ".")%char then
        if seen_dot then None else scan_decimal rest true seen_digit num den
      else
        match digit_value c with
        | Some d =>
            scan_decimal rest seen_dot true (10 * num + d)
              (if seen_dot then 10 * den else den)
        | None => None
        end
  end.

Definition float_of_decimal (s : string) : option float :=
  let '(sign, body) :=
    match s with
    | String c rest => if (c =? "-")%char then (true, rest) else (false, s)
    | EmptyString => (false, s)
    end in
  match scan_decimal body false false 0 1 with
  | Some (Zpos num, Zpos den) => Some (of_fraction sign num den)
  | Some (0, _) => Some (S754_zero sign)
  | _ => None
  end.

(** A weather service that answers, with a warm dry afternoon. *)
Definition fair_weather : simple_predict.weather_data :=
  {| simple_predict.tmax_c := of_Z 31;
     simple_predict.rh_pct := of_Z 22;
     simple_predict.ws_mean_mps := of_ratio 325 100;
     simple_predict.precip_mm_24h := of_Z 0;
     simple_predict.vpd_kpa := of_ratio 35 10 |}.

Definition calm_world : simple_predict.World :=
  {| simple_predict.open_meteo := fun _ _ => Returned fair_weather;
     simple_predict.aeris_lightning := fun _ _ _ _ => Returned no_strikes;
     simple_predict.now := "2025-01-01T12:00:00" |}.

Definition weather_down : simple_predict.World :=
  {| simple_predict.open_meteo := fun _ _ => Raised "Connection refused";
     simple_predict.aeris_lightning := fun _ _ _ _ => Returned no_strikes;
     simple_predict.now := "2025-01-01T12:00:00" |}.

Definition lightning_down : simple_predict.World :=
  with_lightning calm_world (Raised "HTTPSConnectionPool: Read timed out.").

(** A classifier that answers a probability of 0.1, and one whose
    [predict_proba] raises. *)
Definition steady_model : simple_predict.XGBClassifier :=
  {| simple_predict.predict_proba := fun _ => Returned (of_ratio 1 10);
     simple_predict.predict_class := fun _ => Returned 0%Z |}.

Definition broken_model : simple_predict.XGBClassifier :=
  {| simple_predict.predict_proba := fun _ => Raised "feature shape mismatch";
     simple_predict.predict_class := fun _ => Returned 0%Z |}.

Definition predictor_with (m : simple_predict.XGBClassifier)
  : simple_predict.WildfirePredictor :=
  {| simple_predict.xweather_client_id := Some "demo";
     simple_predict.xweather_client_secret := Some "demo";
     simple_predict.model := m |}.

(** A sample set of formulas for running the inference pipeline; the
    repository's own are not among the sources. *)
#[local] Instance sample_formulas : physics.Formulas := {|
  physics.fuel_load_from_ndvi := fun ndvi => py_max zero ndvi;
  physics.fuel_moisture_from_ndvi_ndmi :=
    fun ndvi ndmi => py_min hundred (py_max zero (mul hundred ndmi));
  physics.slope_multiplier := fun _ => one;
  physics.aspect_factor := fun _ => one;
  physics.byram_intensity_kWm := fun ros fuel_load => mul (of_Z 300) (mul ros fuel_load);
  physics.flame_length_m := fun intensity => div intensity hundred;
  physics.severity_index := fun flame_length => py_min one (py_max zero flame_length);
  physics.severity_class :=
    fun flame_length => if gtb flame_length two then "Extreme" else "Low";
  physics.crown_fire_score :=
    fun intensity wind_ms ndvi => py_min hundred (py_max zero (mul intensity wind_ms));
  physics.crown_fire_class := fun score => if gtb score sixty then "High" else "Low";
  physics.spotting_distance_km := fun wind_ms flame_length => mul wind_ms flame_length;
  physics.time_to_burn_window_hours := fun ros area => div area ros;
  physics.damage_in_window_rs := fun ros cost area => mul (mul ros cost) area;
  physics.containment_difficulty :=
    fun flame_length slope_pct distance => if gtb flame_length two then "Hard" else "Easy";
  physics.expected_threat := fun probability severity => mul probability severity
|}.

(** The first import of the inference module on a machine where
    [live_data_fetcher] is missing and the physics file loads: the two
    lines of its top level, then the formulas. *)
Definition first_import : IO physics.Formulas :=
  io_bind (print [Text "⚠️ Failed to import live_data_fetcher: ";
                  FmtStr "No module named 'live_data_fetcher'"])
    (fun _ => io_bind (print [Text "✅ Physics formulas loaded"])
                (fun _ => ret sample_formulas)).

(** An inference system whose model predicts a spread of 2 m/min, and one
    whose model predicts a negative value. *)
Definition system_predicting (x : float)
  : wildfire_inference_system.WildfireInferenceSystem :=
  {| wildfire_inference_system.model := fun _ => Returned x;
     wildfire_inference_system.scaler := None;
     wildfire_inference_system.feature_columns := None |}.

Definition inference_world : wildfire_inference_system.World :=
  {| wildfire_inference_system.CURRENT_DIR := "/srv/Threat_Predictor";
     wildfire_inference_system.live_data_fetcher := None;
     wildfire_inference_system.path_exists := fun _ => true;
     wildfire_inference_system.joblib_load :=
       fun _ => Returned (wildfire_inference_system.ModelObject
                            (fun _ => Returned (of_Z 2))) |}.

Definition no_model_file : wildfire_inference_system.World :=
  {| wildfire_inference_system.CURRENT_DIR := "/srv/Threat_Predictor";
     wildfire_inference_system.live_data_fetcher := None;
     wildfire_inference_system.path_exists := fun _ => false;
     wildfire_inference_system.joblib_load :=
       fun _ => Raised "No such file or directory" |}.

(** Quiet metrics (every number at its mildest) apart from the fields the
    threat level reads, and apart from the fields the concerns read. *)
Definition metrics_with_threat (class : string) (threat : float)
  : wildfire_inference_system.fire_metrics :=
  {| wildfire_inference_system.ros_base_m_per_min := lit_0_01;
     wildfire_inference_system.ros_effective_m_per_min := lit_0_01;
     wildfire_inference_system.slope_multiplier := one;
     wildfire_inference_system.aspect_factor := one;
     wildfire_inference_system.fuel_load_kg_m2 := zero;
     wildfire_inference_system.fuel_moisture_pct := zero;
     wildfire_inference_system.intensity_kW_per_m := zero;
     wildfire_inference_system.flame_length_m := zero;
     wildfire_inference_system.severity_index := zero;
     wildfire_inference_system.severity_class := class;
     wildfire_inference_system.crown_fire_score := zero;
     wildfire_inference_system.crown_fire_class := "Low";
     wildfire_inference_system.spotting_distance_km := zero;
     wildfire_inference_system.time_to_burn_5km2_hours := hundred;
     wildfire_inference_system.damage_estimate_rs := zero;
     wildfire_inference_system.containment_difficulty := "Easy";
     wildfire_inference_system.occurrence_probability := zero;
     wildfire_inference_system.expected_threat := threat |}.

Definition metrics_with_concerns (crown spotting burn_hours : float)
    (containment : string) : wildfire_inference_system.fire_metrics :=
  {| wildfire_inference_system.ros_base_m_per_min := lit_0_01;
     wildfire_inference_system.ros_effective_m_per_min := lit_0_01;
     wildfire_inference_system.slope_multiplier := one;
     wildfire_inference_system.aspect_factor := one;
     wildfire_inference_system.fuel_load_kg_m2 := zero;
     wildfire_inference_system.fuel_moisture_pct := zero;
     wildfire_inference_system.intensity_kW_per_m := zero;
     wildfire_inference_system.flame_length_m := zero;
     wildfire_inference_system.severity_index := zero;
     wildfire_inference_system.severity_class := "Low";
     wildfire_inference_system.crown_fire_score := crown;
     wildfire_inference_system.crown_fire_class := "Low";
     wildfire_inference_system.spotting_distance_km := spotting;
     wildfire_inference_system.time_to_burn_5km2_hours := burn_hours;
     wildfire_inference_system.damage_estimate_rs := zero;
     wildfire_inference_system.containment_difficulty := containment;
     wildfire_inference_system.occurrence_probability := zero;
     wildfire_inference_system.expected_threat := zero |}.

End Scenarios.

(** ** Readings used in the further properties *)

Module Readings.

Import F64 Py.

Local Open Scope string_scope.

(** The number of strikes a decoded answer of the lightning service
    carries: the length of its ['response'] entry, 0 when the request
    raised, when the answer is not a dictionary, or when the entry is
    missing or has no length. *)
Definition strike_count (answer : outcome pyval) : Z :=
  match answer with
  | Returned data =>
      match get data "response" with
      | Some response => match len response with Some n => n | None => 0%Z end
      | None => 0%Z
      end
  | Raised _ => 0%Z
  end.

(** Whether processing an answer of the lightning service raises inside
    [get_lightning_data]. *)
Definition lookup_fails (answer : outcome pyval) : bool :=
  match answer with
  | Returned data =>
      match get data "response" with
      | Some response =>
          truthy response && match len response with Some _ => false | None => true end
      | None => true
      end
  | Raised _ => true
  end.

(** The twelve keys [_predict_ros] reads when the loaded model names no
    columns, in the order in which it reads them. *)
Definition default_columns : list string :=
  ["temp_c"; "rel_humidity_pct"; "wind_speed_ms"; "precip_mm"; "vpd_kpa"; "fwi";
   "ndvi"; "ndmi"; "lfmc_proxy_pct"; "elevation_m"; "slope_pct"; "aspect_deg"].

(** The model files the constructor looks for when it is given no path. *)
Definition old_model_path (w : wildfire_inference_system.World) : string :=
  wildfire_inference_system.path_join
    [wildfire_inference_system.CURRENT_DIR w; "Ros_Pred";
     "wildfire_ros_xgboost_model_old.joblib"].

Definition new_model_path (w : wildfire_inference_system.World) : string :=
  wildfire_inference_system.path_join
    [wildfire_inference_system.CURRENT_DIR w; "Ros_Pred";
     "wildfire_ros_xgboost_model.joblib"].

Definition real_model_path (w : wildfire_inference_system.World) : string :=
  wildfire_inference_system.path_join
    [wildfire_inference_system.CURRENT_DIR w; "Ros_Pred";
     "wildfire_ros_xgboost_model_real.joblib"].

(** The lines the constructor prints before it loads a file and after it
    has loaded one. *)
Definition loading_lines (path : string) : list line :=
  [[Text "🤖 Loading XGBoost model..."];
   [Text "📁 Loading model from: "; FmtStr path]].

Definition loaded_lines (columns : option (list string)) : list line :=
  [Text "✅ Model loaded successfully"]
  :: match columns with
     | Some ((_ :: _) as cols) => [[Text "📊 Expected features: "; FmtStrs cols]]
     | _ => []
     end.

(** The threat levels in increasing order, and the level each of the two
    inputs of the assessment asks for on its own: the expected threat
    through the thresholds 0.3, 0.5 and 0.7, the severity class by its
    name. *)
Definition level_rank (level : string) : Z :=
  if level =? "EXTREME" then 3
  else if level =? "HIGH" then 2
  else if level =? "MODERATE" then 1
  else 0.

Definition score_tier (expected_threat : float) : Z :=
  if gtb expected_threat lit_0_7 then 3
  else if gtb expected_threat lit_0_5 then 2
  else if gtb expected_threat lit_0_3 then 1
  else 0.

Definition class_tier (severity_class : string) : Z :=
  if severity_class =? "Extreme" then 3
  else if severity_class =? "High" then 2
  else if severity_class =? "Moderate" then 1
  else 0.

(** The same conditions with another ['lightning_strike_24h'] entry, or
    without one. *)
Definition with_flag (c : wildfire_model.conditions) (flag : option Z)
  : wildfire_model.conditions :=
  {| wildfire_model.tmax_c := wildfire_model.tmax_c c;
     wildfire_model.rh_pct := wildfire_model.rh_pct c;
     wildfire_model.ws_mean_mps := wildfire_model.ws_mean_mps c;
     wildfire_model.precip_mm_24h := wildfire_model.precip_mm_24h c;
     wildfire_model.vpd_kpa := wildfire_model.vpd_kpa c;
     wildfire_model.lightning_strike_24h := flag |}.

(** The entry [key] of the sub-dictionary [section] of a result. *)
Definition entry (v : pyval) (section key : string) : option pyval :=
  match get v section with
  | Some inner => get inner key
  | None => None
  end.

(** The high-risk example of [wildfire_model.py]. *)
Definition high_risk_data : wildfire_model.conditions :=
  {| wildfire_model.tmax_c := of_Z 38;
     wildfire_model.rh_pct := of_Z 15;
     wildfire_model.ws_mean_mps := of_Z 12;
     wildfire_model.precip_mm_24h := of_Z 0;
     wildfire_model.vpd_kpa := of_ratio 55 10;
     wildfire_model.lightning_strike_24h := Some 1 |}.

(** Whether [N / 100] is rounded to a float of [[0, 100]] for every [N]
    from 1 to [n]: the values [round(x, 2)] can return for a percentage
    are the hundredths up to [10000 / 100]. *)
Fixpoint hundredths_in_range (n : nat) : bool :=
  match n with
  | O => true
  | S k =>
      let y := of_fraction false (Pos.of_succ_nat k) 100 in
      leb zero y && leb y hundred && hundredths_in_range k
  end.

Definition demo_api : wildfire_model.WildfirePredictionAPI :=
  {| wildfire_model.client_id := "demo";
     wildfire_model.client_secret := "demo";
     wildfire_model.base_url := "https://api.aerisapi.com" |}.

End Readings.

(** * Properties *)

(** ** Binary64 arithmetic

    Facts about [spec_float] rounding used below: the shift-and-round of
    [binary_round_aux] returns an integer within half a unit of the exact
    quotient, which pins down [int(p * 5)] for every probability [p]. *)

Module F64Facts.

Import F64.

(** The literals are the correctly rounded values of their decimal text. *)
Lemma literals_rounded :
  zero = of_Z 0 /\ one = of_Z 1 /\ two = of_Z 2 /\ five = of_Z 5 /\
  sixty = of_Z 60 /\ hundred = of_Z 100 /\
  lit_0_01 = of_ratio 1 100 /\ lit_0_2 = of_ratio 2 10 /\
  lit_0_3 = of_ratio 3 10 /\ lit_0_4 = of_ratio 4 10 /\
  lit_0_5 = of_ratio 5 10 /\ lit_0_6 = of_ratio 6 10 /\
  lit_0_7 = of_ratio 7 10 /\ lit_0_8 = of_ratio 8 10.
Proof. repeat split; reflexivity. Qed.

Lemma digits2_pos_size p : digits2_pos p = Pos.size p.
Proof. induction p; simpl; congruence. Qed.

Lemma digits2_bounds p :
  2 ^ (Zpos (digits2_pos p) - 1) <= Zpos p < 2 ^ Zpos (digits2_pos p).
Proof.
  rewrite digits2_pos_size. split.
  - pose proof (Pos.size_le p) as H.
    assert (Hz : 2 ^ Zpos (Pos.size p) <= 2 * Zpos p).
    { change 2 with (Zpos 2) at 1. rewrite <- Pos2Z.inj_pow. 
      change (2 * Zpos p) with (Zpos p~0). apply Pos2Z.pos_le_pos. exact H. }
    replace (Zpos (Pos.size p)) with (Z.succ (Zpos (Pos.size p) - 1)) in Hz by lia.
    rewrite Z.pow_succ_r in Hz by lia. lia.
  - pose proof (Pos.size_gt p) as H.
    change 2 with (Zpos 2). rewrite <- Pos2Z.inj_pow. apply Pos2Z.pos_lt_pos. exact H.
Qed.

Lemma iter_pos_nat (A : Type) (f : A -> A) p : forall x,
  iter_pos f p x = Nat.iter (Pos.to_nat p) f x.
Proof.
  induction p as [p IH | p IH | ]; intro x; simpl iter_pos.
  - rewrite !IH. rewrite Pos2Nat.inj_xI. 
    replace (S (2 * Pos.to_nat p))%nat with (Pos.to_nat p + (Pos.to_nat p + 1))%nat by lia.
    rewrite !Nat.iter_add. reflexivity.
  - rewrite !IH. rewrite Pos2Nat.inj_xO.
    replace (2 * Pos.to_nat p)%nat with (Pos.to_nat p + Pos.to_nat p)%nat by lia.
    rewrite Nat.iter_add. reflexivity.
  - reflexivity.
Qed.

Lemma shr_1_spec m r s :
  0 <= m ->
  0 <= shr_m (shr_1 (Build_shr_record m r s)) /\
  m = 2 * shr_m (shr_1 (Build_shr_record m r s))
      + Z.b2z (shr_r (shr_1 (Build_shr_record m r s))) /\
  shr_s (shr_1 (Build_shr_record m r s)) = r || s.
Proof.
  intro Hm. destruct m as [ | [p | p | ] | p]; simpl; try lia; repeat split; lia.
Qed.

(** After [k] right shifts of [m0], the record holds the quotient, the
    last bit shifted out and whether anything was lost below it. *)
Lemma shr_iter_spec m0 (k : nat) :
  0 <= m0 ->
  let mrs := Nat.iter k shr_1 (Build_shr_record m0 false false) in
  0 <= shr_m mrs /\
  exists t, 2 * m0 = 2 ^ Z.of_nat k * (2 * shr_m mrs + Z.b2z (shr_r mrs)) + t
            /\ 0 <= t < 2 ^ Z.of_nat k
            /\ (shr_s mrs = true <-> 0 < t).
Proof.
  intro Hm0. induction k as [ | k IH]; cbv zeta in *.
  - cbn [Nat.iter nat_rect shr_m shr_r shr_s Z.b2z Z.of_nat]. rewrite Z.pow_0_r.
    split; [exact Hm0 | ]. exists 0. repeat split; intros; try lia; try discriminate.
  - rewrite Nat.iter_succ.
    destruct (Nat.iter k shr_1 (Build_shr_record m0 false false)) as [m r s].
    simpl shr_m in IH; simpl shr_r in IH; simpl shr_s in IH.
    destruct IH as (Hm & t & Heq & Ht & Hs).
    destruct (shr_1_spec r s Hm) as (Hm' & Hdec & Hs').
    split; [exact Hm' | ].
    set (m' := shr_m (shr_1 (Build_shr_record m r s))) in *.
    set (r' := shr_r (shr_1 (Build_shr_record m r s))) in *.
    rewrite Hs'. rewrite Nat2Z.inj_succ, Z.pow_succ_r by lia.
    assert (Hp : 0 < 2 ^ Z.of_nat k) by (apply Z.pow_pos_nonneg; lia).
    exists (2 ^ Z.of_nat k * Z.b2z r + t).
    destruct r; simpl Z.b2z in *; simpl orb.
    + repeat split; intros; try nia.
    + rewrite Z.mul_0_r, Z.add_0_l.
      repeat split; try nia; apply Hs.
Qed.

(** Rounding the shifted record to nearest even lands within half a unit
    of [m0 / 2 ^ k]. *)
Lemma round_shr_spec m0 (k : nat) :
  0 <= m0 ->
  let mrs := Nat.iter k shr_1 (Build_shr_record m0 false false) in
  let R := round_nearest_even (shr_m mrs) (loc_of_shr_record mrs) in
  0 <= R /\
  2 ^ Z.of_nat k * (2 * R - 1) <= 2 * m0 <= 2 ^ Z.of_nat k * (2 * R + 1).
Proof.
  intros Hm0. cbv zeta.
  destruct (shr_iter_spec k Hm0) as (Hm & t & Heq & Ht & Hs).
  destruct (Nat.iter k shr_1 (Build_shr_record m0 false false)) as [m r s].
  cbn [shr_m shr_r shr_s] in *.
  assert (Hp : 0 < 2 ^ Z.of_nat k) by (apply Z.pow_pos_nonneg; lia).
  assert (Hs0 : s = false -> t = 0).
  { intro Hf. destruct (Z.eq_dec t 0) as [ | Hne]; [assumption | ].
    assert (Hpos : 0 < t) by lia. apply Hs in Hpos. congruence. }
  destruct r, s;
    cbn [shr_m shr_r shr_s Z.b2z round_nearest_even loc_of_shr_record] in *.
  - split; [lia | nia].
  - rewrite (Hs0 eq_refl) in *. destruct (IntDef.Z.even m); split; try lia; nia.
  - split; [lia | nia].
  - rewrite (Hs0 eq_refl) in *. split; [lia | nia].
Qed.

Lemma fexp_eq e : fexp prec emax e = Z.max (e - 53) (-1074).
Proof. reflexivity. Qed.

Lemma shiftl_neg_div m e : e <= 0 -> Z.shiftl m e = m / 2 ^ (- e).
Proof.
  intro He. rewrite <- Z.shiftr_div_pow2 by lia.
  unfold Z.shiftr. rewrite Z.opp_involutive. reflexivity.
Qed.

Lemma shr_nonpos mrs e n : n <= 0 -> shr mrs e n = (mrs, e).
Proof. destruct n; [reflexivity | lia | reflexivity]. Qed.

Lemma shr_fexp_exact (P : positive) (E : Z) (np : positive) :
  fexp prec emax (Zpos (digits2_pos P) + E) - E = Zpos np ->
  shr_fexp prec emax (Zpos P) E loc_Exact
  = (Nat.iter (Pos.to_nat np) shr_1 (Build_shr_record (Zpos P) false false),
     E + Zpos np).
Proof.
  intro Hn. unfold shr_fexp. cbn [Zdigits2 shr_record_of_loc].
  rewrite Hn. cbn [shr]. rewrite iter_pos_nat. reflexivity.
Qed.

(** The integer part of a rounded positive number below the precision
    limit: [P * 2 ^ E] is rounded to [R * 2 ^ e'] with [R] within half a
    unit of [P / 2 ^ (e' - E)], and [int] of the result is
    [R / 2 ^ (- e')]. *)
Lemma round_aux_int (P : positive) (E : Z) :
  let e' := fexp prec emax (Zpos (digits2_pos P) + E) in
  0 < e' - E -> e' < 0 ->
  exists R, 0 <= R /\
    2 ^ (e' - E) * (2 * R - 1) <= 2 * Zpos P <= 2 ^ (e' - E) * (2 * R + 1) /\
    py_int (binary_round_aux prec emax false (Zpos P) E loc_Exact)
    = Some (R / 2 ^ (- e')).
Proof.
  intros e' Hn He'.
  remember (e' - E) as n eqn:En.
  destruct n as [ | np | np]; try lia.
  unfold binary_round_aux. rewrite (@shr_fexp_exact P E np) by (fold e'; lia).
  assert (HP : 0 <= Zpos P) by lia.
  destruct (round_shr_spec (Pos.to_nat np) HP) as (HR0 & HR).
  rewrite positive_nat_Z in HR.
  set (R := round_nearest_even _ _) in *.
  replace (E + Zpos np) with e' by lia.
  exists R. split; [exact HR0 | ]. split; [exact HR | ].
  assert (Hpn : 0 < 2 ^ Zpos np) by (apply Z.pow_pos_nonneg; lia).
  assert (Hemin : -1074 <= e') by (unfold e'; rewrite fexp_eq; lia).
  assert (HR53 : R <= 2 ^ 53).
  { pose proof (digits2_bounds P) as [_ Hd].
    assert (Hle : Zpos (digits2_pos P) <= Zpos np + 53)
      by (unfold e' in En; rewrite fexp_eq in En; lia).
    assert (Hpw : 2 ^ Zpos (digits2_pos P) <= 2 ^ (Zpos np + 53))
      by (apply Z.pow_le_mono_r; lia).
    rewrite Z.pow_add_r in Hpw by lia.
    assert (2 ^ Zpos np * (2 * R - 1) < 2 ^ Zpos np * 2 ^ 54).
    { change (2 ^ 54) with (2 * 2 ^ 53). lia. }
    assert (2 * R - 1 < 2 ^ 54) by (apply Z.mul_lt_mono_pos_l with (2 ^ Zpos np); assumption).
    change (2 ^ 54) with (2 * 2 ^ 53) in *. lia. }
  destruct R as [ | r | r] eqn:ER; try lia.
  - unfold shr_fexp. cbn [Zdigits2 shr_record_of_loc].
    rewrite shr_nonpos by (rewrite fexp_eq; lia).
    cbn [shr_m py_int]. rewrite Z.div_0_l; [reflexivity | ].
    apply Z.pow_nonzero; lia.
  - destruct (Z.eq_dec (Zpos r) (2 ^ 53)) as [Heq | Hne].
    + injection Heq as ->.
      unfold shr_fexp. cbn [Zdigits2 shr_record_of_loc digits2_pos Pos.succ].
      replace (fexp prec emax (54 + e') - e') with 1 by (rewrite fexp_eq; lia).
      cbn [shr iter_pos shr_1 shr_m].
      replace (e' + 1 <=? emax - prec) with true
        by (symmetry; apply Z.leb_le; unfold emax, prec; lia).
      cbn [py_int cond_Zopp]. rewrite shiftl_neg_div by lia. f_equal.
      replace (- e') with (1 + (- (e' + 1))) by lia.
      rewrite Z.pow_add_r by lia.
      change (Zpos 9007199254740992) with (2 ^ 1 * Zpos 4503599627370496).
      rewrite Z.div_mul_cancel_l; [reflexivity | | ]; try (apply Z.pow_nonzero; lia).
    + assert (Hdr : Zpos (digits2_pos r) <= 53).
      { pose proof (digits2_bounds r) as [Hlo _].
        destruct (Z_le_gt_dec (Zpos (digits2_pos r)) 53) as [ | Hgt]; [assumption | ].
        assert (2 ^ 53 <= 2 ^ (Zpos (digits2_pos r) - 1)) by (apply Z.pow_le_mono_r; lia).
        lia. }
      unfold shr_fexp. cbn [Zdigits2 shr_record_of_loc].
      rewrite shr_nonpos by (rewrite fexp_eq; lia).
      cbn [shr_m].
      replace (e' <=? emax - prec) with true
        by (symmetry; apply Z.leb_le; unfold emax, prec; lia).
      cbn [py_int cond_Zopp]. rewrite shiftl_neg_div by lia. reflexivity.
Qed.

(** Positive finite floats compare by exponent, then by mantissa. *)
Lemma ltb_finite m e m' e' :
  ltb (S754_finite false m e) (S754_finite false m' e')
  = (e <? e') || ((e =? e') && (Zpos m <? Zpos m')).
Proof.
  unfold ltb, SFltb, SFcompare.
  destruct (Z.compare_spec e e') as [Heq | Hlt | Hgt].
  - subst e'. rewrite Z.ltb_irrefl, Z.eqb_refl. cbn [orb andb].
    change (Pos.compare_cont Eq m m') with (Pos.compare m m').
    destruct (Pos.compare_spec m m') as [H | H | H];
      symmetry; [apply Z.ltb_ge | apply Z.ltb_lt | apply Z.ltb_ge]; lia.
  - replace (e <? e') with true by (symmetry; apply Z.ltb_lt; lia). reflexivity.
  - replace (e <? e') with false by (symmetry; apply Z.ltb_ge; lia).
    replace (e =? e') with false by (symmetry; apply Z.eqb_neq; lia). reflexivity.
Qed.

Lemma leb_finite m e m' e' :
  leb (S754_finite false m e) (S754_finite false m' e')
  = (e <? e') || ((e =? e') && (Zpos m <=? Zpos m')).
Proof.
  unfold leb, SFleb, SFcompare.
  destruct (Z.compare_spec e e') as [Heq | Hlt | Hgt].
  - subst e'. rewrite Z.ltb_irrefl, Z.eqb_refl. cbn [orb andb].
    change (Pos.compare_cont Eq m m') with (Pos.compare m m').
    destruct (Pos.compare_spec m m') as [H | H | H];
      symmetry; [apply Z.leb_le | apply Z.leb_le | apply Z.leb_gt]; lia.
  - replace (e <? e') with true by (symmetry; apply Z.ltb_lt; lia). reflexivity.
  - replace (e <? e') with false by (symmetry; apply Z.ltb_ge; lia).
    replace (e =? e') with false by (symmetry; apply Z.eqb_neq; lia). reflexivity.
Qed.

Lemma pow2_lt_exp a b : 0 <= b -> 2 ^ a < 2 ^ b -> a < b.
Proof. intros Hb H. apply (Z.pow_lt_mono_r_iff 2); lia. Qed.

(** A canonical mantissa has at most 53 bits, and exactly 53 above the
    lowest exponent. *)
Lemma bounded_digits m e :
  bounded prec emax m e = true ->
  Zpos m < 2 ^ 53 /\ -1074 <= e /\ (-1074 < e -> 2 ^ 52 <= Zpos m).
Proof.
  unfold bounded, canonical_mantissa. intro H.
  apply andb_true_iff in H as [Hc _]. apply Z.eqb_eq in Hc.
  rewrite fexp_eq in Hc.
  pose proof (digits2_bounds m) as [Hlo Hhi].
  assert (Hd : Zpos (digits2_pos m) <= 53) by lia.
  repeat split; try lia.
  - apply Z.lt_le_trans with (1 := Hhi). apply Z.pow_le_mono_r; lia.
  - intro He. replace (Zpos (digits2_pos m)) with 53 in Hlo by lia. exact Hlo.
Qed.

(** [int(p * 5)] for a positive float [p = m * 2 ^ e] below 1: the
    product [5 m] loses [k] bits, [k] being 2 or 3 for a normal [p]. *)
Lemma mul_five_int m e :
  bounded prec emax m e = true -> e <= -53 ->
  let d := Zpos (digits2_pos (m * 5629499534213120)) in
  let k := Z.max (d + e - 103) (-1074) - e in
  2 ^ (d - 1) <= Zpos m * 5629499534213120 < 2 ^ d /\
  0 <= k /\
  exists R, 0 <= R /\
    2 ^ k * (2 * R - 1) <= 10 * Zpos m <= 2 ^ k * (2 * R + 1) /\
    py_int (mul (S754_finite false m e) five) = Some (R / 2 ^ (- (e + k))).
Proof.
  intros Hb He d k.
  destruct (bounded_digits _ _ Hb) as (Hm53 & Hemin & Hnorm).
  pose proof (digits2_bounds (m * 5629499534213120)) as Hd.
  rewrite Pos2Z.inj_mul in Hd. fold d in Hd.
  assert (Hd106 : d <= 106).
  { assert (2 ^ (d - 1) < 2 ^ 106) by lia.
    assert (d - 1 < 106) by (apply pow2_lt_exp; lia). lia. }
  assert (Hd53 : 53 <= d).
  { assert (2 ^ 52 < 2 ^ d) by lia.
    assert (52 < d) by (apply pow2_lt_exp; [unfold d | ]; lia). lia. }
  assert (Hdn : -1074 < e -> 105 <= d).
  { intro Hlt. specialize (Hnorm Hlt).
    assert (2 ^ 104 < 2 ^ d) by lia.
    assert (104 < d) by (apply pow2_lt_exp; lia). lia. }
  assert (Hk : 0 <= k) by (unfold k; lia).
  split; [exact Hd | ]. split; [exact Hk | ].
  unfold mul, SFmul, five. cbn [xorb].
  destruct (@round_aux_int (m * 5629499534213120) (e + -50)) as (R & HR0 & HR & Hint).
  - fold d. rewrite fexp_eq. lia.
  - fold d. rewrite fexp_eq. lia.
  - fold d in HR, Hint. rewrite fexp_eq in HR, Hint.
    replace (Z.max (d + (e + -50) - 53) (-1074)) with (e + k) in HR, Hint
      by (unfold k; lia).
    replace (e + k - (e + -50)) with (k + 50) in HR by lia.
    rewrite Z.pow_add_r in HR by lia.
    rewrite Pos2Z.inj_mul in HR.
    assert (Hpk : 0 < 2 ^ k) by (apply Z.pow_pos_nonneg; lia).
    exists R. split; [exact HR0 | ]. split; [ | exact Hint].
    split; nia.
Qed.

Ltac decide_test :=
  match goal with
  | |- context [Z.ltb ?a ?b] =>
      first [ replace (Z.ltb a b) with true by (symmetry; apply Z.ltb_lt; lia)
            | replace (Z.ltb a b) with false by (symmetry; apply Z.ltb_ge; lia)
            | destruct (Z.ltb_spec a b) ]
  | |- context [Z.eqb ?a ?b] =>
      first [ replace (Z.eqb a b) with true by (symmetry; apply Z.eqb_eq; lia)
            | replace (Z.eqb a b) with false by (symmetry; apply Z.eqb_neq; lia)
            | destruct (Z.eqb_spec a b) ]
  end.

Lemma div_bounds R c q : 0 < c -> c * q <= R < c * (q + 1) -> R / c = q.
Proof.
  intros Hc HR. symmetry. apply Z.div_unique with (R - c * q); lia.
Qed.

Ltac eval_pow2 :=
  repeat match goal with
  | |- context [Z.pow 2 ?x] =>
      let v := eval vm_compute in (Z.pow 2 x) in change (Z.pow 2 x) with v
  | H : context [Z.pow 2 ?x] |- _ =>
      let v := eval vm_compute in (Z.pow 2 x) in change (Z.pow 2 x) with v in H
  end.

Ltac decide_tests := repeat (decide_test; cbn [orb andb]).

(** The integer part of [p * 5] is the number of thresholds at or below
    [p], for every float [p] of [[0, 1]]. *)
Lemma int_mul_five p :
  valid p = true -> leb zero p = true -> leb p one = true ->
  py_int (mul p five)
  = Some (if ltb p lit_0_2 then 0
          else if ltb p lit_0_4 then 1
          else if ltb p lit_0_6 then 2
          else if ltb p lit_0_8 then 3
          else if ltb p one then 4 else 5).
Proof.
  intros Hv H0 H1. destruct p as [s | s | | s m e].
  - reflexivity.
  - destruct s; discriminate.
  - discriminate.
  - destruct s; [discriminate | ].
    unfold valid, valid_binary in Hv.
    unfold one in H1. rewrite leb_finite in H1.
    assert (He : e <= -52 /\ (e = -52 -> Zpos m <= 4503599627370496)).
    { destruct (Z.ltb_spec e (-52)); [lia | ].
      destruct (Z.eqb_spec e (-52)); [ | discriminate].
      destruct (Z.leb_spec (Zpos m) 4503599627370496); [lia | discriminate]. }
    destruct He as [He Heq1]. clear H1 H0.
    destruct (bounded_digits _ _ Hv) as (Hm53 & Hemin & Hnorm).
    destruct (Z.eq_dec e (-52)) as [E52 | NE52].
    { (* p = 1.0 *)
      subst e. specialize (Hnorm ltac:(lia)). specialize (Heq1 eq_refl).
      replace m with 4503599627370496%positive by lia. reflexivity. }
    destruct (@mul_five_int m e Hv ltac:(lia)) as (Hd & Hk & R & HR0 & HR & Hint).
    rewrite Hint. f_equal.
    unfold lit_0_2, lit_0_4, lit_0_6, lit_0_8, one. rewrite !ltb_finite.
    set (d := Zpos (digits2_pos (m * 5629499534213120))) in *.
    assert (Hd106 : d <= 106).
    { assert (2 ^ (d - 1) < 2 ^ 106) by lia.
      assert (d - 1 < 106) by (apply pow2_lt_exp; lia). lia. }
    destruct (Z_le_gt_dec e (-56)) as [Esmall | Ebig].
    + (* below 1/8: the product stays below 1 *)
      set (k := Z.max (d + e - 103) (-1074) - e) in *.
      assert (Ha : 53 <= - (e + k)) by (unfold k; lia).
      assert (HR1 : R < 2 ^ (- (e + k))).
      { assert (Hpk : 0 < 2 ^ k) by (apply Z.pow_pos_nonneg; lia).
        assert (Hsplit : 2 ^ (- e) = 2 ^ k * 2 ^ (- (e + k))).
        { rewrite <- Z.pow_add_r by lia. f_equal. lia. }
        assert (H8 : 8 * Zpos m < 2 ^ (- e)).
        { assert (2 ^ 56 <= 2 ^ (- e)) by (apply Z.pow_le_mono_r; lia). lia. }
        assert (H53 : 2 ^ 53 <= 2 ^ (- (e + k))) by (apply Z.pow_le_mono_r; lia).
        rewrite Hsplit in H8.
        set (A := 2 ^ (- (e + k))) in *. set (X := 2 ^ k) in *.
        assert (X * (8 * (2 * R - 1)) < X * (10 * A)) by nia.
        assert (8 * (2 * R - 1) < 10 * A) by (apply Z.mul_lt_mono_pos_l with X; assumption).
        lia. }
      rewrite Z.div_small by lia.
      decide_tests. reflexivity.
    + assert (Hd105 : 105 <= d).
      { specialize (Hnorm ltac:(lia)).
        assert (2 ^ 104 < 2 ^ d) by lia.
        assert (104 < d) by (apply pow2_lt_exp; lia). lia. }
      specialize (Hnorm ltac:(lia)).
      replace (Z.max (d + e - 103) (-1074) - e) with (d - 103) in * by lia.
      replace (- (e + (d - 103))) with (103 - d - e) by lia.
      assert (Ed : d = 105 \/ d = 106) by lia.
      assert (Ee : e = -53 \/ e = -54 \/ e = -55) by lia.
      clearbody d.
      destruct Ed as [Ed | Ed]; subst d;
      destruct Ee as [Ee | [Ee | Ee]]; subst e; eval_pow2.
      all: decide_tests; try lia; apply div_bounds; lia.
Qed.

End F64Facts.

(** ** The five risk tiers ([simple_predict.py], [wildfire_model.py]) *)

Section RiskTiers.

Import F64 Py F64Facts.

Local Open Scope string_scope.

(** Hypotheses and goals about comparisons of a positive finite float with
    the literals become statements on its mantissa and exponent. *)
Ltac to_Z_tests :=
  unfold zero, one, lit_0_2, lit_0_4, lit_0_6, lit_0_8 in *;
  rewrite ?ltb_finite, ?leb_finite in *;
  repeat match goal with
  | H : _ || _ = true |- _ => apply orb_true_iff in H
  | H : _ && _ = true |- _ => apply andb_true_iff in H; destruct H
  | H : (_ <? _) = true |- _ => apply Z.ltb_lt in H
  | H : (_ <=? _) = true |- _ => apply Z.leb_le in H
  | H : (_ =? _) = true |- _ => apply Z.eqb_eq in H
  end.

Lemma nonneg_cases (p : float) :
  leb zero p = true ->
  (exists s, p = S754_zero s) \/ p = S754_infinity false
  \/ exists m e, p = S754_finite false m e.
Proof.
  destruct p as [s | [ | ] | | [ | ] m e]; try discriminate; eauto.
Qed.

Lemma risk_level_cascade (p : float) :
  valid p = true -> leb zero p = true -> leb p one = true ->
  simple_predict.risk_level p = Returned (wildfire_model._get_risk_level p).
Proof.
  intros Hv H0 H1.
  unfold simple_predict.risk_level, simple_predict.risk_index,
    simple_predict.int_of_float, wildfire_model._get_risk_level.
  rewrite (int_mul_five p Hv H0 H1).
  destruct (ltb p lit_0_2); [reflexivity | ].
  destruct (ltb p lit_0_4); [reflexivity | ].
  destruct (ltb p lit_0_6); [reflexivity | ].
  destruct (ltb p lit_0_8); [reflexivity | ].
  destruct (ltb p one); reflexivity.
Qed.

(** The cascade read as a table: which thresholds a probability lies
    between decides the label. *)
Lemma cascade_table (p : float) :
  leb zero p = true ->
  (ltb p lit_0_2 = true -> wildfire_model._get_risk_level p = "Low") /\
  (leb lit_0_2 p = true -> ltb p lit_0_4 = true ->
   wildfire_model._get_risk_level p = "Moderate") /\
  (leb lit_0_4 p = true -> ltb p lit_0_6 = true ->
   wildfire_model._get_risk_level p = "High") /\
  (leb lit_0_6 p = true -> ltb p lit_0_8 = true ->
   wildfire_model._get_risk_level p = "Very High") /\
  (leb lit_0_8 p = true -> wildfire_model._get_risk_level p = "Extreme").
Proof.
  intro H0. unfold wildfire_model._get_risk_level.
  destruct (nonneg_cases p H0) as [[s ->] | [-> | (m & e & ->)]].
  - repeat split; intros; try reflexivity; discriminate.
  - repeat split; intros; try reflexivity; discriminate.
  - repeat split; intros; to_Z_tests; decide_tests; try reflexivity; lia.
Qed.

Lemma below_one (p : float) :
  leb zero p = true ->
  ltb p lit_0_2 = true \/ ltb p lit_0_4 = true \/ ltb p lit_0_6 = true
  \/ ltb p lit_0_8 = true ->
  leb p one = true.
Proof.
  intros H0 H.
  destruct (nonneg_cases p H0) as [[s ->] | [-> | (m & e & ->)]].
  - reflexivity.
  - destruct H as [H | [H | [H | H]]]; discriminate.
  - destruct H as [H | [H | [H | H]]]; to_Z_tests; decide_tests; try reflexivity; lia.
Qed.

Lemma above_zero (p c : float) :
  leb zero c = true -> leb c p = true -> leb zero p = true.
Proof.
  intros Hc Hp.
  destruct p as [s | [ | ] | | [ | ] m e]; try reflexivity;
    destruct c as [s' | [ | ] | | [ | ] m' e']; discriminate.
Qed.

(** C1. The index [min(int(p * 5), 4)] into the five labels sends every
    probability [p] of [[0, 1]] to its tier: Low below 0.2, Moderate from
    0.2 to below 0.4, High from 0.4 to below 0.6, Very High from 0.6 to
    below 0.8 and Extreme from 0.8 to 1.0, the thresholds being the float
    literals of the source; at [p = 1.0] the integer part is 5 and the
    index is clamped to 4.  The threshold cascade [_get_risk_level]
    yields the same tiers. *)
Theorem risk_tiers (p : float) :
  valid p = true ->
  (leb zero p = true -> ltb p lit_0_2 = true ->
   simple_predict.risk_level p = Returned "Low"
   /\ wildfire_model._get_risk_level p = "Low") /\
  (leb lit_0_2 p = true -> ltb p lit_0_4 = true ->
   simple_predict.risk_level p = Returned "Moderate"
   /\ wildfire_model._get_risk_level p = "Moderate") /\
  (leb lit_0_4 p = true -> ltb p lit_0_6 = true ->
   simple_predict.risk_level p = Returned "High"
   /\ wildfire_model._get_risk_level p = "High") /\
  (leb lit_0_6 p = true -> ltb p lit_0_8 = true ->
   simple_predict.risk_level p = Returned "Very High"
   /\ wildfire_model._get_risk_level p = "Very High") /\
  (leb lit_0_8 p = true -> leb p one = true ->
   simple_predict.risk_level p = Returned "Extreme"
   /\ wildfire_model._get_risk_level p = "Extreme") /\
  simple_predict.int_of_float (mul one five) = Returned 5 /\
  simple_predict.risk_index one = Returned 4 /\
  simple_predict.risk_level one = Returned "Extreme".
Proof.
  intro Hv.
  assert (tier : forall label, leb zero p = true -> leb p one = true ->
            wildfire_model._get_risk_level p = label ->
            simple_predict.risk_level p = Returned label
            /\ wildfire_model._get_risk_level p = label).
  { intros label H0 H1 Hl. rewrite (risk_level_cascade p Hv H0 H1), Hl. split; reflexivity. }
  split; [ | split; [ | split; [ | split; [ | split ]]]].
  - intros H0 H. apply tier; [assumption | apply below_one; tauto | ].
    apply (cascade_table p H0); assumption.
  - intros Hlo H.
    assert (H0 : leb zero p = true) by (apply above_zero with lit_0_2; [reflexivity | assumption]).
    apply tier; [assumption | apply below_one; tauto | ].
    apply (cascade_table p H0); assumption.
  - intros Hlo H.
    assert (H0 : leb zero p = true) by (apply above_zero with lit_0_4; [reflexivity | assumption]).
    apply tier; [assumption | apply below_one; tauto | ].
    apply (cascade_table p H0); assumption.
  - intros Hlo H.
    assert (H0 : leb zero p = true) by (apply above_zero with lit_0_6; [reflexivity | assumption]).
    apply tier; [assumption | apply below_one; tauto | ].
    apply (cascade_table p H0); assumption.
  - intros Hlo H1.
    assert (H0 : leb zero p = true) by (apply above_zero with lit_0_8; [reflexivity | assumption]).
    apply tier; [assumption | assumption | ].
    apply (cascade_table p H0); assumption.
  - repeat split; reflexivity.
Qed.

(** The sample points of the design: 0.0, 0.199, 0.2, 0.999 and 1.0. *)
Lemma risk_level_samples :
  simple_predict.risk_level zero = Returned "Low" /\
  simple_predict.risk_level (of_ratio 199 1000) = Returned "Low" /\
  simple_predict.risk_level lit_0_2 = Returned "Moderate" /\
  simple_predict.risk_level (of_ratio 999 1000) = Returned "Extreme" /\
  simple_predict.risk_level one = Returned "Extreme" /\
  simple_predict.risk_level lit_0_6 = Returned "Very High" /\
  wildfire_model._get_risk_level lit_0_6 = "Very High".
Proof. repeat split; reflexivity. Qed.

Lemma risk_tiers_witness :
  valid lit_0_6 = true /\
  simple_predict.risk_level lit_0_6 = Returned "Very High" /\
  wildfire_model._get_risk_level lit_0_6 = "Very High".
Proof.
  split; [reflexivity | ].
  apply (risk_tiers lit_0_6 eq_refl); reflexivity.
Defined.

(** C9. On every probability of [[0, 1]] the label found by indexing the
    five levels with [min(int(p * 5), 4)] ([predict_dict]) is the label of
    the threshold cascade ([_get_risk_level]). *)
Theorem risk_classifiers_agree (p : float) :
  valid p = true -> leb zero p = true -> leb p one = true ->
  simple_predict.risk_level p = Returned (wildfire_model._get_risk_level p).
Proof.
  intros Hv H0 H1. apply risk_level_cascade; assumption.
Qed.

Lemma risk_classifiers_agree_witness :
  valid lit_0_6 = true /\ leb zero lit_0_6 = true /\ leb lit_0_6 one = true /\
  simple_predict.risk_level lit_0_6
  = Returned (wildfire_model._get_risk_level lit_0_6).
Proof.
  split; [reflexivity | ]. split; [reflexivity | ]. split; [reflexivity | ].
  apply (risk_classifiers_agree lit_0_6); reflexivity.
Defined.

End RiskTiers.

(** ** The threat assessment ([_generate_threat_assessment]) *)

Section ThreatAssessment.

Import F64 Py Scenarios.
Import wildfire_inference_system.

Local Open Scope string_scope.

(** C2. The threat level is decided from the top: EXTREME exactly when
    [expected_threat > 0.7] or the severity class is Extreme; otherwise
    HIGH exactly when [expected_threat > 0.5] or the class is High;
    otherwise MODERATE exactly when [expected_threat > 0.3] or the class is
    Moderate; otherwise LOW.  A severity class Extreme gives EXTREME
    whatever the score, for instance with a score of 0.1. *)
Theorem threat_level_cascade (m : fire_metrics) :
  let level := threat_level (_generate_threat_assessment m) in
  let extreme := gtb (expected_threat m) lit_0_7 = true \/ severity_class m = "Extreme" in
  let high := gtb (expected_threat m) lit_0_5 = true \/ severity_class m = "High" in
  let moderate := gtb (expected_threat m) lit_0_3 = true \/ severity_class m = "Moderate" in
  (level = "EXTREME" <-> extreme) /\
  (level = "HIGH" <-> ~ extreme /\ high) /\
  (level = "MODERATE" <-> ~ extreme /\ ~ high /\ moderate) /\
  (level = "LOW" <-> ~ extreme /\ ~ high /\ ~ moderate) /\
  (severity_class m = "Extreme" -> level = "EXTREME") /\
  threat_level (_generate_threat_assessment
                  (metrics_with_threat "Extreme" (of_ratio 1 10))) = "EXTREME".
Proof.
  cbv zeta. split; [ | split; [ | split; [ | split; [ | split ]]]];
    [ | | | | | reflexivity ];
    unfold _generate_threat_assessment;
    (destruct (gtb (expected_threat m) lit_0_7) eqn:E7;
     destruct (String.eqb_spec (severity_class m) "Extreme") as [Cx | Cx];
     cbn [orb]; [ | | | 
       destruct (gtb (expected_threat m) lit_0_5) eqn:E5;
       destruct (String.eqb_spec (severity_class m) "High") as [Ch | Ch];
       cbn [orb]; [ | | | 
         destruct (gtb (expected_threat m) lit_0_3) eqn:E3;
         destruct (String.eqb_spec (severity_class m) "Moderate") as [Cm | Cm];
         cbn [orb] ]]);
    cbn [threat_level];
    try (split; intro; try discriminate; try tauto);
    try (intro; try reflexivity; congruence);
    intuition (try discriminate; try congruence).
Qed.

Lemma key_concerns_eq (m : fire_metrics) :
  key_concerns (_generate_threat_assessment m)
  = ((if gtb (crown_fire_score m) sixty then ["High crown fire potential"] else [])
     ++ (if gtb (spotting_distance_km m) two then ["Long-range spotting risk"] else [])
     ++ (if ltb (time_to_burn_5km2_hours m) two then ["Rapid fire spread"] else [])
     ++ (if (containment_difficulty m =? "Hard")
            || (containment_difficulty m =? "Very difficult")
         then ["Difficult suppression conditions"] else []))%list.
Proof.
  unfold _generate_threat_assessment. cbv zeta.
  destruct (gtb (expected_threat m) lit_0_7 || (severity_class m =? "Extreme"));
  [ | destruct (gtb (expected_threat m) lit_0_5 || (severity_class m =? "High"));
      [ | destruct (gtb (expected_threat m) lit_0_3 || (severity_class m =? "Moderate")) ]];
  cbn [key_concerns existsb];
  destruct (gtb (crown_fire_score m) sixty);
  destruct (gtb (spotting_distance_km m) two);
  destruct (ltb (time_to_burn_5km2_hours m) two);
  destruct (containment_difficulty m =? "Hard");
  destruct (containment_difficulty m =? "Very difficult");
  reflexivity.
Qed.

(** C4. The concerns are exactly the flags whose condition holds, each
    tested on its own, in the order of the tests: crown fire score above
    60, spotting distance above 2 km, time to burn below 2 hours, and a
    containment difficulty of Hard or Very difficult. *)
Theorem key_concerns_flags (m : fire_metrics) :
  let concerns := key_concerns (_generate_threat_assessment m) in
  concerns
  = ((if gtb (crown_fire_score m) sixty then ["High crown fire potential"] else [])
     ++ (if gtb (spotting_distance_km m) two then ["Long-range spotting risk"] else [])
     ++ (if ltb (time_to_burn_5km2_hours m) two then ["Rapid fire spread"] else [])
     ++ (if (containment_difficulty m =? "Hard")
            || (containment_difficulty m =? "Very difficult")
         then ["Difficult suppression conditions"] else []))%list /\
  (In "High crown fire potential" concerns
   <-> gtb (crown_fire_score m) sixty = true) /\
  (In "Long-range spotting risk" concerns
   <-> gtb (spotting_distance_km m) two = true) /\
  (In "Rapid fire spread" concerns
   <-> ltb (time_to_burn_5km2_hours m) two = true) /\
  (In "Difficult suppression conditions" concerns
   <-> containment_difficulty m = "Hard"
       \/ containment_difficulty m = "Very difficult") /\
  (forall flag, In flag concerns ->
     In flag ["High crown fire potential"; "Long-range spotting risk";
              "Rapid fire spread"; "Difficult suppression conditions"]) /\
  key_concerns (_generate_threat_assessment
                  (metrics_with_concerns (of_Z 70) (of_Z 3) (of_Z 1) "Hard"))
  = ["High crown fire potential"; "Long-range spotting risk";
     "Rapid fire spread"; "Difficult suppression conditions"].
Proof.
  cbv zeta. rewrite key_concerns_eq.
  split; [ | split; [ | split; [ | split; [ | split; [ | split ]]]]];
    [ | | | | | | reflexivity ];
    destruct (gtb (crown_fire_score m) sixty);
    destruct (gtb (spotting_distance_km m) two);
    destruct (ltb (time_to_burn_5km2_hours m) two);
    destruct (String.eqb_spec (containment_difficulty m) "Hard") as [Ch | Ch];
    destruct (String.eqb_spec (containment_difficulty m) "Very difficult") as [Cv | Cv];
    cbn [orb app In];
    try reflexivity;
    try (split; intro; try reflexivity; try discriminate; try tauto;
         intuition (try discriminate; try congruence));
    try (intros flag Hin; tauto).
Qed.

End ThreatAssessment.

(** ** Clamps: occurrence probability and rate of spread *)

Section Clamps.

Import F64 Py Scenarios.
Import wildfire_inference_system.

(** Rounding keeps the sign it is given. *)
Lemma binary_round_aux_sign s m e l :
  match binary_round_aux prec emax s m e l with
  | S754_zero s' | S754_infinity s' | S754_finite s' _ _ => s' = s
  | S754_nan => True
  end.
Proof.
  unfold binary_round_aux.
  destruct (shr_fexp prec emax m e l) as [mrs e'].
  destruct (shr_fexp prec emax _ e' loc_Exact) as [mrs' e''].
  destruct (shr_m mrs'); [reflexivity | | exact I].
  destruct (e'' <=? emax - prec); reflexivity.
Qed.

(** [0 <= x] holds for the zeros and for what carries a positive sign. *)
Lemma leb_zero_sign (x : float) :
  leb zero x = true <->
  match x with
  | S754_zero _ => True
  | S754_infinity s | S754_finite s _ _ => s = false
  | S754_nan => False
  end.
Proof.
  destruct x as [s | [ | ] | | [ | ] m e]; cbn; intuition discriminate.
Qed.

Lemma mul_nonneg (a b : float) :
  leb zero a = true -> leb zero b = true ->
  mul a b = S754_nan \/ leb zero (mul a b) = true.
Proof.
  intros Ha Hb. apply leb_zero_sign in Ha. apply leb_zero_sign in Hb.
  destruct a as [sa | sa | | sa ma ea]; destruct b as [sb | sb | | sb mb eb];
    try contradiction; subst; cbn [mul SFmul xorb]; auto;
    try (right; apply leb_zero_sign; exact I);
    try (right; reflexivity).
  pose proof (binary_round_aux_sign false (Zpos (ma * mb)) (ea + eb) loc_Exact) as Hs.
  destruct (binary_round_aux prec emax false (Zpos (ma * mb)) (ea + eb) loc_Exact);
    [right | right | left | right]; try reflexivity; apply leb_zero_sign; assumption.
Qed.

Lemma div_hundred_nonneg (a : float) :
  leb zero a = true ->
  div a hundred = S754_nan \/ leb zero (div a hundred) = true.
Proof.
  intros Ha. apply leb_zero_sign in Ha.
  destruct a as [sa | sa | | sa ma ea]; try contradiction; subst;
    unfold div, hundred; cbn [SFdiv xorb];
    try (right; apply leb_zero_sign; exact I);
    try (right; reflexivity).
  destruct (SFdiv_core_binary prec emax (Zpos ma) ea 7036874417766400 (-46))
    as [[mz ez] lz].
  pose proof (binary_round_aux_sign false mz ez lz) as Hs.
  destruct (binary_round_aux prec emax false mz ez lz);
    [right | right | left | right]; try reflexivity; apply leb_zero_sign; assumption.
Qed.

Lemma ltb_leb (x y : float) : ltb x y = true -> leb x y = true.
Proof.
  unfold ltb, leb, SFltb, SFleb.
  destruct (SFcompare x y) as [[ | | ] | ]; intro; (reflexivity || discriminate).
Qed.

Lemma py_min_one_range (x : float) :
  x = S754_nan \/ leb zero x = true ->
  leb zero (py_min one x) = true /\ leb (py_min one x) one = true.
Proof.
  intro Hx. unfold py_min. destruct (ltb x one) eqn:Hlt.
  - split; [ | apply ltb_leb; exact Hlt].
    destruct Hx as [-> | Hx]; [discriminate | exact Hx].
  - split; reflexivity.
Qed.

Lemma py_max_floor (x : float) : leb lit_0_01 (py_max lit_0_01 x) = true.
Proof.
  unfold py_max, gtb. destruct (SFltb lit_0_01 x) eqn:Hlt.
  - apply ltb_leb. exact Hlt.
  - reflexivity.
Qed.

Lemma effective_ros_floor {formulas : physics.Formulas} (ros_base slope aspect : float) :
  leb lit_0_01 (physics.effective_ros ros_base slope aspect) = true.
Proof. unfold physics.effective_ros. apply py_max_floor. Qed.

(** Running a sequence that returned: each step returned. *)
Lemma io_bind_returned (A B : Type) (c : IO A) (k : A -> IO B) out b out' :
  io_bind c k out = (Returned b, out') ->
  exists a mid, c out = (Returned a, mid) /\ k a mid = (Returned b, out').
Proof.
  unfold io_bind. destruct (c out) as [[a | e] mid]; intro H.
  - exists a, mid. split; [reflexivity | exact H].
  - discriminate.
Qed.

Lemma ret_returned (A : Type) (a b : A) out out' :
  ret a out = (Returned b, out') -> a = b /\ out = out'.
Proof. unfold ret. intro H. injection H as -> ->. split; reflexivity. Qed.

Lemma lift_returned (A : Type) (c : outcome A) (a : A) out out' :
  lift c out = (Returned a, out') -> c = Returned a /\ out = out'.
Proof. unfold lift. intro H. injection H as -> ->. split; reflexivity. Qed.

Ltac run_steps H :=
  repeat
    (let a := fresh "a" in let mid := fresh "mid" in let Ha := fresh "Ha" in
     apply io_bind_returned in H as (a & mid & Ha & H)).

Lemma predict_ros_returned self f out r out' :
  _predict_ros self f out = (Returned r, out') ->
  exists row x, model self row = Returned x /\ r = py_max lit_0_01 x.
Proof.
  unfold _predict_ros. intro H. run_steps H.
  apply ret_returned in H as [<- _].
  apply lift_returned in Ha1 as [Hmodel _].
  eexists. eexists. split; [exact Hmodel | reflexivity].
Qed.

Lemma calculate_fire_behavior_returned {formulas : physics.Formulas}
    f ros out m out' :
  _calculate_fire_behavior f ros out = (Returned m, out') ->
  ros_base_m_per_min m = ros /\
  ros_effective_m_per_min m = physics.effective_ros ros (slope_pct f) (aspect_deg f) /\
  occurrence_probability m
  = py_min one (mul (severity_index m) (div (crown_fire_score m) hundred)) /\
  intensity_kW_per_m m
  = physics.byram_intensity_kWm (ros_effective_m_per_min m) (fuel_load_kg_m2 m) /\
  time_to_burn_5km2_hours m
  = physics.time_to_burn_window_hours (ros_effective_m_per_min m) five /\
  damage_estimate_rs m
  = physics.damage_in_window_rs (ros_effective_m_per_min m) (of_Z 50000) five.
Proof.
  unfold _calculate_fire_behavior. cbv zeta. intro H. run_steps H.
  apply ret_returned in H as [<- _]. repeat split; reflexivity.
Qed.

(** C3. In the metrics the pipeline computes, the occurrence probability
    is [min(1.0, severity_index * (crown_fire_score / 100))]; with a
    severity index and a crown fire score that are not negative it lies
    in [[0, 1]], also when the product exceeds 1 (a severity index of 2 and
    a score of 100 give 1.0, like a severity index of 1 and a score of
    100). *)
Theorem occurrence_probability_clamped {formulas : physics.Formulas}
    (f : features) (ros : float) (out out' : stdout) (m : fire_metrics) :
  _calculate_fire_behavior f ros out = (Returned m, out') ->
  leb zero (severity_index m) = true ->
  leb zero (crown_fire_score m) = true ->
  occurrence_probability m
  = py_min one (mul (severity_index m) (div (crown_fire_score m) hundred)) /\
  leb zero (occurrence_probability m) = true /\
  leb (occurrence_probability m) one = true /\
  py_min one (mul one (div hundred hundred)) = one /\
  mul two (div hundred hundred) = two /\
  py_min one (mul two (div hundred hundred)) = one.
Proof.
  intros Hrun Hs Hc.
  apply calculate_fire_behavior_returned in Hrun as (_ & _ & Hocc & _).
  split; [exact Hocc | ].
  rewrite Hocc.
  assert (Hrange : leb zero (py_min one (mul (severity_index m)
                                           (div (crown_fire_score m) hundred))) = true
                   /\ leb (py_min one (mul (severity_index m)
                                         (div (crown_fire_score m) hundred))) one = true).
  { apply py_min_one_range.
    destruct (div_hundred_nonneg _ Hc) as [Hd | Hd].
    - left. rewrite Hd. destruct (severity_index m); reflexivity.
    - apply mul_nonneg; assumption. }
  destruct Hrange as [Hlo Hhi].
  repeat split; try assumption; reflexivity.
Qed.

Lemma occurrence_probability_clamped_witness :
  exists m out',
    _calculate_fire_behavior (formulas := sample_formulas) fallback_features two []
    = (Returned m, out')
    /\ leb zero (occurrence_probability m) = true
    /\ leb (occurrence_probability m) one = true.
Proof.
  eexists. eexists. split; [vm_compute; reflexivity | ].
  match goal with
  | |- leb zero (occurrence_probability ?m) = true /\ _ =>
      pose proof (@occurrence_probability_clamped sample_formulas
                    fallback_features two [] _ m
                    ltac:(vm_compute; reflexivity)
                    ltac:(vm_compute; reflexivity)
                    ltac:(vm_compute; reflexivity)) as H
  end.
  exact (conj (proj1 (proj2 H)) (proj1 (proj2 (proj2 H)))).
Defined.

(** The clamp is from above only: the lower bound rests on the sign of
    the two inputs, which the formulas are to keep non-negative. *)
Lemma occurrence_probability_no_lower_clamp :
  py_min one (mul (of_Z (-1)) (div (of_Z 50) hundred)) = of_ratio (-1) 2 /\
  leb zero (of_ratio (-1) 2) = false.
Proof. split; reflexivity. Qed.

Lemma predict_wildfire_threat_returned {formulas : physics.Formulas}
    self w lat lon out res out' :
  predict_wildfire_threat self w lat lon out = (Returned res, out') ->
  exists o1 o2 o3 o4,
    _predict_ros self (live_features res) o1
    = (Returned (ros_prediction_m_per_min res), o2)
    /\ _calculate_fire_behavior (live_features res) (ros_prediction_m_per_min res) o3
       = (Returned (fire_behavior res), o4)
    /\ threat_assessment res = _generate_threat_assessment (fire_behavior res).
Proof.
  unfold predict_wildfire_threat. intro H. run_steps H.
  apply ret_returned in H as [<- _]. cbn [live_features ros_prediction_m_per_min
    fire_behavior threat_assessment].
  eauto 10.
Qed.

(** C5. Every rate of spread the fire-behaviour formulas receive is at
    least 0.01 m/min: the prediction returned by [_predict_ros] is
    [max(0.01, x)] for the model's answer [x], it is the base rate of the
    metrics, and the effective rate derived from it is floored at 0.01 as
    well; the intensity, the time to burn and the damage are computed
    from that effective rate.  Both floors hold for every input, a NaN
    included. *)
Theorem rate_of_spread_floor {formulas : physics.Formulas}
    (self : WildfireInferenceSystem) (w : World) (lat lon : float)
    (out out' : stdout) (res : results) :
  predict_wildfire_threat self w lat lon out = (Returned res, out') ->
  (exists row x, model self row = Returned x
                 /\ ros_prediction_m_per_min res = py_max lit_0_01 x) /\
  leb lit_0_01 (ros_prediction_m_per_min res) = true /\
  ros_base_m_per_min (fire_behavior res) = ros_prediction_m_per_min res /\
  ros_effective_m_per_min (fire_behavior res)
  = physics.effective_ros (ros_prediction_m_per_min res)
      (slope_pct (live_features res)) (aspect_deg (live_features res)) /\
  leb lit_0_01 (ros_effective_m_per_min (fire_behavior res)) = true /\
  intensity_kW_per_m (fire_behavior res)
  = physics.byram_intensity_kWm (ros_effective_m_per_min (fire_behavior res))
      (fuel_load_kg_m2 (fire_behavior res)) /\
  time_to_burn_5km2_hours (fire_behavior res)
  = physics.time_to_burn_window_hours
      (ros_effective_m_per_min (fire_behavior res)) five /\
  damage_estimate_rs (fire_behavior res)
  = physics.damage_in_window_rs
      (ros_effective_m_per_min (fire_behavior res)) (of_Z 50000) five /\
  (forall x, leb lit_0_01 (py_max lit_0_01 x) = true) /\
  (forall ros_base slope aspect,
     leb lit_0_01 (physics.effective_ros ros_base slope aspect) = true).
Proof.
  intro Hrun.
  apply predict_wildfire_threat_returned in Hrun
    as (o1 & o2 & o3 & o4 & Hros & Hcalc & _).
  apply predict_ros_returned in Hros as (row & x & Hmodel & Hx).
  apply calculate_fire_behavior_returned in Hcalc
    as (Hbase & Heff & _ & Hint & Htime & Hdamage).
  split; [exists row, x; split; assumption | ].
  split; [rewrite Hx; apply py_max_floor | ].
  split; [exact Hbase | ].
  split; [exact Heff | ].
  split; [rewrite Heff; apply effective_ros_floor | ].
  split; [exact Hint | ]. split; [exact Htime | ]. split; [exact Hdamage | ].
  split; [exact py_max_floor | intros; apply effective_ros_floor].
Qed.

Lemma rate_of_spread_floor_witness :
  exists res out',
    predict_wildfire_threat (formulas := sample_formulas)
      (system_predicting (of_Z (-3))) inference_world (of_Z 19) (of_Z 72) []
    = (Returned res, out')
    /\ ros_prediction_m_per_min res = lit_0_01
    /\ leb lit_0_01 (ros_effective_m_per_min (fire_behavior res)) = true.
Proof.
  eexists. eexists. split; [vm_compute; reflexivity | ].
  split; [reflexivity | ].
  match goal with
  | |- leb lit_0_01 (ros_effective_m_per_min (fire_behavior ?res)) = true =>
      pose proof (@rate_of_spread_floor sample_formulas
                    (system_predicting (of_Z (-3))) inference_world
                    (of_Z 19) (of_Z 72) [] _ res
                    ltac:(vm_compute; reflexivity)) as H
  end.
  exact (proj1 (proj2 (proj2 (proj2 (proj2 H))))).
Defined.

(** [_calculate_fire_behavior] never raises: it returns metrics that
    depend on its two arguments only, after printing seven fixed lines. *)
Lemma calculate_fire_behavior_run {formulas : physics.Formulas}
    (f : features) (ros : float) :
  exists m lines,
    forall out, _calculate_fire_behavior f ros out = (Returned m, (out ++ lines)%list).
Proof.
  eexists. eexists. intro out.
  unfold _calculate_fire_behavior, io_bind, print, ret. cbv zeta. cbn [fst snd].
  repeat rewrite <- app_assoc. cbn [app]. reflexivity.
Qed.

End Clamps.

(** ** Failures of the services and of the model ([simple_predict.py]) *)

Section Failures.

Import F64 Py Scenarios.
Import simple_predict.

Local Open Scope string_scope.

Variable self : WildfirePredictor.
Variables lat lon : float.

Lemma predict_dict_weather_failure (w : World) (e : string) :
  open_meteo w lat lon = Raised e ->
  predict_dict w self lat lon = Returned (error_dict w ("Error: " ++ e)).
Proof.
  intro Hw. unfold predict_dict, get_weather_data. rewrite Hw. reflexivity.
Qed.

Lemma predict_dict_weather_ok (w : World) (data : weather_data) :
  open_meteo w lat lon = Returned data ->
  predict_dict w self lat lon
  = let '(lightning, strike_count) := get_lightning_data w self lat lon in
    let features := feature_row data lightning in
    match bind (predict_proba (model self) features)
               (fun probability =>
                  bind (predict_class (model self) features)
                       (fun prediction => Returned (probability, prediction))) with
    | Raised e => Returned (error_dict w ("Model prediction failed: " ++ e))
    | Returned (probability, prediction) =>
        bind (risk_level probability)
             (fun label =>
                Returned (result_dict w lat lon data lightning strike_count
                            probability prediction label))
    end.
Proof.
  intro Hw. unfold predict_dict, get_weather_data. rewrite Hw. reflexivity.
Qed.

Lemma stage_messages_differ (e e' : string) :
  "Error: " ++ e <> "Model prediction failed: " ++ e'.
Proof. cbn. discriminate. Qed.

(** A service that reports strikes is told apart from both. *)
Lemma lightning_strikes_detected (w : World) (n : nat) :
  get_lightning_data (with_lightning w (Returned (strikes (S n)))) self lat lon
  = (1, Z.of_nat (S n)).
Proof.
  unfold get_lightning_data, with_lightning, strikes. cbn [aeris_lightning].
  cbn [get assoc String.eqb Ascii.eqb Bool.eqb truthy repeat len].
  cbn [List.length]. rewrite repeat_length.
  replace (0 <? Z.of_nat (S n))%Z with true by (symmetry; apply Z.ltb_lt; lia).
  reflexivity.
Qed.

(** C10. When the lightning request raises, [get_lightning_data] returns
    [(0, 0)], the pair it returns when the service answers without any
    strike; the prediction goes on with a lightning feature of 0, and the
    result of [predict_dict] and of [predict] is the one obtained from a
    service that reports no strike.  [WildfirePredictionAPI] returns 0 in
    both cases as well. *)
Theorem lightning_failure_masked (w : World) (e : string) :
  let down := with_lightning w (Raised e) in
  let quiet := with_lightning w (Returned no_strikes) in
  get_lightning_data down self lat lon = (0, 0) /\
  get_lightning_data quiet self lat lon = (0, 0) /\
  predict_dict down self lat lon = predict_dict quiet self lat lon /\
  predict down self lat lon = predict quiet self lat lon /\
  (forall data probability prediction label,
     open_meteo w lat lon = Returned data ->
     predict_proba (model self) (feature_row data 0) = Returned probability ->
     predict_class (model self) (feature_row data 0) = Returned prediction ->
     risk_level probability = Returned label ->
     predict_dict down self lat lon
     = Returned (result_dict down lat lon data 0 0 probability prediction label)) /\
  (forall api hours out,
     fst (wildfire_model.get_lightning_data (fun _ _ _ _ => Raised e)
            api lat lon hours out) = Returned 0
     /\ fst (wildfire_model.get_lightning_data (fun _ _ _ _ => Returned no_strikes)
               api lat lon hours out) = Returned 0).
Proof.
  cbv zeta.
  split; [reflexivity | ]. split; [reflexivity | ].
  split; [reflexivity | ]. split; [reflexivity | ].
  split.
  - intros data probability prediction label Hw Hp Hc Hl.
    rewrite (@predict_dict_weather_ok (with_lightning w (Raised e)) data Hw).
    change (get_lightning_data (with_lightning w (Raised e)) self lat lon)
      with (0, 0).
    cbv beta iota zeta. rewrite Hp. cbn [bind]. rewrite Hc. cbn [bind].
    rewrite Hl. reflexivity.
  - intros api hours out. split; reflexivity.
Qed.

(** What [predict_dict] takes for a failure of the model on a row. *)
Lemma model_outcomes (row : list float) :
  (exists e, predict_proba (model self) row = Raised e
             \/ (exists p, predict_proba (model self) row = Returned p
                           /\ predict_class (model self) row = Raised e))
  \/ (exists p c, predict_proba (model self) row = Returned p
                  /\ predict_class (model self) row = Returned c).
Proof.
  destruct (predict_proba (model self) row) as [p | e] eqn:Hp.
  - destruct (predict_class (model self) row) as [c | e] eqn:Hc.
    + right. exists p, c. split; reflexivity.
    + left. exists e. right. exists p. split; reflexivity.
  - left. exists e. left. reflexivity.
Qed.

(** C7, as the code has it.  A failure of the weather lookup or of the
    model is returned by [predict_dict] as a record [{'error': ...,
    'timestamp': ...}]; the message begins with [Error: ] for the weather
    lookup and with [Model prediction failed: ] for the model, so the two
    stages are told apart; a returned record has an ['error'] entry
    exactly in these two cases, and then no ['wildfire_prediction'] entry,
    while a computed result has a ['wildfire_prediction'] entry and no
    ['error'] entry.  A failure of the lightning request is not among
    them: it is replaced by the pair [(0, 0)]. *)
Theorem weather_and_model_failures_reported (w : World) :
  let row data := feature_row data (fst (get_lightning_data w self lat lon)) in
  let model_failed data e :=
    predict_proba (model self) (row data) = Raised e
    \/ (exists p, predict_proba (model self) (row data) = Returned p
                  /\ predict_class (model self) (row data) = Raised e) in
  (forall e, open_meteo w lat lon = Raised e ->
     predict_dict w self lat lon = Returned (error_dict w ("Error: " ++ e))) /\
  (forall data e, open_meteo w lat lon = Returned data -> model_failed data e ->
     predict_dict w self lat lon
     = Returned (error_dict w ("Model prediction failed: " ++ e))) /\
  (forall v, predict_dict w self lat lon = Returned v ->
     (has_key v "error" = true <->
      (exists e, open_meteo w lat lon = Raised e)
      \/ (exists data e, open_meteo w lat lon = Returned data /\ model_failed data e))
     /\ has_key v "wildfire_prediction" = negb (has_key v "error")) /\
  (forall e e', "Error: " ++ e <> "Model prediction failed: " ++ e') /\
  (forall e, get_lightning_data (with_lightning w (Raised e)) self lat lon = (0, 0)).
Proof.
  cbv zeta.
  split; [intros e Hw; apply predict_dict_weather_failure; exact Hw | ].
  split.
  { intros data e Hw Hm. rewrite (@predict_dict_weather_ok w data Hw).
    destruct (get_lightning_data w self lat lon) as [lightning strikes].
    cbn [fst] in Hm. cbv zeta.
    destruct Hm as [Hp | (p & Hp & Hc)].
    - rewrite Hp. reflexivity.
    - rewrite Hp. cbn [bind]. rewrite Hc. reflexivity. }
  split.
  { intros v Hv.
    destruct (open_meteo w lat lon) as [data | e] eqn:Hw.
    - rewrite (@predict_dict_weather_ok w data Hw) in Hv.
      destruct (get_lightning_data w self lat lon) as [lightning strikes].
      cbn [fst]. cbv zeta in Hv.
      destruct (model_outcomes (feature_row data lightning))
        as [(e & Hm) | (p & c & Hp & Hc)].
      + assert (Hv' : v = error_dict w ("Model prediction failed: " ++ e)).
        { destruct Hm as [Hp | (p & Hp & Hc)].
          - rewrite Hp in Hv. cbn [bind] in Hv. congruence.
          - rewrite Hp in Hv. cbn [bind] in Hv. rewrite Hc in Hv.
            cbn [bind] in Hv. congruence. }
        subst v. split; [ | reflexivity].
        split; [ | reflexivity].
        intros _. right. exists data, e. split; [reflexivity | exact Hm].
      + rewrite Hp in Hv. cbn [bind] in Hv. rewrite Hc in Hv. cbn [bind] in Hv.
        destruct (risk_level p) as [label | e]; cbn [bind] in Hv; [ | discriminate].
        injection Hv as <-. split; [ | reflexivity].
        split; [discriminate | ].
        intros [(e & He) | (data' & e & Hd & Hm)]; [discriminate | ].
        injection Hd as <-.
        destruct Hm as [Hm | (p' & _ & Hm)]; congruence.
    - rewrite (@predict_dict_weather_failure w e Hw) in Hv. injection Hv as <-.
      split; [ | reflexivity].
      split; [ | reflexivity]. intros _. left. exists e. reflexivity. }
  split; [exact stage_messages_differ | reflexivity].
Qed.

(** The two reported failures on sample worlds. *)
Lemma failure_records_samples :
  predict_dict weather_down (predictor_with steady_model) (of_Z 19) (of_Z 72)
  = Returned (error_dict weather_down "Error: Connection refused") /\
  predict_dict calm_world (predictor_with broken_model) (of_Z 19) (of_Z 72)
  = Returned (error_dict calm_world
                "Model prediction failed: feature shape mismatch").
Proof. split; reflexivity. Qed.

(** C7 as stated fails: with the lightning service down the request is
    answered by an ordinary prediction, without any error entry, equal to
    the prediction made when the service reports no strike. *)
Lemma lightning_failure_not_reported :
  aeris_lightning lightning_down (Some "demo") (Some "demo") (of_Z 19) (of_Z 72)
  = Raised "HTTPSConnectionPool: Read timed out."
  /\ exists v,
       predict_dict lightning_down (predictor_with steady_model) (of_Z 19) (of_Z 72)
       = Returned v
       /\ has_key v "error" = false
       /\ has_key v "wildfire_prediction" = true
       /\ predict_dict calm_world (predictor_with steady_model) (of_Z 19) (of_Z 72)
          = Returned v.
Proof.
  split; [reflexivity | ].
  eexists. split; [vm_compute; reflexivity | ].
  split; [reflexivity | ]. split; [reflexivity | ]. vm_compute. reflexivity.
Qed.

End Failures.

(** ** Status codes of the HTTP routes ([app_fixed.py]) *)

Section Statuses.

Import F64 Py Scenarios.
Import app_fixed.

Local Open Scope string_scope.

Variable float_of_string : string -> option float.
Variable w : simple_predict.World.
Variable predictor : simple_predict.WildfirePredictor.
Variable formulas : IO physics.Formulas.
Variable iw : wildfire_inference_system.World.

Lemma predict_route_malformed (lat lon : option string) :
  malformed float_of_string lat lon ->
  exists body, predict_route float_of_string w predictor lat lon = Returned (body, 400).
Proof.
  unfold malformed, predict_route, jsonify_status.
  destruct lat as [lat | ]; destruct lon as [lon | ]; try (intros _; eauto; fail).
  intros [H | H].
  - rewrite H. eauto.
  - destruct (float_of_string lat); [rewrite H | ]; eauto.
Qed.

Lemma analyze_threat_route_malformed (lat lon : option string) (out : stdout) :
  malformed float_of_string lat lon ->
  exists body,
    analyze_threat_route float_of_string w predictor formulas iw lat lon out
    = (Returned (body, 400), out).
Proof.
  unfold malformed, analyze_threat_route, jsonify_status, ret.
  destruct lat as [lat | ]; destruct lon as [lon | ]; try (intros _; eauto; fail).
  intros [H | H].
  - rewrite H. eauto.
  - destruct (float_of_string lat); [rewrite H | ]; eauto.
Qed.

Lemma analyze_threat_route_failure (lat lon : string) (latf lonf : float)
    (out mid : stdout) (e : string) (fallback : pyval) :
  float_of_string lat = Some latf -> float_of_string lon = Some lonf ->
  comprehensive_analysis formulas iw latf lonf out = (Raised e, mid) ->
  simple_predict.predict_dict w predictor latf lonf = Returned fallback ->
  exists body out',
    analyze_threat_route float_of_string w predictor formulas iw
      (Some lat) (Some lon) out = (Returned (body, 500), out').
Proof.
  intros Hlat Hlon Hrun Hfb. unfold analyze_threat_route. rewrite Hlat, Hlon.
  unfold try_except. rewrite Hrun.
  unfold io_bind, print, lift. rewrite Hfb. unfold ret, jsonify_status. eauto.
Qed.

(** C6 at [/predict]: a request with well-formed coordinates whose weather
    lookup or model fails is answered with the error record and status
    200, not 500. *)
Theorem predict_route_failure_status (lat lon : string) (latf lonf : float) :
  float_of_string lat = Some latf -> float_of_string lon = Some lonf ->
  (forall e, simple_predict.open_meteo w latf lonf = Raised e ->
     predict_route float_of_string w predictor (Some lat) (Some lon)
     = Returned (simple_predict.error_dict w ("Error: " ++ e), 200)) /\
  (forall data e,
     simple_predict.open_meteo w latf lonf = Returned data ->
     simple_predict.predict_proba (simple_predict.model predictor)
       (simple_predict.feature_row data
          (fst (simple_predict.get_lightning_data w predictor latf lonf)))
     = Raised e ->
     predict_route float_of_string w predictor (Some lat) (Some lon)
     = Returned (simple_predict.error_dict w ("Model prediction failed: " ++ e), 200)).
Proof.
  intros Hlat Hlon. unfold predict_route. rewrite Hlat, Hlon. split.
  - intros e Hw. rewrite (@predict_dict_weather_failure predictor latf lonf w e Hw).
    reflexivity.
  - intros data e Hw Hm.
    rewrite (@predict_dict_weather_ok predictor latf lonf w data Hw).
    destruct (simple_predict.get_lightning_data w predictor latf lonf)
      as [lightning strikes].
    cbn [fst] in Hm. cbv zeta. rewrite Hm. reflexivity.
Qed.

(** Both routes answer with 200, 400 or 500 only; 500 is the answer of
    [analyze_threat_route] to a failed analysis and of the framework to a
    view that raised. *)
Lemma predict_route_statuses (lat lon : option string) :
  In (status_of (predict_route float_of_string w predictor lat lon)) [200; 400; 500].
Proof.
  unfold predict_route, jsonify_status, jsonify.
  destruct lat as [lat | ]; destruct lon as [lon | ]; cbn; auto.
  destruct (float_of_string lat); cbn; auto.
  destruct (float_of_string lon); cbn; auto.
  destruct (simple_predict.predict_dict w predictor f f0); cbn; auto.
Qed.

Lemma comprehensive_analysis_returned (latf lonf : float) out r out' :
  comprehensive_analysis formulas iw latf lonf out
  = (Returned r, out') -> snd r = 200.
Proof.
  unfold comprehensive_analysis. intro H.
  repeat (let a := fresh "a" in let mid := fresh "mid" in let Ha := fresh "Ha" in
          apply io_bind_returned in H as (a & mid & Ha & H)).
  apply ret_returned in H as [<- _]. reflexivity.
Qed.

Lemma analyze_threat_route_statuses (lat lon : option string) (out : stdout) :
  In (status_of
        (fst (analyze_threat_route float_of_string w predictor formulas iw
                lat lon out)))
     [200; 400; 500].
Proof.
  unfold analyze_threat_route, jsonify_status, ret.
  destruct lat as [lat | ]; destruct lon as [lon | ]; cbn; auto.
  destruct (float_of_string lat); cbn; auto.
  destruct (float_of_string lon); cbn; auto.
  unfold try_except.
  destruct (comprehensive_analysis formulas iw f f0 out)
    as [[r | e] mid] eqn:Hrun.
  - apply comprehensive_analysis_returned in Hrun.
    destruct r as [body status]. cbn in *. subst. auto.
  - unfold io_bind, print, lift.
    destruct (simple_predict.predict_dict w predictor f f0); cbn; auto.
Qed.

End Statuses.

(** On sample worlds: [analyze_threat_route] answers 500 when the model
    file cannot be loaded and 200 when the analysis succeeds, and both
    routes answer 400 to a latitude that is not a number. *)
Lemma route_status_samples :
  app_fixed.status_of
    (fst (app_fixed.analyze_threat_route Scenarios.float_of_decimal
            Scenarios.calm_world (Scenarios.predictor_with Scenarios.steady_model)
            Scenarios.first_import Scenarios.no_model_file
            (Some "19.05"%string) (Some "72.87"%string) [])) = 500 /\
  app_fixed.status_of
    (fst (app_fixed.analyze_threat_route Scenarios.float_of_decimal
            Scenarios.calm_world (Scenarios.predictor_with Scenarios.steady_model)
            Scenarios.first_import Scenarios.inference_world
            (Some "19.05"%string) (Some "72.87"%string) [])) = 200 /\
  app_fixed.status_of
    (fst (app_fixed.analyze_threat_route Scenarios.float_of_decimal
            Scenarios.calm_world (Scenarios.predictor_with Scenarios.steady_model)
            Scenarios.first_import Scenarios.inference_world
            (Some "north"%string) (Some "72.87"%string) [])) = 400 /\
  app_fixed.status_of
    (app_fixed.predict_route Scenarios.float_of_decimal
       Scenarios.calm_world (Scenarios.predictor_with Scenarios.steady_model)
       (Some "north"%string) (Some "72.87"%string)) = 400 /\
  app_fixed.status_of
    (app_fixed.predict_route Scenarios.float_of_decimal
       Scenarios.calm_world (Scenarios.predictor_with Scenarios.steady_model)
       None (Some "72.87"%string)) = 400.
Proof. repeat split; vm_compute; reflexivity. Qed.

Lemma predict_route_failure_status_witness :
  Scenarios.float_of_decimal "19.05" = Some (F64.of_fraction false 1905 100) /\
  Scenarios.float_of_decimal "72.87" = Some (F64.of_fraction false 7287 100) /\
  app_fixed.predict_route Scenarios.float_of_decimal Scenarios.weather_down
    (Scenarios.predictor_with Scenarios.steady_model)
    (Some "19.05"%string) (Some "72.87"%string)
  = Py.Returned
      (simple_predict.error_dict Scenarios.weather_down
         "Error: Connection refused", 200) /\
  app_fixed.predict_route Scenarios.float_of_decimal Scenarios.calm_world
    (Scenarios.predictor_with Scenarios.broken_model)
    (Some "19.05"%string) (Some "72.87"%string)
  = Py.Returned
      (simple_predict.error_dict Scenarios.calm_world
         "Model prediction failed: feature shape mismatch", 200).
Proof.
  split; [reflexivity | ]. split; [reflexivity | ]. split.
  - exact (proj1 (@predict_route_failure_status Scenarios.float_of_decimal
                    Scenarios.weather_down
                    (Scenarios.predictor_with Scenarios.steady_model)
                    "19.05"%string "72.87"%string
                    (F64.of_fraction false 1905 100)
                    (F64.of_fraction false 7287 100) eq_refl eq_refl)
             "Connection refused"%string eq_refl).
  - exact (proj2 (@predict_route_failure_status Scenarios.float_of_decimal
                    Scenarios.calm_world
                    (Scenarios.predictor_with Scenarios.broken_model)
                    "19.05"%string "72.87"%string
                    (F64.of_fraction false 1905 100)
                    (F64.of_fraction false 7287 100) eq_refl eq_refl)
             Scenarios.fair_weather "feature shape mismatch"%string
             eq_refl eq_refl).
Defined.


(** * Further properties of the code *)

(** ** Lightning lookups ([simple_predict.py], [wildfire_model.py]) *)

Section Lightning.

Import F64 Py Scenarios Readings.

Local Open Scope string_scope.

(** An object with a positive length is true. *)
Lemma positive_len_truthy (v : pyval) (n : Z) :
  len v = Some n -> 1 <= n -> truthy v = true.
Proof.
  destruct v as [ | b | k | x | s | l | d]; try discriminate; cbn;
    intros H Hn; injection H as <-.
  - destruct s; [cbn in Hn; lia | reflexivity].
  - destruct l; [cbn in Hn; lia | reflexivity].
  - destruct d; [cbn in Hn; lia | reflexivity].
Qed.

Lemma falsy_len_zero (v : pyval) (n : Z) :
  len v = Some n -> truthy v = false -> n = 0.
Proof.
  destruct v as [ | b | k | x | s | l | d]; try discriminate; cbn;
    intros H Ht; injection H as <-.
  - destruct s; [reflexivity | discriminate].
  - destruct l; [reflexivity | discriminate].
  - destruct d; [reflexivity | discriminate].
Qed.

Lemma strike_count_nonneg (answer : outcome pyval) : 0 <= strike_count answer.
Proof.
  unfold strike_count. destruct answer as [data | e]; [ | lia].
  destruct (get data "response") as [r | ]; [ | lia].
  destruct r; cbn; lia.
Qed.

(** X1. [get_lightning_data] is decided by the length of the ['response']
    entry alone: it returns [(1, n)] when the service answered with [n >= 1]
    entries and [(0, 0)] in every other case (request raising, answer
    without usable ['response'], empty ['response']); the flag is 1
    exactly when the count is positive. *)
Theorem lightning_flag_matches_count (w : simple_predict.World)
    (self : simple_predict.WildfirePredictor) (lat lon : float) :
  let n := strike_count
             (simple_predict.aeris_lightning w
                (simple_predict.xweather_client_id self)
                (simple_predict.xweather_client_secret self) lat lon) in
  simple_predict.get_lightning_data w self lat lon
  = (if (1 <=? n)%Z then (1, n) else (0, 0)) /\
  (fst (simple_predict.get_lightning_data w self lat lon) = 1
   <-> 1 <= snd (simple_predict.get_lightning_data w self lat lon)) /\
  0 <= snd (simple_predict.get_lightning_data w self lat lon).
Proof.
  cbv zeta.
  assert (Hform : simple_predict.get_lightning_data w self lat lon
            = (if (1 <=? strike_count
                          (simple_predict.aeris_lightning w
                             (simple_predict.xweather_client_id self)
                             (simple_predict.xweather_client_secret self) lat lon))%Z
               then (1, strike_count
                          (simple_predict.aeris_lightning w
                             (simple_predict.xweather_client_id self)
                             (simple_predict.xweather_client_secret self) lat lon))
               else (0, 0))).
  { unfold simple_predict.get_lightning_data, strike_count.
    destruct (simple_predict.aeris_lightning w _ _ lat lon) as [data | e];
      [ | reflexivity].
    destruct (get data "response") as [response | ]; [ | reflexivity].
    destruct (len response) as [n | ] eqn:Hlen.
    - destruct (truthy response) eqn:Ht.
      + destruct (Z.ltb_spec 0 n); destruct (Z.leb_spec 1 n); try lia; reflexivity.
      + rewrite (falsy_len_zero _ Hlen Ht). reflexivity.
    - destruct (truthy response); reflexivity. }
  split; [exact Hform | ].
  rewrite Hform.
  pose proof (strike_count_nonneg
                (simple_predict.aeris_lightning w
                   (simple_predict.xweather_client_id self)
                   (simple_predict.xweather_client_secret self) lat lon)) as Hn.
  destruct (Z.leb_spec 1 (strike_count
                (simple_predict.aeris_lightning w
                   (simple_predict.xweather_client_id self)
                   (simple_predict.xweather_client_secret self) lat lon)));
    cbn [fst snd]; split; try lia; split; intro; try lia; try reflexivity.
Qed.

(** X2. [WildfirePredictionAPI.get_lightning_data] never raises and gives
    the flag that [WildfirePredictor.get_lightning_data] gives on the same
    answer of the service; it prints one line exactly when the request or
    the reading of the answer raised, and nothing otherwise. *)
Theorem lightning_lookups_agree
    (lightning_closest :
       wildfire_model.WildfirePredictionAPI -> float -> float -> Z -> outcome pyval)
    (api : wildfire_model.WildfirePredictionAPI)
    (w : simple_predict.World) (self : simple_predict.WildfirePredictor)
    (lat lon : float) (hours : Z) (out : stdout) :
  simple_predict.aeris_lightning w (simple_predict.xweather_client_id self)
    (simple_predict.xweather_client_secret self) lat lon
  = lightning_closest api lat lon hours ->
  let run := wildfire_model.get_lightning_data lightning_closest api lat lon hours out in
  fst run = Returned (fst (simple_predict.get_lightning_data w self lat lon)) /\
  (lookup_fails (lightning_closest api lat lon hours) = false -> snd run = out) /\
  (lookup_fails (lightning_closest api lat lon hours) = true ->
   exists message,
     snd run = (out ++ [[Text "Error fetching lightning data: "; FmtStr message]])%list).
Proof.
  intro Hsame. cbv zeta.
  unfold wildfire_model.get_lightning_data, simple_predict.get_lightning_data,
    lookup_fails.
  rewrite Hsame.
  destruct (lightning_closest api lat lon hours) as [data | e].
  - destruct (get data "response") as [response | ].
    + destruct (truthy response).
      * destruct (len response) as [n | ].
        -- destruct (0 <? n)%Z; cbn; repeat split; intros; (reflexivity || discriminate).
        -- cbn. repeat split; intros; try discriminate. eauto.
      * cbn. repeat split; intros; (reflexivity || discriminate).
    + cbn. repeat split; intros; try discriminate. eauto.
  - cbn. repeat split; intros; try discriminate. eauto.
Qed.

Lemma lightning_lookups_agree_witness :
  fst (wildfire_model.get_lightning_data (fun _ _ _ _ => Returned (strikes 3))
         {| wildfire_model.client_id := "demo";
            wildfire_model.client_secret := "demo";
            wildfire_model.base_url := "https://api.aerisapi.com" |}
         (of_Z 19) (of_Z 72) 24 [])
  = Returned 1.
Proof.
  exact (proj1 (@lightning_lookups_agree
                  (fun _ _ _ _ => Returned (strikes 3))
                  {| wildfire_model.client_id := "demo";
                     wildfire_model.client_secret := "demo";
                     wildfire_model.base_url := "https://api.aerisapi.com" |}
                  (with_lightning calm_world (Returned (strikes 3)))
                  (predictor_with steady_model)
                  (of_Z 19) (of_Z 72) 24 [] eq_refl)).
Defined.

End Lightning.


(** ** The two entry points of [WildfirePredictor] *)

Section EntryPoints.

Import F64 Py Scenarios.
Import simple_predict.

(** X3. [predict] and [predict_dict] compute the same record: whatever
    [predict] serialises (with indent 2) is what [predict_dict] returns;
    when [predict] raises, [predict_dict] either raises the same
    exception or, the failure being the model's, returns the record
    ['Model prediction failed: ...'] instead. *)
Theorem predict_serialises_predict_dict (w : World) (self : WildfirePredictor)
    (lat lon : float) :
  match predict w self lat lon with
  | Returned (json_dumps value indent) =>
      indent = 2 /\ predict_dict w self lat lon = Returned value
  | Raised e =>
      predict_dict w self lat lon = Raised e
      \/ predict_dict w self lat lon
         = Returned (error_dict w ("Model prediction failed: " ++ e)%string)
  end.
Proof.
  unfold predict, predict_dict.
  destruct (get_weather_data w lat lon) as [weather error].
  destruct (is_error error); [split; reflexivity | ].
  destruct (get_lightning_data w self lat lon) as [lightning strike_count].
  destruct weather as [data | ]; [ | left; reflexivity].
  destruct (predict_proba (model self) (feature_row data lightning)) as [p | e];
    cbn [bind]; [ | right; reflexivity].
  destruct (predict_class (model self) (feature_row data lightning)) as [c | e];
    cbn [bind]; [ | right; reflexivity].
  destruct (risk_level p) as [label | e]; cbn [bind].
  - split; reflexivity.
  - left. reflexivity.
Qed.

End EntryPoints.


(** ** Risk labels outside [[0, 1]] *)

Module F64Signs.

Import F64 F64Facts.

(** Rounding commutes with the sign. *)
Lemma binary_round_aux_opp m e l :
  binary_round_aux prec emax true m e l
  = SFopp (binary_round_aux prec emax false m e l).
Proof.
  unfold binary_round_aux.
  destruct (shr_fexp prec emax m e l) as [mrs e'].
  destruct (shr_fexp prec emax _ e' loc_Exact) as [mrs' e''].
  destruct (shr_m mrs'); [reflexivity | | reflexivity].
  destruct (e'' <=? emax - prec); reflexivity.
Qed.

Lemma py_int_opp (x : float) :
  py_int (SFopp x) = option_map Z.opp (py_int x).
Proof.
  destruct x as [s | s | | s m e]; cbn; try reflexivity.
  destruct s; cbn; f_equal; lia.
Qed.

Lemma mul_opp_five (q : float) : mul (SFopp q) five = SFopp (mul q five).
Proof.
  destruct q as [s | s | | s m e]; try reflexivity.
  - destruct s; reflexivity.
  - destruct s; reflexivity.
  - unfold mul, five. cbn [SFopp SFmul].
    destruct s; cbn [negb xorb].
    + rewrite binary_round_aux_opp.
      destruct (binary_round_aux prec emax false _ _ _) as [[ | ] | [ | ] | | [ | ] ? ?];
        reflexivity.
    + apply binary_round_aux_opp.
Qed.

(** The result of rounding a positive number that loses at least one bit:
    a mantissa [R] within half a unit of the exact quotient, renormalised
    when it reaches [2 ^ 53], or infinity above the largest exponent. *)
Lemma round_aux_shape (P : positive) (E : Z) :
  let e' := fexp prec emax (Zpos (digits2_pos P) + E) in
  0 < e' - E ->
  exists R, 0 <= R <= 2 ^ 53 /\
    2 ^ (e' - E) * (2 * R - 1) <= 2 * Zpos P <= 2 ^ (e' - E) * (2 * R + 1) /\
    binary_round_aux prec emax false (Zpos P) E loc_Exact
    = match R with
      | Zpos r =>
          if R <? 2 ^ 53
          then if e' <=? 971 then S754_finite false r e' else S754_infinity false
          else if e' + 1 <=? 971
               then S754_finite false 4503599627370496 (e' + 1)
               else S754_infinity false
      | _ => S754_zero false
      end.
Proof.
  intros e' Hn.
  remember (e' - E) as n eqn:En.
  destruct n as [ | np | np]; try lia.
  unfold binary_round_aux. rewrite (@shr_fexp_exact P E np) by (fold e'; lia).
  assert (HP : 0 <= Zpos P) by lia.
  destruct (round_shr_spec (Pos.to_nat np) HP) as (HR0 & HR).
  rewrite positive_nat_Z in HR.
  set (R := round_nearest_even _ _) in *.
  replace (E + Zpos np) with e' by lia.
  assert (Hpn : 0 < 2 ^ Zpos np) by (apply Z.pow_pos_nonneg; lia).
  assert (Hemin : -1074 <= e') by (unfold e'; rewrite fexp_eq; lia).
  assert (HR53 : R <= 2 ^ 53).
  { pose proof (digits2_bounds P) as [_ Hd].
    assert (Hle : Zpos (digits2_pos P) <= Zpos np + 53)
      by (unfold e' in En; rewrite fexp_eq in En; lia).
    assert (Hpw : 2 ^ Zpos (digits2_pos P) <= 2 ^ (Zpos np + 53))
      by (apply Z.pow_le_mono_r; lia).
    rewrite Z.pow_add_r in Hpw by lia.
    assert (2 ^ Zpos np * (2 * R - 1) < 2 ^ Zpos np * 2 ^ 54).
    { change (2 ^ 54) with (2 * 2 ^ 53). lia. }
    assert (2 * R - 1 < 2 ^ 54)
      by (apply Z.mul_lt_mono_pos_l with (2 ^ Zpos np); assumption).
    change (2 ^ 54) with (2 * 2 ^ 53) in *. lia. }
  exists R. split; [lia | ]. split; [exact HR | ].
  destruct R as [ | r | r] eqn:ER; try lia.
  - unfold shr_fexp. cbn [Zdigits2 shr_record_of_loc].
    rewrite shr_nonpos by (rewrite fexp_eq; lia). reflexivity.
  - destruct (Z.ltb_spec (Zpos r) (2 ^ 53)) as [Hlt | Hge].
    + assert (Hdr : Zpos (digits2_pos r) <= 53).
      { pose proof (digits2_bounds r) as [Hlo _].
        destruct (Z_le_gt_dec (Zpos (digits2_pos r)) 53) as [ | Hgt]; [assumption | ].
        assert (2 ^ 53 <= 2 ^ (Zpos (digits2_pos r) - 1))
          by (apply Z.pow_le_mono_r; lia).
        lia. }
      unfold shr_fexp. cbn [Zdigits2 shr_record_of_loc].
      rewrite shr_nonpos by (rewrite fexp_eq; lia).
      cbn [shr_m]. reflexivity.
    + assert (Heq : Zpos r = 2 ^ 53) by lia.
      injection Heq as ->.
      unfold shr_fexp. cbn [Zdigits2 shr_record_of_loc digits2_pos Pos.succ].
      replace (fexp prec emax (54 + e') - e') with 1 by (rewrite fexp_eq; lia).
      cbn [shr iter_pos shr_1 shr_m]. reflexivity.
Qed.

End F64Signs.


Section RiskOutOfRange.

Import F64 Py F64Facts F64Signs.

Local Open Scope string_scope.

Lemma shiftl_at_least_four r e :
  2 ^ 52 <= Zpos r -> -50 <= e -> 4 <= Z.shiftl (Zpos r) e.
Proof.
  intros Hr He. destruct (Z_lt_le_dec e 0) as [Hneg | Hpos].
  - rewrite shiftl_neg_div by lia.
    apply Z.div_le_lower_bound; [apply Z.pow_pos_nonneg; lia | ].
    assert (2 ^ (- e) <= 2 ^ 50) by (apply Z.pow_le_mono_r; lia).
    change (2 ^ 52) with (2 ^ 50 * 4) in Hr. lia.
  - rewrite Z.shiftl_mul_pow2 by lia.
    assert (1 <= 2 ^ e) by (apply (Z.pow_le_mono_r 2 0 e); lia).
    assert (2 ^ 52 = 4503599627370496) by reflexivity.
    nia.
Qed.

(** X4. The index is clamped from above for every probability, not only
    at 1.0: for a float [p >= 1.0] (infinity included) [risk_level] is
    Extreme, unless [p * 5] overflows to infinity, in which case [int]
    raises [OverflowError]; the threshold cascade [_get_risk_level]
    answers Extreme in both cases. *)
Theorem risk_level_clamped_above (p : float) :
  valid p = true -> leb one p = true ->
  match mul p five with
  | S754_infinity _ =>
      simple_predict.risk_level p = Raised "cannot convert float infinity to integer"
  | _ => simple_predict.risk_level p = Returned "Extreme"
  end
  /\ wildfire_model._get_risk_level p = "Extreme".
Proof.
  intros Hv H1.
  destruct p as [s | [ | ] | | [ | ] m e]; try discriminate.
  - split; reflexivity.
  - unfold valid, valid_binary in Hv.
    destruct (bounded_digits _ _ Hv) as (Hm53 & Hemin & Hnorm).
    unfold one in H1. rewrite leb_finite in H1.
    assert (He : -52 <= e).
    { destruct (Z.ltb_spec (-52) e); [lia | ].
      destruct (Z.eqb_spec (-52) e); [lia | discriminate]. }
    specialize (Hnorm ltac:(lia)). clear H1.
    split.
    2: { unfold wildfire_model._get_risk_level, lit_0_2, lit_0_4, lit_0_6, lit_0_8.
         rewrite !ltb_finite. decide_tests; reflexivity. }
    pose proof (digits2_bounds (m * 5629499534213120)) as Hd.
    rewrite Pos2Z.inj_mul in Hd.
    set (d := Zpos (digits2_pos (m * 5629499534213120))) in *.
    assert (Hd106 : d <= 106).
    { assert (2 ^ (d - 1) < 2 ^ 106) by lia.
      assert (d - 1 < 106) by (apply pow2_lt_exp; lia). lia. }
    assert (Hd105 : 105 <= d).
    { assert (2 ^ 104 < 2 ^ d) by lia.
      assert (104 < d) by (apply pow2_lt_exp; lia). lia. }
    destruct (@round_aux_shape (m * 5629499534213120) (e + -50)) as (R & HR53 & HR & Hmul).
    { fold d. rewrite fexp_eq. lia. }
    fold d in HR, Hmul. rewrite fexp_eq in HR, Hmul.
    replace (Z.max (d + (e + -50) - 53) (-1074)) with (d + e - 103) in HR, Hmul by lia.
    replace (d + e - 103 - (e + -50)) with (d - 53) in HR by lia.
    rewrite Pos2Z.inj_mul in HR.
    assert (HRlow : 2 ^ 52 <= R).
    { assert (Hpd : 0 < 2 ^ (d - 53)) by (apply Z.pow_pos_nonneg; lia).
      assert (Hsplit : 2 ^ d = 2 ^ (d - 53) * 2 ^ 53).
      { rewrite <- Z.pow_add_r by lia. f_equal. lia. }
      assert (Hdd : 2 ^ d = 2 * 2 ^ (d - 1)).
      { replace d with (1 + (d - 1)) at 1 by lia. rewrite Z.pow_add_r by lia. reflexivity. }
      assert (2 ^ (d - 53) * 2 ^ 53 <= 2 ^ (d - 53) * (2 * R + 1)) by lia.
      assert (2 ^ 53 <= 2 * R + 1) by (apply Z.mul_le_mono_pos_l with (2 ^ (d - 53)); assumption).
      change (2 ^ 53) with (2 * 2 ^ 52) in *. lia. }
    unfold simple_predict.risk_level, simple_predict.risk_index,
      simple_predict.int_of_float.
    unfold mul, SFmul, five in *. cbn [xorb] in *.
    rewrite Hmul.
    destruct R as [ | r | r]; try lia.
    destruct (Zpos r <? 2 ^ 53)%Z.
    + destruct (d + e - 103 <=? 971)%Z; [ | reflexivity].
      cbn [py_int cond_Zopp bind].
      pose proof (@shiftl_at_least_four r (d + e - 103) HRlow ltac:(lia)).
      replace (Z.min (Z.shiftl (Zpos r) (d + e - 103)) 4) with 4 by lia.
      reflexivity.
    + destruct (d + e - 103 + 1 <=? 971)%Z; [ | reflexivity].
      cbn [py_int cond_Zopp bind].
      pose proof (@shiftl_at_least_four 4503599627370496 (d + e - 103 + 1)
                    ltac:(reflexivity) ltac:(lia)).
      replace (Z.min (Z.shiftl 4503599627370496 (d + e - 103 + 1)) 4) with 4 by lia.
      reflexivity.
Qed.

Lemma risk_level_clamped_above_witness :
  valid two = true /\ leb one two = true /\
  simple_predict.risk_level two = Returned "Extreme" /\
  wildfire_model._get_risk_level two = "Extreme".
Proof.
  split; [reflexivity | ]. split; [reflexivity | ].
  exact (risk_level_clamped_above two eq_refl eq_refl).
Defined.

(** X5. The index is not clamped from below.  For a probability [- q]
    with [q] in [[0, 1]] the integer part of [- q * 5] is the opposite of
    that of [q * 5], and Python's negative indices count from the end of
    the five labels: [risk_level] answers Low down to -0.2 (excluded),
    then Extreme, Very High, High and Moderate, and Low again at -1.0,
    where the cascade [_get_risk_level] answers Low throughout. *)
Theorem risk_level_wraps_below (q : float) :
  valid q = true -> leb zero q = true -> leb q one = true ->
  simple_predict.risk_level (SFopp q)
  = Returned (if ltb q lit_0_2 then "Low"
              else if ltb q lit_0_4 then "Extreme"
              else if ltb q lit_0_6 then "Very High"
              else if ltb q lit_0_8 then "High"
              else if ltb q one then "Moderate" else "Low")
  /\ wildfire_model._get_risk_level (SFopp q) = "Low".
Proof.
  intros Hv H0 H1. split.
  - unfold simple_predict.risk_level, simple_predict.risk_index,
      simple_predict.int_of_float.
    rewrite mul_opp_five, py_int_opp, (int_mul_five q Hv H0 H1).
    destruct (ltb q lit_0_2); [reflexivity | ].
    destruct (ltb q lit_0_4); [reflexivity | ].
    destruct (ltb q lit_0_6); [reflexivity | ].
    destruct (ltb q lit_0_8); [reflexivity | ].
    destruct (ltb q one); reflexivity.
  - destruct q as [s | [ | ] | | [ | ] m e]; try discriminate; reflexivity.
Qed.

Lemma risk_level_wraps_below_witness :
  valid lit_0_3 = true /\ leb zero lit_0_3 = true /\ leb lit_0_3 one = true /\
  simple_predict.risk_level (SFopp lit_0_3) = Returned "Extreme" /\
  wildfire_model._get_risk_level (SFopp lit_0_3) = "Low".
Proof.
  split; [reflexivity | ]. split; [reflexivity | ]. split; [reflexivity | ].
  exact (risk_level_wraps_below lit_0_3 eq_refl eq_refl eq_refl).
Defined.

End RiskOutOfRange.


(** ** The reported percentage *)

Section Percentage.

Import F64 Py F64Facts F64Signs Scenarios Readings.

Lemma hundredths_in_range_spec (n : nat) :
  hundredths_in_range n = true ->
  forall N, (Pos.to_nat N <= n)%nat ->
    leb zero (of_fraction false N 100) = true
    /\ leb (of_fraction false N 100) hundred = true.
Proof.
  induction n as [ | k IH]; intros Hall N HN.
  - pose proof (Pos2Nat.is_pos N). lia.
  - cbn [hundredths_in_range] in Hall. cbv zeta in Hall.
    apply andb_true_iff in Hall as [Hhere Hrest].
    apply andb_true_iff in Hhere as [Hlo Hhi].
    destruct (Nat.eq_dec (Pos.to_nat N) (S k)) as [Heq | Hne].
    + assert (HNk : N = Pos.of_succ_nat k).
      { apply Pos2Nat.inj. rewrite SuccNat2Pos.id_succ. exact Heq. }
      subst N. split; assumption.
    + apply IH; [exact Hrest | lia].
Qed.

Lemma hundredths_checked : hundredths_in_range (Z.to_nat 10000) = true.
Proof. vm_compute. reflexivity. Qed.

(** Rounding a quotient that is at most [c] to the nearest integer gives
    at most [c]. *)
Lemma rne_div_bounds (a b c : Z) :
  0 <= a -> 0 < b -> a <= c * b -> 0 <= rne_div a b <= c.
Proof.
  intros Ha Hb Hc. unfold rne_div.
  pose proof (Z.div_mod a b ltac:(lia)) as Hdm.
  pose proof (Z.mod_pos_bound a b Hb) as Hmod.
  assert (Hq : 0 <= a / b) by (apply Z.div_pos; lia).
  assert (Hqc : a / b <= c).
  { apply Z.div_le_upper_bound; [lia | ]. lia. }
  destruct (Z.eq_dec (a / b) c) as [Heq | Hne].
  - assert (Hm0 : a mod b = 0) by nia.
    rewrite Hm0. cbn [Z.mul].
    replace (0 ?= b) with Lt by (symmetry; apply Z.compare_lt_iff; lia). lia.
  - destruct (2 * (a mod b) ?= b); [destruct (Z.even (a / b)) | | ]; lia.
Qed.

(** [round(x, 2)] keeps a float of [(0, 100]] in [[0, 100]]. *)
Lemma py_round2_percent (r : positive) (e : Z) :
  Zpos r <= 2 ^ 53 -> e <= -46 -> (e = -46 -> Zpos r <= 7036874417766400) ->
  leb zero (py_round2 (S754_finite false r e)) = true
  /\ leb (py_round2 (S754_finite false r e)) hundred = true.
Proof.
  intros Hr He Htop. unfold py_round2.
  replace (0 <=? e) with false by (symmetry; apply Z.leb_gt; lia).
  assert (Hb : 0 < 2 ^ (- e)) by (apply Z.pow_pos_nonneg; lia).
  assert (Hle : Zpos r * 100 <= 10000 * 2 ^ (- e)).
  { destruct (Z.eq_dec e (-46)) as [-> | Hne].
    - specialize (Htop eq_refl). change (2 ^ (- -46)) with 70368744177664. lia.
    - assert (2 ^ 47 <= 2 ^ (- e)) by (apply Z.pow_le_mono_r; lia).
      change (2 ^ 47) with 140737488355328 in *.
      change (2 ^ 53) with 9007199254740992 in *. lia. }
  destruct (@rne_div_bounds (Zpos r * 100) (2 ^ (- e)) 10000 ltac:(lia) Hb Hle)
    as [Hk0 Hk].
  destruct (rne_div (Zpos r * 100) (2 ^ (- e))) as [ | N | N]; try lia.
  - split; reflexivity.
  - apply (hundredths_in_range_spec hundredths_checked). lia.
Qed.

(** X6. The reported percentage is a percentage: for a probability [p]
    of [[0, 1]] the value [round(p * 100, 2)], which [predict],
    [predict_dict] and [predict_wildfire_risk] put in their result, is a
    float of [[0, 100]]. *)
Theorem risk_percentage_in_range (p : float) :
  valid p = true -> leb zero p = true -> leb p one = true ->
  let percentage := py_round2 (mul p hundred) in
  leb zero percentage = true /\ leb percentage hundred = true /\
  forall w lat lon data lightning strikes prediction label,
    entry (simple_predict.result_dict w lat lon data lightning strikes p prediction label)
      "wildfire_prediction"%string "fire_risk_percentage"%string = Some (PyFloat percentage).
Proof.
  intros Hv H0 H1. cbv zeta.
  assert (Hrange : leb zero (py_round2 (mul p hundred)) = true
                   /\ leb (py_round2 (mul p hundred)) hundred = true).
  { destruct p as [s | [ | ] | | [ | ] m e]; try discriminate.
    { destruct s; split; reflexivity. }
    unfold valid, valid_binary in Hv.
    destruct (bounded_digits _ _ Hv) as (Hm53 & Hemin & Hnorm).
    unfold one in H1. rewrite leb_finite in H1.
    assert (He : e <= -52 /\ (e = -52 -> Zpos m <= 4503599627370496)).
    { destruct (Z.ltb_spec e (-52)); [lia | ].
      destruct (Z.eqb_spec e (-52)); [ | discriminate].
      destruct (Z.leb_spec (Zpos m) 4503599627370496); [lia | discriminate]. }
    destruct He as [He Heq1]. clear H0 H1.
    destruct (Z.eq_dec e (-52)) as [E52 | NE52].
    { subst e. specialize (Hnorm ltac:(lia)). specialize (Heq1 eq_refl).
      replace m with 4503599627370496%positive by lia.
      split; vm_compute; reflexivity. }
    pose proof (digits2_bounds (m * 7036874417766400)) as Hd.
    rewrite Pos2Z.inj_mul in Hd.
    set (d := Zpos (digits2_pos (m * 7036874417766400))) in *.
    assert (Hd106 : d <= 106).
    { assert (2 ^ (d - 1) < 2 ^ 106) by lia.
      assert (d - 1 < 106) by (apply pow2_lt_exp; lia). lia. }
    assert (Hd53 : 53 <= d).
    { assert (2 ^ 52 < 2 ^ d) by lia.
      assert (52 < d) by (apply pow2_lt_exp; [unfold d | ]; lia). lia. }
    assert (Hdn : -1074 < e -> 105 <= d).
    { intro Hlt. specialize (Hnorm Hlt).
      assert (2 ^ 104 < 2 ^ d) by lia.
      assert (104 < d) by (apply pow2_lt_exp; lia). lia. }
    destruct (@round_aux_shape (m * 7036874417766400) (e + -46))
      as (R & HR53 & HR & Hmul).
    { fold d. rewrite fexp_eq. lia. }
    fold d in HR, Hmul. rewrite fexp_eq in HR, Hmul.
    set (e' := Z.max (d + (e + -46) - 53) (-1074)) in *.
    assert (He' : e' <= -46) by (unfold e'; lia).
    assert (Htop : e' = -46 -> R <= 7036874417766400).
    { intro E46. assert (e = -53 /\ d = 106) as [-> ->] by (unfold e' in E46; lia).
      rewrite E46 in HR. change (-46 - (-53 + -46)) with 53 in HR.
      rewrite Pos2Z.inj_mul in HR.
      change (2 ^ 53) with 9007199254740992 in *. lia. }
    unfold mul, SFmul, hundred. cbn [xorb]. fold hundred.
    rewrite Hmul.
    destruct R as [ | r | r]; try lia.
    - split; reflexivity.
    - destruct (Z.ltb_spec (Zpos r) (2 ^ 53)) as [Hlt | Hge].
      + replace (e' <=? 971) with true by (symmetry; apply Z.leb_le; lia).
        apply py_round2_percent; [lia | exact He' | exact Htop].
      + replace (e' + 1 <=? 971) with true by (symmetry; apply Z.leb_le; lia).
        assert (e' <> -46).
        { intro E46. specialize (Htop E46).
          change (2 ^ 53) with 9007199254740992 in *. lia. }
        apply py_round2_percent.
        * change (2 ^ 53) with 9007199254740992. lia.
        * lia.
        * lia. }
  split; [apply Hrange | ]. split; [apply Hrange | reflexivity].
Qed.

Lemma risk_percentage_in_range_witness :
  leb zero (py_round2 (mul lit_0_3 hundred)) = true
  /\ leb (py_round2 (mul lit_0_3 hundred)) hundred = true.
Proof.
  pose proof (@risk_percentage_in_range lit_0_3 eq_refl eq_refl eq_refl) as H.
  cbv zeta in H. exact (conj (proj1 H) (proj1 (proj2 H))).
Defined.

End Percentage.


(** ** The feature row and the constructor of the inference system *)

Section FeatureRow.

Import F64 Py Scenarios Readings.
Import wildfire_inference_system.

Local Open Scope string_scope.

Lemma lookup_all_spec (f : features) (cols : list string) :
  (forall row, lookup_all f cols = Returned row <->
     Forall2 (fun col x => features_item f col = Some x) cols row) /\
  (forall e, lookup_all f cols = Raised e <->
     exists before col after,
       cols = (before ++ col :: after)%list /\
       Forall (fun c => features_item f c <> None) before /\
       features_item f col = None /\ e = "'" ++ col ++ "'").
Proof.
  induction cols as [ | c rest [IHret IHraise]].
  - split.
    + intro row. split.
      * intro H. injection H as <-. constructor.
      * intro H. inversion H. reflexivity.
    + intro e. split; [discriminate | ].
      intros (before & col & after & Hc & _). destruct before; discriminate.
  - cbn [lookup_all]. destruct (features_item f c) as [x | ] eqn:Hx.
    + split.
      * intro row. split.
        -- destruct (lookup_all f rest) as [xs | e]; [ | discriminate].
           intro H. injection H as <-. constructor; [exact Hx | ].
           apply IHret. reflexivity.
        -- intro H. inversion H as [ | c' y rest' ys Hy Hrest]; subst.
           apply IHret in Hrest. rewrite Hrest. cbn [bind]. congruence.
      * intro e. split.
        -- destruct (lookup_all f rest) as [xs | e'] eqn:Hrest; [discriminate | ].
           intro H. injection H as <-.
           destruct (proj1 (IHraise e') eq_refl) as (before & col & after & -> & Hb & Hc & ->).
           exists (c :: before), col, after. repeat split; try assumption.
           constructor; [congruence | assumption].
        -- intros (before & col & after & Hc & Hb & Hcol & ->).
           destruct before as [ | b before]; cbn [app] in Hc; injection Hc as -> ->.
           ++ congruence.
           ++ inversion Hb; subst.
              rewrite (proj2 (IHraise ("'" ++ col ++ "'"))); [reflexivity | ].
              exists before, col, after. repeat split; assumption.
    + split.
      * intro row. split; [discriminate | ].
        intro H. inversion H; subst. congruence.
      * intro e. split.
        -- intro H. injection H as <-. exists [], c, rest.
           repeat split; [constructor | exact Hx].
        -- intros (before & col & after & Hc & Hb & Hcol & ->).
           destruct before as [ | b before]; cbn [app] in Hc; injection Hc as -> ->.
           ++ reflexivity.
           ++ inversion Hb; subst. congruence.
Qed.

(** X7. The row [[features[col] for col in self.feature_columns]] follows
    the columns: it is returned exactly when every column is a key of the
    features, and then holds their values in the order of the columns;
    otherwise the [KeyError] names the first column that is not a key. *)
Theorem feature_row_in_column_order (f : features) (cols : list string) :
  (forall row, lookup_all f cols = Returned row <->
     Forall2 (fun col x => features_item f col = Some x) cols row) /\
  (forall e, lookup_all f cols = Raised e <->
     exists before col after,
       cols = (before ++ col :: after)%list /\
       Forall (fun c => features_item f c <> None) before /\
       features_item f col = None /\ e = "'" ++ col ++ "'").
Proof. exact (lookup_all_spec f cols). Qed.

(** X8. A column the features do not have stops [_predict_ros] with the
    [KeyError] of the first such column, before the scaler and the model
    are consulted and before anything is printed. *)
Theorem predict_ros_unknown_column (self : WildfireInferenceSystem) (f : features)
    (before : list string) (col : string) (after : list string) (out : stdout) :
  feature_columns self = Some (before ++ col :: after)%list ->
  Forall (fun c => features_item f c <> None) before ->
  features_item f col = None ->
  forall scaler' model',
    _predict_ros {| model := model'; scaler := scaler';
                    feature_columns := feature_columns self |} f out
    = (Raised ("'" ++ col ++ "'"), out)
    /\ _predict_ros self f out = (Raised ("'" ++ col ++ "'"), out).
Proof.
  intros Hcols Hb Hcol scaler' model'.
  assert (Hrow : lookup_all f (before ++ col :: after) = Raised ("'" ++ col ++ "'")).
  { apply (lookup_all_spec f (before ++ col :: after)).
    exists before, col, after. repeat split; assumption. }
  unfold _predict_ros. cbn [feature_columns]. rewrite Hcols.
  destruct (before ++ col :: after)%list as [ | c rest] eqn:Hl.
  { destruct before; discriminate. }
  unfold io_bind, lift. cbv beta iota. rewrite Hrow. split; reflexivity.
Qed.

Lemma predict_ros_unknown_column_witness :
  _predict_ros
    {| model := fun _ => Returned two; scaler := None;
       feature_columns := Some ["temp_c"; "fwi"; "wind_gust"; "ndvi"] |}
    fallback_features []
  = (Raised "'wind_gust'", []).
Proof.
  refine (proj2 (@predict_ros_unknown_column
           {| model := fun _ => Returned two; scaler := None;
              feature_columns := Some ["temp_c"; "fwi"; "wind_gust"; "ndvi"] |}
           fallback_features ["temp_c"; "fwi"] "wind_gust" ["ndvi"] []
           eq_refl _ eq_refl None (fun _ => Returned two))).
  repeat constructor; discriminate.
Defined.

(** X9. Without named columns (none in the model file, or an empty list)
    [_predict_ros] reads the twelve features in the fixed order of the
    source, which is also what it does when the model file names exactly
    these twelve columns in that order: the three systems behave alike on
    every input. *)
Theorem predict_ros_default_order (m : regressor) (sc : option transformer)
    (f : features) :
  let system cols := {| model := m; scaler := sc; feature_columns := cols |} in
  _predict_ros (system (Some default_columns)) f = _predict_ros (system None) f /\
  _predict_ros (system (Some [])) f = _predict_ros (system None) f /\
  lookup_all f default_columns
  = Returned [temp_c f; rel_humidity_pct f; wind_speed_ms f; precip_mm f;
              vpd_kpa f; fwi f; ndvi f; ndmi f; lfmc_proxy_pct f;
              elevation_m f; slope_pct f; aspect_deg f].
Proof.
  cbv zeta. repeat split; reflexivity.
Qed.

End FeatureRow.


Section Constructor.

Import F64 Py Scenarios Readings.
Import wildfire_inference_system.

Local Open Scope string_scope.

Context {formulas : physics.Formulas}.

(** X10. The constructor loads exactly one file.  A path given by the
    caller is used as it is.  Without one, the file is the first that
    exists among the old, the new and the real model, and the old one when
    none exists.  A failed load is reported on one line and re-raised
    unchanged; a successful load gives the system its model, scaler and
    columns, a bare model standing for a dictionary without scaler and
    columns. *)
Theorem init_loads_one_path (w : World) (model_path : option string) (out : stdout) :
  exists path,
    (forall p, model_path = Some p -> path = p) /\
    (model_path = None ->
       (path_exists w (old_model_path w) = true -> path = old_model_path w) /\
       (path_exists w (old_model_path w) = false ->
        path_exists w (new_model_path w) = true -> path = new_model_path w) /\
       (path_exists w (old_model_path w) = false ->
        path_exists w (new_model_path w) = false ->
        path_exists w (real_model_path w) = true -> path = real_model_path w) /\
       (path_exists w (old_model_path w) = false ->
        path_exists w (new_model_path w) = false ->
        path_exists w (real_model_path w) = false -> path = old_model_path w)) /\
    match joblib_load w path with
    | Raised e =>
        __init__ w model_path out
        = (Raised e,
           (out ++ loading_lines path
                ++ [[Text "❌ Failed to load model from "; FmtStr path;
                     Text ": "; FmtStr e]])%list)
    | Returned data =>
        exists self,
          __init__ w model_path out
          = (Returned self,
             (out ++ loading_lines path ++ loaded_lines (feature_columns self))%list)
          /\ match data with
             | ModelObject m =>
                 self = {| model := m; scaler := None; feature_columns := None |}
             | ModelDict m sc cols =>
                 scaler self = sc /\ feature_columns self = cols
                 /\ forall predictor, m = Some predictor -> model self = predictor
             end
    end.
Proof.
  assert (Hrun : forall path,
            (match model_path with
             | Some p => p
             | None =>
                 if path_exists w (old_model_path w) then old_model_path w
                 else match find (path_exists w)
                              [new_model_path w; real_model_path w] with
                      | Some alt_path => alt_path
                      | None => old_model_path w
                      end
             end) = path ->
            match joblib_load w path with
            | Raised e =>
                __init__ w model_path out
                = (Raised e,
                   (out ++ loading_lines path
                        ++ [[Text "❌ Failed to load model from "; FmtStr path;
                             Text ": "; FmtStr e]])%list)
            | Returned data =>
                exists self,
                  __init__ w model_path out
                  = (Returned self,
                     (out ++ loading_lines path
                          ++ loaded_lines (feature_columns self))%list)
                  /\ match data with
                     | ModelObject m =>
                         self = {| model := m; scaler := None; feature_columns := None |}
                     | ModelDict m sc cols =>
                         scaler self = sc /\ feature_columns self = cols
                         /\ forall predictor, m = Some predictor -> model self = predictor
                     end
            end).
  { intros path Hpath. unfold __init__.
    fold (old_model_path w) (new_model_path w) (real_model_path w).
    cbv zeta. rewrite Hpath.
    unfold io_bind, try_except, lift, print, raise, loading_lines.
    destruct (joblib_load w path) as [data | e].
    - destruct data as [m sc cols | m].
      + exists {| model := match m with
                            | Some f => f
                            | None => fun _ => Raised "'dict' object has no attribute 'predict'"
                            end;
                   scaler := sc; feature_columns := cols |}.
        split.
        * cbn [feature_columns]. unfold loaded_lines.
          destruct cols as [[ | c cols] | ]; unfold ret;
            repeat rewrite <- app_assoc; reflexivity.
        * cbn [scaler feature_columns model]. repeat split.
          intros predictor ->. reflexivity.
      + eexists. split; [ | reflexivity].
        cbn [feature_columns]. unfold loaded_lines, ret.
        repeat rewrite <- app_assoc. reflexivity.
    - repeat rewrite <- app_assoc. reflexivity. }
  destruct model_path as [p | ].
  - exists p. split; [intros p' H; congruence | ].
    split; [discriminate | ]. apply Hrun. reflexivity.
  - cbn [find] in Hrun.
    destruct (path_exists w (old_model_path w)) eqn:Hold.
    + exists (old_model_path w). split; [discriminate | ].
      split; [ | apply Hrun; reflexivity].
      intros _. repeat split; intros; congruence.
    + destruct (path_exists w (new_model_path w)) eqn:Hnew.
      * exists (new_model_path w). split; [discriminate | ].
        split; [ | apply Hrun; reflexivity].
        intros _. repeat split; intros; congruence.
      * destruct (path_exists w (real_model_path w)) eqn:Hreal.
        -- exists (real_model_path w). split; [discriminate | ].
           split; [ | apply Hrun; reflexivity].
           intros _. repeat split; intros; congruence.
        -- exists (old_model_path w). split; [discriminate | ].
           split; [ | apply Hrun; reflexivity].
           intros _. repeat split; intros; congruence.
Qed.

Lemma predict_ros_run (self : WildfireInferenceSystem) (f : features) :
  exists c lines, forall out, _predict_ros self f out = (c, (out ++ lines)%list).
Proof.
  unfold _predict_ros, io_bind, lift, print, ret.
  destruct (match feature_columns self with
            | Some ((_ :: _) as cols) => lookup_all f cols
            | _ => Returned _
            end) as [row | e].
  2: { exists (Raised e), []. intro out. rewrite app_nil_r. reflexivity. }
  destruct (match scaler self with
            | Some transform => transform row
            | None => Returned row
            end) as [scaled | e].
  2: { exists (Raised e), []. intro out. rewrite app_nil_r. reflexivity. }
  destruct (model self scaled) as [x | e].
  2: { exists (Raised e), []. intro out. rewrite app_nil_r. reflexivity. }
  eexists. eexists. intro out. reflexivity.
Qed.

Lemma print_concerns_run (concerns : list string) :
  exists lines, forall out, print_concerns concerns out = (Returned tt, (out ++ lines)%list).
Proof.
  induction concerns as [ | c rest (lines & IH)].
  - exists []. intro out. rewrite app_nil_r. reflexivity.
  - eexists. intro out. cbn [print_concerns]. unfold io_bind, print.
    rewrite IH. rewrite <- app_assoc. reflexivity.
Qed.

(** [_display_results] only prints. *)
Lemma display_results_run (r : results) :
  exists lines, forall out, _display_results r out = (Returned tt, (out ++ lines)%list).
Proof.
  destruct (print_concerns_run (key_concerns (threat_assessment r))) as (cl & Hcl).
  unfold _display_results. cbv zeta.
  destruct (key_concerns (threat_assessment r)) as [ | c rest] eqn:Hk.
  - eexists. intro out. unfold io_bind, print, ret.
    repeat rewrite <- app_assoc. cbn [app]. reflexivity.
  - eexists. intro out. unfold io_bind, print, ret.
    rewrite Hcl. repeat rewrite <- app_assoc. cbn [app]. reflexivity.
Qed.

(** X11. A model file that holds a dictionary without a ['model'] entry
    is accepted by the constructor, which keeps the dictionary itself as
    the model; the system it builds can never predict: [_predict_ros]
    raises on every input without printing, and so does
    [predict_wildfire_threat] at every location. *)
Theorem dict_without_model_never_predicts (w : World) (path : string)
    (sc : option transformer) (cols : option (list string)) (out : stdout) :
  joblib_load w path = Returned (ModelDict None sc cols) ->
  exists self,
    __init__ w (Some path) out
    = (Returned self, (out ++ loading_lines path ++ loaded_lines cols)%list) /\
    (forall f o, exists e, _predict_ros self f o = (Raised e, o)) /\
    (scaler self = None -> feature_columns self = None ->
     forall f o, _predict_ros self f o
                 = (Raised "'dict' object has no attribute 'predict'", o)) /\
    (forall w' lat lon o, exists e o',
       predict_wildfire_threat self w' lat lon o = (Raised e, o')).
Proof.
  intro Hload.
  set (self := {| model := fun _ => Raised "'dict' object has no attribute 'predict'";
                  scaler := sc; feature_columns := cols |}).
  assert (Hros : forall f o, exists e, _predict_ros self f o = (Raised e, o)).
  { intros f o. unfold _predict_ros, io_bind, lift. cbn [feature_columns scaler model self].
    destruct (match cols with
              | Some ((_ :: _) as cols0) => lookup_all f cols0
              | _ => Returned _
              end) as [row | e]; [ | eauto].
    destruct (match sc with
              | Some transform => transform row
              | None => Returned row
              end) as [scaled | e]; eauto. }
  exists self. split; [ | split; [exact Hros | split]].
  - unfold __init__, io_bind, try_except, lift, print, loading_lines, loaded_lines.
    cbv zeta. rewrite Hload. fold self. cbn [feature_columns self].
    destruct cols as [[ | c cols] | ]; unfold ret;
      repeat rewrite <- app_assoc; reflexivity.
  - intros Hsc Hcols f o. unfold _predict_ros, io_bind, lift.
    rewrite Hsc, Hcols. reflexivity.
  - intros w' lat lon o. unfold predict_wildfire_threat, io_bind, print.
    destruct (get_live_features w' lat lon _) as [[f | e] o1]; [ | eauto].
    cbv beta iota. edestruct (Hros f) as (e & He). rewrite He. eauto.
Qed.

(** X12. When [live_data_fetcher] could not be imported, the fallback
    features stand for every location: the outcome of
    [predict_wildfire_threat] is the same at all coordinates and whatever
    has been printed before, apart from the [location] entry of the
    result, so a failure is the same failure everywhere. *)
Theorem fallback_ignores_location (self : WildfireInferenceSystem) (w : World) :
  live_data_fetcher w = None ->
  exists answer : outcome (float * fire_metrics),
    forall lat lon out,
      fst (predict_wildfire_threat self w lat lon out)
      = match answer with
        | Raised e => Raised e
        | Returned (ros, metrics) =>
            Returned {| location := (lat, lon);
                        live_features := fallback_features;
                        ros_prediction_m_per_min := ros;
                        fire_behavior := metrics;
                        threat_assessment := _generate_threat_assessment metrics |}
        end.
Proof.
  intro Hfetch.
  destruct (predict_ros_run self fallback_features) as (c & lines & Hros).
  destruct c as [ros | e].
  - destruct (calculate_fire_behavior_run fallback_features ros) as (m & ml & Hm).
    exists (Returned (ros, m)). intros lat lon out.
    destruct (display_results_run
                {| location := (lat, lon);
                   live_features := fallback_features;
                   ros_prediction_m_per_min := ros;
                   fire_behavior := m;
                   threat_assessment := _generate_threat_assessment m |})
      as (dl & Hd).
    unfold predict_wildfire_threat, get_live_features. rewrite Hfetch.
    unfold io_bind at 1 2 3 4 5. unfold print at 1 2 3. unfold ret at 1.
    unfold io_bind at 1. unfold print at 1.
    rewrite Hros.
    unfold io_bind at 1 2. unfold print at 1. rewrite Hm.
    unfold io_bind at 1 2. unfold print at 1. cbv zeta. rewrite Hd.
    reflexivity.
  - exists (Raised e). intros lat lon out.
    unfold predict_wildfire_threat, get_live_features. rewrite Hfetch.
    unfold io_bind at 1 2 3 4 5. unfold print at 1 2 3. unfold ret at 1.
    unfold io_bind at 1. unfold print at 1.
    rewrite Hros. reflexivity.
Qed.

End Constructor.

Lemma dict_without_model_never_predicts_witness :
  exists self out',
    wildfire_inference_system.__init__
      {| wildfire_inference_system.CURRENT_DIR := "/srv";
         wildfire_inference_system.live_data_fetcher := None;
         wildfire_inference_system.path_exists := fun _ => true;
         wildfire_inference_system.joblib_load :=
           fun _ => Py.Returned (wildfire_inference_system.ModelDict None None None) |}
      (Some "model.joblib"%string) []
    = (Py.Returned self, out')
    /\ wildfire_inference_system._predict_ros self
         wildfire_inference_system.fallback_features []
       = (Py.Raised "'dict' object has no attribute 'predict'"%string, []).
Proof.
  destruct (@dict_without_model_never_predicts Scenarios.sample_formulas
              {| wildfire_inference_system.CURRENT_DIR := "/srv";
                 wildfire_inference_system.live_data_fetcher := None;
                 wildfire_inference_system.path_exists := fun _ => true;
                 wildfire_inference_system.joblib_load :=
                   fun _ => Py.Returned (wildfire_inference_system.ModelDict None None None) |}
              "model.joblib"%string None None [] eq_refl)
    as (self & Hinit & _ & Hros & _).
  exists self. eexists. split; [exact Hinit | ].
  assert (Hself : self
            = {| wildfire_inference_system.model :=
                   fun _ => Py.Raised "'dict' object has no attribute 'predict'"%string;
                 wildfire_inference_system.scaler := None;
                 wildfire_inference_system.feature_columns := None |}).
  { vm_compute in Hinit. injection Hinit as Hself. symmetry. exact Hself. }
  apply Hros; rewrite Hself; reflexivity.
Defined.

Lemma fallback_ignores_location_witness :
  exists answer,
    forall lat lon out,
      fst (wildfire_inference_system.predict_wildfire_threat
             (formulas := Scenarios.sample_formulas)
             (Scenarios.system_predicting F64.two) Scenarios.inference_world lat lon out)
      = match answer with
        | Py.Raised e => Py.Raised e
        | Py.Returned (ros, metrics) =>
            Py.Returned
              {| wildfire_inference_system.location := (lat, lon);
                 wildfire_inference_system.live_features :=
                   wildfire_inference_system.fallback_features;
                 wildfire_inference_system.ros_prediction_m_per_min := ros;
                 wildfire_inference_system.fire_behavior := metrics;
                 wildfire_inference_system.threat_assessment :=
                   wildfire_inference_system._generate_threat_assessment metrics |}
        end.
Proof.
  exact (@fallback_ignores_location Scenarios.sample_formulas
           (Scenarios.system_predicting F64.two) Scenarios.inference_world eq_refl).
Defined.


(** ** Order of the threat levels *)

Section ThreatOrder.

Import F64 Py F64Facts Scenarios Readings.
Import wildfire_inference_system.

Local Open Scope string_scope.

(** A float above a positive threshold stays above it when it grows. *)
Lemma gtb_threshold_mono (mc : positive) (ec : Z) (x y : float) :
  gtb x (S754_finite false mc ec) = true -> leb x y = true ->
  gtb y (S754_finite false mc ec) = true.
Proof.
  unfold gtb. fold (ltb (S754_finite false mc ec) x) (ltb (S754_finite false mc ec) y).
  destruct x as [sx | [ | ] | | [ | ] mx ex]; try discriminate;
    destruct y as [sy | [ | ] | | [ | ] my ey]; try discriminate; try reflexivity.
  rewrite !ltb_finite, leb_finite. intros Hx Hy.
  apply orb_true_iff in Hx. apply orb_true_iff in Hy. apply orb_true_iff.
  rewrite !andb_true_iff, !Z.ltb_lt, !Z.eqb_eq in *.
  rewrite Z.leb_le in Hy. lia.
Qed.

Lemma score_tier_mono (x y : float) :
  leb x y = true -> (score_tier x <= score_tier y)%Z.
Proof.
  intro Hxy. unfold score_tier.
  assert (Hmono : forall mc ec, gtb x (S754_finite false mc ec) = true ->
                                gtb y (S754_finite false mc ec) = true)
    by (intros mc ec H; apply gtb_threshold_mono with x; assumption).
  unfold lit_0_7, lit_0_5, lit_0_3.
  destruct (gtb x (S754_finite false 6305039478318694 (-53))) eqn:H7.
  { rewrite (Hmono _ _ H7). lia. }
  destruct (gtb x (S754_finite false 4503599627370496 (-53))) eqn:H5.
  { rewrite (Hmono _ _ H5).
    destruct (gtb y (S754_finite false 6305039478318694 (-53))); lia. }
  destruct (gtb x (S754_finite false 5404319552844595 (-54))) eqn:H3.
  { rewrite (Hmono _ _ H3).
    destruct (gtb y (S754_finite false 6305039478318694 (-53)));
      destruct (gtb y (S754_finite false 4503599627370496 (-53))); lia. }
  destruct (gtb y (S754_finite false 6305039478318694 (-53)));
    destruct (gtb y (S754_finite false 4503599627370496 (-53)));
    destruct (gtb y (S754_finite false 5404319552844595 (-54))); lia.
Qed.

Lemma threat_level_rank (m : fire_metrics) :
  level_rank (threat_level (_generate_threat_assessment m))
  = Z.max (score_tier (expected_threat m)) (class_tier (severity_class m)).
Proof.
  unfold _generate_threat_assessment, score_tier, class_tier. cbv zeta.
  destruct (gtb (expected_threat m) lit_0_7);
    destruct (gtb (expected_threat m) lit_0_5);
    destruct (gtb (expected_threat m) lit_0_3);
    destruct (severity_class m =? "Extreme");
    destruct (severity_class m =? "High");
    destruct (severity_class m =? "Moderate"); reflexivity.
Qed.

(** X13. The threat level is the higher of the two levels its inputs ask
    for: the one of the expected threat (above 0.7 EXTREME, above 0.5
    HIGH, above 0.3 MODERATE) and the one named by the severity class;
    neither input can lower what the other one asks for, and the colour
    always goes with the level. *)
Theorem threat_level_is_highest_tier (m : fire_metrics) :
  let a := _generate_threat_assessment m in
  level_rank (threat_level a)
  = Z.max (score_tier (expected_threat m)) (class_tier (severity_class m)) /\
  (score_tier (expected_threat m) <= level_rank (threat_level a))%Z /\
  (class_tier (severity_class m) <= level_rank (threat_level a))%Z /\
  In (threat_level a, threat_color a, level_rank (threat_level a))
     [("LOW", "🟢", 0%Z); ("MODERATE", "🟡", 1%Z); ("HIGH", "🟠", 2%Z);
      ("EXTREME", "🔴", 3%Z)].
Proof.
  cbv zeta. rewrite threat_level_rank.
  split; [reflexivity | ]. split; [lia | ]. split; [lia | ].
  rewrite <- threat_level_rank.
  unfold _generate_threat_assessment. cbv zeta.
  destruct (gtb (expected_threat m) lit_0_7 || (severity_class m =? "Extreme"));
    [cbn; tauto | ].
  destruct (gtb (expected_threat m) lit_0_5 || (severity_class m =? "High"));
    [cbn; tauto | ].
  destruct (gtb (expected_threat m) lit_0_3 || (severity_class m =? "Moderate"));
    cbn; tauto.
Qed.

(** X14. The threat level is monotone: metrics with an expected threat
    at least as large (as floats, so neither is a NaN) and a severity
    class asking for at least as high a level never get a lower threat
    level. *)
Theorem threat_level_monotone (m m' : fire_metrics) :
  leb (expected_threat m) (expected_threat m') = true ->
  (class_tier (severity_class m) <= class_tier (severity_class m'))%Z ->
  (level_rank (threat_level (_generate_threat_assessment m))
   <= level_rank (threat_level (_generate_threat_assessment m')))%Z.
Proof.
  intros Het Hcls. rewrite !threat_level_rank.
  pose proof (score_tier_mono _ _ Het). lia.
Qed.

Lemma threat_level_monotone_witness :
  (level_rank (threat_level
                 (_generate_threat_assessment (metrics_with_threat "Low" lit_0_4)))
   <= level_rank (threat_level
                    (_generate_threat_assessment (metrics_with_threat "High" lit_0_6))))%Z.
Proof.
  apply (@threat_level_monotone (metrics_with_threat "Low" lit_0_4)
           (metrics_with_threat "High" lit_0_6)).
  - reflexivity.
  - vm_compute. discriminate.
Defined.

End ThreatOrder.


(** ** Answers of the routes *)

Section RouteAnswers.

Import F64 Py Scenarios Readings.
Import simple_predict app_fixed.

Local Open Scope string_scope.

Variable float_of_string : string -> option float.
Variable w : World.
Variable self : WildfirePredictor.
Variable formulas : IO physics.Formulas.
Variable iw : wildfire_inference_system.World.

Lemma analysis_returns_200 (latf lonf : float) (out out' : stdout) (r : response) :
  comprehensive_analysis formulas iw latf lonf out = (Returned r, out') -> snd r = 200.
Proof.
  unfold comprehensive_analysis. intro H.
  repeat (let a := fresh "a" in let mid := fresh "mid" in let Ha := fresh "Ha" in
          apply io_bind_returned in H as (a & mid & Ha & H)).
  apply ret_returned in H as [<- _]. reflexivity.
Qed.

(** X16. Both routes answer 400 to the malformed requests and to no
    other: a request gets status 400 exactly when a parameter is missing
    or is not the text of a float, whatever the services, the model and
    the analysis do.  The body then tells which of the two it was
    (a missing parameter first), nothing is printed, and the answer does
    not depend on the services, the predictor or the inference system. *)
Theorem bad_request_iff_malformed (lat lon : option string) (out : stdout) :
  (status_of (predict_route float_of_string w self lat lon) = 400
   <-> malformed float_of_string lat lon) /\
  (status_of (fst (analyze_threat_route float_of_string w self formulas iw lat lon out))
   = 400 <-> malformed float_of_string lat lon) /\
  (malformed float_of_string lat lon ->
   let body :=
     PyDict [("error",
              PyStr match lat, lon with
                    | Some _, Some _ => "Invalid lat or lon values"
                    | _, _ => "Missing lat or lon parameters"
                    end)] in
   predict_route float_of_string w self lat lon = Returned (body, 400) /\
   analyze_threat_route float_of_string w self formulas iw lat lon out
   = (Returned (body, 400), out)).
Proof.
  unfold predict_route, analyze_threat_route, malformed, jsonify, jsonify_status, ret.
  destruct lat as [lat | ]; destruct lon as [lon | ];
    try (cbn [status_of fst]; repeat split; intros; trivial; fail).
  destruct (float_of_string lat) as [latf | ].
  2: { cbn [status_of fst]. repeat split; intros; auto. }
  destruct (float_of_string lon) as [lonf | ].
  2: { cbn [status_of fst]. repeat split; intros; auto. }
  assert (Hwell : ~ (Some latf = None \/ Some lonf = None))
    by (intros [H | H]; discriminate).
  split; [ | split].
  - split; [ | intro H; contradiction].
    destruct (predict_dict w self latf lonf) as [v | e]; cbn [bind status_of];
      intro H; discriminate.
  - split; [ | intro H; contradiction].
    unfold try_except.
    destruct (comprehensive_analysis formulas iw latf lonf out)
      as [[r | e] mid] eqn:Hrun.
    + apply analysis_returns_200 in Hrun. destruct r as [body status].
      cbn [fst snd status_of] in *. subst status. intro H. discriminate.
    + unfold io_bind, print, lift.
      destruct (predict_dict w self latf lonf) as [v | e']; cbn [fst status_of];
        intro H; discriminate.
  - intro H. contradiction.
Qed.

End RouteAnswers.

Section ThreatRoute.

Import F64 Py Scenarios Readings.
Import simple_predict app_fixed.

Local Open Scope string_scope.

Variable float_of_string : string -> option float.
Variable w : World.
Variable self : WildfirePredictor.
Variable formulas : IO physics.Formulas.
Variable iw : wildfire_inference_system.World.

(** Every record [predict_dict] returns carries the time of the call. *)
Lemma predict_dict_timestamp (lat lon : float) (v : pyval) :
  predict_dict w self lat lon = Returned v ->
  forall default, get_default v "timestamp" default = PyStr (now w).
Proof.
  unfold predict_dict.
  destruct (get_weather_data w lat lon) as [weather error].
  destruct (is_error error).
  { intro H. injection H as <-. reflexivity. }
  destruct (get_lightning_data w self lat lon) as [lightning strikes].
  destruct weather as [data | ]; [ | discriminate].
  destruct (predict_proba (model self) _) as [p | e]; cbn [bind].
  2: { intro H. injection H as <-. reflexivity. }
  destruct (predict_class (model self) _) as [c | e]; cbn [bind].
  2: { intro H. injection H as <-. reflexivity. }
  destruct (risk_level p) as [label | e]; cbn [bind]; [ | discriminate].
  intro H. injection H as <-. reflexivity.
Qed.

(** X17. [/analyze-threat] on well-formed coordinates.  A completed
    analysis is answered with status 200 and nothing more is printed.  A
    failed one is reported on one line and answered with status 500; the
    body names the failure and encloses the basic prediction as
    ['fallback_data'], and its ['timestamp'] is always the one of that
    prediction, never the default of the source.  When the basic
    prediction raises as well, the view raises that second exception and
    no body is built. *)
Theorem analyze_threat_answers (lat lon : string) (latf lonf : float) (out : stdout) :
  float_of_string lat = Some latf -> float_of_string lon = Some lonf ->
  let answer := analyze_threat_route float_of_string w self formulas iw
                  (Some lat) (Some lon) out in
  match comprehensive_analysis formulas iw latf lonf out with
  | (Returned r, out') => answer = (Returned r, out') /\ snd r = 200
  | (Raised e, out') =>
      let reported :=
        (out' ++ [[Text "❌ Threat analysis failed: "; FmtStr e]])%list in
      match predict_dict w self latf lonf with
      | Returned basic =>
          answer
          = (Returned
               (PyDict [("error", PyStr ("Comprehensive threat analysis failed: " ++ e));
                        ("timestamp", PyStr (now w));
                        ("fallback_data", basic)], 500), reported)
          /\ forall default, get_default basic "timestamp" default = PyStr (now w)
      | Raised e' => answer = (Raised e', reported)
      end
  end.
Proof.
  intros Hlat Hlon. cbv zeta. unfold analyze_threat_route. rewrite Hlat, Hlon.
  unfold try_except.
  destruct (comprehensive_analysis formulas iw latf lonf out) as [[r | e] out'] eqn:Hrun.
  - split; [reflexivity | ].
    revert Hrun. unfold comprehensive_analysis. intro H.
    repeat (let a := fresh "a" in let mid := fresh "mid" in let Ha := fresh "Ha" in
            apply io_bind_returned in H as (a & mid & Ha & H)).
    apply ret_returned in H as [<- _]. reflexivity.
  - unfold io_bind, print, lift.
    destruct (predict_dict w self latf lonf) as [basic | e'] eqn:Hbasic.
    + pose proof (predict_dict_timestamp _ _ Hbasic) as Hts.
      split; [ | exact Hts].
      unfold ret, jsonify_status. rewrite Hts. reflexivity.
    + reflexivity.
Qed.

End ThreatRoute.

Lemma analyze_threat_answers_witness :
  exists body out',
    app_fixed.analyze_threat_route Scenarios.float_of_decimal
      Scenarios.weather_down (Scenarios.predictor_with Scenarios.steady_model)
      Scenarios.first_import Scenarios.no_model_file
      (Some "19.05"%string) (Some "72.87"%string) []
    = (Py.Returned (body, 500), out')
    /\ Py.get body "fallback_data"
       = Some (simple_predict.error_dict Scenarios.weather_down
                 "Error: Connection refused").
Proof.
  pose proof (@analyze_threat_answers Scenarios.float_of_decimal
                Scenarios.weather_down (Scenarios.predictor_with Scenarios.steady_model)
                Scenarios.first_import Scenarios.no_model_file
                "19.05"%string "72.87"%string
                (F64.of_fraction false 1905 100) (F64.of_fraction false 7287 100) []
                eq_refl eq_refl) as H.
  cbv zeta in H.
  destruct (app_fixed.comprehensive_analysis Scenarios.first_import
              Scenarios.no_model_file (F64.of_fraction false 1905 100)
              (F64.of_fraction false 7287 100) []) as [[r | e] out'] eqn:Hrun.
  - vm_compute in Hrun. discriminate.
  - destruct (simple_predict.predict_dict Scenarios.weather_down
                (Scenarios.predictor_with Scenarios.steady_model)
                (F64.of_fraction false 1905 100) (F64.of_fraction false 7287 100))
      as [basic | e'] eqn:Hbasic.
    + destruct H as [H _]. vm_compute in Hbasic. injection Hbasic as <-.
      eexists. eexists. split; [exact H | reflexivity].
    + vm_compute in Hbasic. discriminate.
Defined.


(** ** The risk record of [WildfirePredictionAPI] *)

Section RiskRecord.

Import F64 Py Scenarios Readings.
Import wildfire_model.

Local Open Scope string_scope.

Variable lightning_closest : WildfirePredictionAPI -> float -> float -> Z -> outcome pyval.
Variable self : WildfirePredictionAPI.
Variable model : simple_predict.XGBClassifier.
Variable now : string.

(** The lookup of the API always returns a flag: 1 when the service
    answered with at least one strike, 0 otherwise. *)
Lemma api_lightning_run (lat lon : float) (hours : Z) (out : stdout) :
  exists out',
    get_lightning_data lightning_closest self lat lon hours out
    = (Returned (if (1 <=? strike_count (lightning_closest self lat lon hours))%Z
                 then 1%Z else 0%Z), out').
Proof.
  unfold get_lightning_data, strike_count.
  destruct (lightning_closest self lat lon hours) as [data | e].
  - destruct (get data "response") as [response | ].
    + destruct (len response) as [n | ] eqn:Hlen.
      * destruct (truthy response) eqn:Ht.
        -- destruct (Z.ltb_spec 0 n); destruct (Z.leb_spec 1 n); try lia;
             unfold ret; eauto.
        -- rewrite (falsy_len_zero _ Hlen Ht). unfold ret. eauto.
      * destruct (truthy response); unfold io_bind, print, ret; eauto.
    + unfold io_bind, print, ret. eauto.
  - unfold io_bind, print, ret. eauto.
Qed.

(** X18. A coordinate that is zero counts as no coordinate.  When the
    latitude or the longitude is missing or is 0.0 (the equator, the
    prime meridian), [predict_wildfire_risk] behaves as if no position had
    been given at all: the lightning service is not consulted even with
    [use_api=True], the flag of the conditions is used instead, and the
    ['location'] of the result is [None]. *)
Theorem zero_coordinate_is_no_coordinate (weather_data : conditions) (use_api : bool)
    (lat lon : option float) (out : stdout) :
  coordinate_given lat && coordinate_given lon = false ->
  predict_wildfire_risk lightning_closest self model now weather_data use_api lat lon out
  = predict_wildfire_risk lightning_closest self model now weather_data false None None out
  /\ (forall v indent out',
        predict_wildfire_risk lightning_closest self model now weather_data
          use_api lat lon out = (Returned (simple_predict.json_dumps v indent), out') ->
        get v "location" = Some PyNone /\ out' = out).
Proof.
  intro Hcoord.
  assert (Hsame :
    predict_wildfire_risk lightning_closest self model now weather_data use_api lat lon out
    = predict_wildfire_risk lightning_closest self model now weather_data
        false None None out).
  { unfold predict_wildfire_risk.
    destruct lat as [latv | ]; [ | reflexivity].
    destruct lon as [lonv | ]; [ | reflexivity].
    rewrite <- andb_assoc, Hcoord, andb_false_r. reflexivity. }
  split; [exact Hsame | ].
  intros v indent out'. rewrite Hsame.
  unfold predict_wildfire_risk, io_bind, ret, lift.
  destruct (simple_predict.predict_proba model _) as [p | e]; [ | discriminate].
  destruct (simple_predict.predict_class model _) as [c | e]; [ | discriminate].
  intro H. injection H as <- _ <-. split; reflexivity.
Qed.

(** X19. With [use_api=True] and both coordinates given (and not zero)
    the ['lightning_strike_24h'] entry of the conditions plays no part:
    the feature row and the result are built from the answer of the
    lightning service.  The entry of the result tells whether the service
    reported a strike; it is [False] when the lookup failed, whatever the
    conditions said. *)
Theorem api_answer_replaces_flag (weather_data : conditions) (flag : option Z)
    (latv lonv : float) (out : stdout) :
  coordinate_given (Some latv) = true -> coordinate_given (Some lonv) = true ->
  predict_wildfire_risk lightning_closest self model now
    (with_flag weather_data flag) true (Some latv) (Some lonv) out
  = predict_wildfire_risk lightning_closest self model now
      weather_data true (Some latv) (Some lonv) out
  /\ (forall v indent out',
        predict_wildfire_risk lightning_closest self model now
          weather_data true (Some latv) (Some lonv) out
        = (Returned (simple_predict.json_dumps v indent), out') ->
        entry v "input_conditions" "lightning_strike_24h"
        = Some (PyBool (1 <=? strike_count (lightning_closest self latv lonv 24))%Z)
        /\ (lookup_fails (lightning_closest self latv lonv 24) = true ->
            entry v "input_conditions" "lightning_strike_24h" = Some (PyBool false))).
Proof.
  intros Hlat Hlon. split.
  { unfold predict_wildfire_risk. rewrite Hlat, Hlon. reflexivity. }
  intros v indent out'. unfold predict_wildfire_risk. rewrite Hlat, Hlon.
  cbn [andb]. unfold io_bind at 1.
  destruct (api_lightning_run latv lonv 24 out) as (mid & Hrun). rewrite Hrun.
  cbv zeta. unfold io_bind, lift, ret.
  destruct (simple_predict.predict_proba model _) as [p | e]; [ | discriminate].
  destruct (simple_predict.predict_class model _) as [c | e]; [ | discriminate].
  intro H. injection H as <- _ _.
  assert (Hentry : entry
            (PyDict
               [("timestamp", PyStr now);
                ("location", PyDict [("latitude", PyFloat latv); ("longitude", PyFloat lonv)]);
                ("input_conditions",
                 PyDict
                   [("max_temperature_c", PyFloat (tmax_c weather_data));
                    ("relative_humidity_pct", PyFloat (rh_pct weather_data));
                    ("wind_speed_mps", PyFloat (ws_mean_mps weather_data));
                    ("precipitation_mm_24h", PyFloat (precip_mm_24h weather_data));
                    ("vapor_pressure_deficit_kpa", PyFloat (vpd_kpa weather_data));
                    ("lightning_strike_24h",
                     PyBool (negb ((if (1 <=? strike_count (lightning_closest self latv lonv 24))%Z
                                    then 1 else 0) =? 0)%Z))]);
                ("prediction",
                 PyDict
                   [("wildfire_risk_percentage", PyFloat (py_round2 (mul p hundred)));
                    ("risk_level", PyStr (_get_risk_level p));
                    ("fire_predicted", PyBool (negb (c =? 0)%Z))])])
            "input_conditions" "lightning_strike_24h"
          = Some (PyBool (1 <=? strike_count (lightning_closest self latv lonv 24))%Z)).
  { destruct (1 <=? strike_count (lightning_closest self latv lonv 24))%Z; reflexivity. }
  split; [exact Hentry | ].
  intro Hfails. rewrite Hentry. do 2 f_equal.
  apply Z.leb_gt. revert Hfails. unfold lookup_fails, strike_count.
  destruct (lightning_closest self latv lonv 24) as [data | e]; [ | lia].
  destruct (get data "response") as [response | ]; [ | lia].
  destruct (len response) as [n | ]; [ | lia].
  rewrite andb_false_r. discriminate.
Qed.

(** X20. [predict_wildfire_risk] fails only with the model.  When the
    two calls of the model return, a result is returned for every input,
    whatever the lightning service does, and its risk level is one of the
    five labels for every probability, a NaN or a number outside [[0, 1]]
    included. *)
Theorem risk_record_always_labelled (weather_data : conditions) (use_api : bool)
    (lat lon : option float) (out : stdout) :
  (forall row, exists p, simple_predict.predict_proba model row = Returned p) ->
  (forall row, exists c, simple_predict.predict_class model row = Returned c) ->
  exists v out' label,
    predict_wildfire_risk lightning_closest self model now weather_data use_api lat lon out
    = (Returned (simple_predict.json_dumps v 2), out')
    /\ entry v "prediction" "risk_level" = Some (PyStr label)
    /\ In label simple_predict.risk_levels.
Proof.
  intros Hproba Hclass.
  assert (Hlabel : forall p, In (_get_risk_level p) simple_predict.risk_levels).
  { intro p. unfold _get_risk_level.
    destruct (ltb p lit_0_2); [cbn; tauto | ].
    destruct (ltb p lit_0_4); [cbn; tauto | ].
    destruct (ltb p lit_0_6); [cbn; tauto | ].
    destruct (ltb p lit_0_8); cbn; tauto. }
  unfold predict_wildfire_risk.
  set (choice := match lat, lon with
                 | Some latv, Some lonv =>
                     if use_api && coordinate_given lat && coordinate_given lon
                     then get_lightning_data lightning_closest self latv lonv 24
                     else ret _
                 | _, _ => ret _
                 end).
  assert (Hchoice : exists flag out', choice out = (Returned flag, out')).
  { unfold choice. destruct lat as [latv | ]; [ | unfold ret; eauto].
    destruct lon as [lonv | ]; [ | unfold ret; eauto].
    destruct (use_api && coordinate_given (Some latv) && coordinate_given (Some lonv));
      [ | unfold ret; eauto].
    destruct (api_lightning_run latv lonv 24 out) as (out' & Hrun). eauto. }
  destruct Hchoice as (flag & out' & Hchoice).
  unfold io_bind at 1. rewrite Hchoice. cbv zeta.
  unfold io_bind, lift, ret.
  destruct (Hproba [tmax_c weather_data; rh_pct weather_data; ws_mean_mps weather_data;
                    precip_mm_24h weather_data; vpd_kpa weather_data; of_Z flag])
    as (p & Hp).
  destruct (Hclass [tmax_c weather_data; rh_pct weather_data; ws_mean_mps weather_data;
                    precip_mm_24h weather_data; vpd_kpa weather_data; of_Z flag])
    as (c & Hc).
  rewrite Hp, Hc.
  eexists. exists out', (_get_risk_level p).
  split; [reflexivity | ]. split; [reflexivity | apply Hlabel].
Qed.

End RiskRecord.

Lemma zero_coordinate_is_no_coordinate_witness :
  wildfire_model.predict_wildfire_risk (fun _ _ _ _ => Py.Returned (Scenarios.strikes 3))
    Readings.demo_api Scenarios.steady_model "2025-01-01T12:00:00"
    (Readings.with_flag Readings.high_risk_data None) true
    (Some F64.zero) (Some (F64.of_Z 72)) []
  = wildfire_model.predict_wildfire_risk (fun _ _ _ _ => Py.Returned (Scenarios.strikes 3))
      Readings.demo_api Scenarios.steady_model "2025-01-01T12:00:00"
      (Readings.with_flag Readings.high_risk_data None) false None None [].
Proof.
  exact (proj1 (@zero_coordinate_is_no_coordinate
                  (fun _ _ _ _ => Py.Returned (Scenarios.strikes 3))
                  Readings.demo_api Scenarios.steady_model "2025-01-01T12:00:00"
                  (Readings.with_flag Readings.high_risk_data None) true
                  (Some F64.zero) (Some (F64.of_Z 72)) [] eq_refl)).
Defined.

Lemma api_answer_replaces_flag_witness :
  wildfire_model.predict_wildfire_risk (fun _ _ _ _ => Py.Raised "timed out"%string)
    Readings.demo_api Scenarios.steady_model "2025-01-01T12:00:00"
    (Readings.with_flag Readings.high_risk_data None) true
    (Some (F64.of_Z 19)) (Some (F64.of_Z 72)) []
  = wildfire_model.predict_wildfire_risk (fun _ _ _ _ => Py.Raised "timed out"%string)
      Readings.demo_api Scenarios.steady_model "2025-01-01T12:00:00"
      Readings.high_risk_data true (Some (F64.of_Z 19)) (Some (F64.of_Z 72)) [].
Proof.
  exact (proj1 (@api_answer_replaces_flag (fun _ _ _ _ => Py.Raised "timed out"%string)
                  Readings.demo_api Scenarios.steady_model "2025-01-01T12:00:00"
                  Readings.high_risk_data None (F64.of_Z 19) (F64.of_Z 72) []
                  eq_refl eq_refl)).
Defined.

Lemma risk_record_always_labelled_witness :
  exists v out' label,
    wildfire_model.predict_wildfire_risk (fun _ _ _ _ => Py.Raised "timed out"%string)
      Readings.demo_api
      {| simple_predict.predict_proba := fun _ => Py.Returned S754_nan;
         simple_predict.predict_class := fun _ => Py.Returned 1 |}
      "2025-01-01T12:00:00" Readings.high_risk_data true
      (Some (F64.of_Z 19)) (Some (F64.of_Z 72)) []
    = (Py.Returned (simple_predict.json_dumps v 2), out')
    /\ Readings.entry v "prediction" "risk_level" = Some (Py.PyStr label)
    /\ In label simple_predict.risk_levels.
Proof.
  apply (@risk_record_always_labelled (fun _ _ _ _ => Py.Raised "timed out"%string)
           Readings.demo_api
           {| simple_predict.predict_proba := fun _ => Py.Returned S754_nan;
              simple_predict.predict_class := fun _ => Py.Returned 1 |}
           "2025-01-01T12:00:00" Readings.high_risk_data true
           (Some (F64.of_Z 19)) (Some (F64.of_Z 72)) []).
  - intro row. eexists. reflexivity.
  - intro row. eexists. reflexivity.
Defined.
